(** * Approval lifecycle of the Jenkins approval robot

    A shallow embedding of the approval coordinator of
    [src/handlers/api_handler.py] and of the durable store of
    [src/services/database_service.py], with the Telegram commands and
    buttons of [src/handlers/telegram_handler.py] and the approval
    manager of [src/core/approval_manager.py] that call into them.

    Python dictionaries keyed by the approval id are finite maps
    ([gmap string _]), Python sets of ids are [gset string], an approval
    dictionary is a record with one field per key, [threading.Event] is
    its flag, and every handler is a function that takes the handler
    object ([self]) and returns the new one together with its result.
    Readings of the wall clock ([datetime.now()]) are arguments.

    The handler is shared by several threads.  A thread is followed from
    one suspension ([time.sleep], [Event.wait]) to the next; what the
    others do to the handler in between is a parameter: a schedule of
    their operations for the waiter, the sequence of handlers it finds
    for the reminder thread.  No lock protects the handler, so where a
    property depends on what the others do inside such a stretch, the
    stretch is cut at the statement in question: the deadline thread
    into its test and its body, a reminder round into its checks and
    its read and sending. *)

From stdpp Require Import gmap strings list fin_maps pretty.
From Stdlib Require Import ZArith Lia Ascii.

Open Scope string_scope.
Open Scope Z_scope.

(** ** The durable store: [database_service.py] *)

Module Db.

(** [class ApprovalStatus(Enum)]: the four values of the status column. *)
Definition PENDING : string := "pending".
Definition APPROVED : string := "approved".
Definition REJECTED : string := "rejected".
Definition TIMEOUT : string := "timeout".

(** One row of table [approvals]: the attributes of [ApprovalRequest]
    and the three lock columns. *)
Record ApprovalRequest := {
  request_id : string;
  project : string;
  env : string;
  build : string;
  job : string;
  version : string;
  desc : string;
  action : string;
  timeout_seconds : Z;
  status : string;
  created_at : string;
  updated_at : string;
  approver : option string;
  approver_role : option string;
  comment : option string;
  is_locked : bool;
  lock_timestamp : option string;
  lock_timeout : option Z
}.

(** One row of table [approval_history]. *)
Record History := {
  h_request_id : string;
  h_action : string;
  h_operator : string;
  h_operator_role : string;
  h_comment : string;
  h_timestamp : string
}.

(** The service object.  [connectable = false] stands for a server that
    [pymysql.connect] cannot reach: every method then raises inside its
    own [try] and returns its failure value. *)
Record DatabaseService := {
  approvals : gmap string ApprovalRequest;
  approval_history : list History;
  connectable : bool
}.

Definition with_approvals (db : DatabaseService)
    (m : gmap string ApprovalRequest) : DatabaseService :=
  {| approvals := m;
     approval_history := approval_history db;
     connectable := connectable db |}.

(** [_add_history]: one more history row. *)
Definition _add_history (db : DatabaseService)
    (rid act operator operator_role cmt now_str : string) : DatabaseService :=
  {| approvals := approvals db;
     approval_history :=
       approval_history db ++
       [ {| h_request_id := rid; h_action := act; h_operator := operator;
            h_operator_role := operator_role; h_comment := cmt;
            h_timestamp := now_str |} ];
     connectable := connectable db |}.

(** [get_approval]: the row, or [None] when it is absent or the
    connection fails. *)
Definition get_approval (db : DatabaseService) (rid : string)
    : option ApprovalRequest :=
  if connectable db then approvals db !! rid else None.

(** The [UPDATE] of [lock_approval]. *)
Definition set_lock (r : ApprovalRequest) (now_str : string) (timeout : Z)
    (who : string) : ApprovalRequest :=
  {| request_id := request_id r; project := project r; env := env r;
     build := build r; job := job r; version := version r; desc := desc r;
     action := action r; timeout_seconds := timeout_seconds r;
     status := status r; created_at := created_at r;
     updated_at := updated_at r;
     approver := Some who; approver_role := approver_role r;
     comment := comment r;
     is_locked := true; lock_timestamp := Some now_str;
     lock_timeout := Some timeout |}.

(** [lock_approval].  [expired] is the outcome of the comparison
    [(datetime.now() - lock_time).total_seconds() > lock_timeout]. *)
Definition lock_approval (db : DatabaseService) (rid who : string)
    (timeout : Z) (now_str : string) (expired : bool)
    : DatabaseService * bool :=
  if connectable db then
    match approvals db !! rid with
    | None => (db, false)
    | Some r =>
        let locked :=
          if is_locked r && bool_decide (is_Some (lock_timestamp r))
          then (if expired then false else is_locked r)
          else is_locked r in
        if locked && negb (bool_decide (approver r = Some who))
        then (db, false)
        else (with_approvals db
                (<[rid := set_lock r now_str timeout who]> (approvals db)),
              true)
    end
  else (db, false).

(** The [UPDATE] of [unlock_approval]. *)
Definition clear_lock (r : ApprovalRequest) : ApprovalRequest :=
  {| request_id := request_id r; project := project r; env := env r;
     build := build r; job := job r; version := version r; desc := desc r;
     action := action r; timeout_seconds := timeout_seconds r;
     status := status r; created_at := created_at r;
     updated_at := updated_at r;
     approver := approver r; approver_role := approver_role r;
     comment := comment r;
     is_locked := false; lock_timestamp := None; lock_timeout := None |}.

Definition unlock_approval (db : DatabaseService) (rid : string)
    : DatabaseService * bool :=
  if connectable db then
    match approvals db !! rid with
    | None => (db, false)
    | Some r =>
        (with_approvals db (<[rid := clear_lock r]> (approvals db)), true)
    end
  else (db, false).

(** The value of key ["code"] in the dictionary returned by
    [update_approval_status]. *)
Inductive Code :=
| SUCCESS | NOT_FOUND | ALREADY_PROCESSED | LOCK_REQUIRED | SYSTEM_ERROR.

Record UpdateResult := {
  success : bool;
  message : string;
  code : Code
}.

(** How an f-string prints an optional column. *)
Definition fmt (o : option string) : string := default "None" o.

(** The [UPDATE] of [update_approval_status]. *)
Definition set_decision (r : ApprovalRequest)
    (st who role cmt now_str : string) : ApprovalRequest :=
  {| request_id := request_id r; project := project r; env := env r;
     build := build r; job := job r; version := version r; desc := desc r;
     action := action r; timeout_seconds := timeout_seconds r;
     status := st; created_at := created_at r;
     updated_at := now_str;
     approver := Some who; approver_role := Some role;
     comment := Some cmt;
     is_locked := false; lock_timestamp := None;
     lock_timeout := lock_timeout r |}.

(** [update_approval_status]. *)
Definition update_approval_status (db : DatabaseService)
    (rid st who role cmt now_str : string) : DatabaseService * UpdateResult :=
  if connectable db then
    match approvals db !! rid with
    | None =>
        (db, {| success := false; message := "审批请求不存在";
                code := NOT_FOUND |})
    | Some r =>
        if negb (bool_decide (status r = PENDING)) then
          (db, {| success := false;
                  message := "❌ 审批已处理！当前状态: " +:+ status r +:+
                             ", 操作人: " +:+ fmt (approver r) +:+
                             "，请勿重复操作";
                  code := ALREADY_PROCESSED |})
        else if negb (is_locked r)
                || negb (bool_decide (approver r = Some who)) then
          (db, {| success := false; message := "审批请求未被正确锁定";
                  code := LOCK_REQUIRED |})
        else
          let db1 :=
            with_approvals db
              (<[rid := set_decision r st who role cmt now_str]>
                 (approvals db)) in
          (_add_history db1 rid st who role cmt now_str,
           {| success := true; message := "审批" +:+ st +:+ "成功";
              code := SUCCESS |})
    end
  else
    (* the text of the exception follows the colon in the source *)
    (db, {| success := false; message := "系统错误: ";
            code := SYSTEM_ERROR |}).

(** The row that [create_approval] inserts for a new [ApprovalRequest]
    object; the lock columns take their column defaults. *)
Definition new_request (rid prj e b j v dsc act : string) (tmo : Z)
    (now : string) : ApprovalRequest :=
  {| request_id := rid; project := prj; env := e; build := b; job := j;
     version := v; desc := dsc; action := act; timeout_seconds := tmo;
     status := PENDING; created_at := now; updated_at := now;
     approver := None; approver_role := None; comment := None;
     is_locked := false; lock_timestamp := None; lock_timeout := Some 60 |}.

(** [create_approval]: the insert fails on an unreachable server and on
    a [request_id] that is already a primary key. *)
Definition create_approval (db : DatabaseService) (a : ApprovalRequest)
    (now_str : string) : DatabaseService * bool :=
  if connectable db then
    match approvals db !! request_id a with
    | Some _ => (db, false)
    | None =>
        (_add_history
           (with_approvals db (<[request_id a := a]> (approvals db)))
           (request_id a) "created" "system" "system" "创建审批请求" now_str,
         true)
    end
  else (db, false).


(** The [UPDATE] of [cleanup_expired_approvals]. *)
Definition set_timeout (r : ApprovalRequest) (now_str : string)
    : ApprovalRequest :=
  {| request_id := request_id r; project := project r; env := env r;
     build := build r; job := job r; version := version r; desc := desc r;
     action := action r; timeout_seconds := timeout_seconds r;
     status := TIMEOUT; created_at := created_at r;
     updated_at := now_str;
     approver := approver r; approver_role := approver_role r;
     comment := comment r;
     is_locked := is_locked r; lock_timestamp := lock_timestamp r;
     lock_timeout := lock_timeout r |}.

(** [cleanup_expired_approvals].  [strptime] reads a creation time in
    microseconds and [now] is the clock in the same unit; a creation
    time that cannot be read raises before the first update, so nothing
    is changed then. *)
Definition cleanup_expired_approvals (strptime : string -> option Z)
    (db : DatabaseService) (now : Z) (now_str : string) : DatabaseService :=
  if connectable db then
    let pend :=
      filter (fun kv : string * ApprovalRequest => status kv.2 = PENDING)
        (map_to_list (approvals db)) in
    match mapM (fun kv : string * ApprovalRequest =>
                  (fun t : Z => (kv, t)) <$> strptime (created_at kv.2))
               pend with
    | None => db
    | Some timed =>
        let expired_requests :=
          filter (fun p : (string * ApprovalRequest) * Z =>
                    (timeout_seconds p.1.2 * 1000000 < now - p.2)%Z) timed in
        foldl (fun (acc : DatabaseService)
                   (p : (string * ApprovalRequest) * Z) =>
                 _add_history
                   (with_approvals acc
                      (<[p.1.1 := set_timeout p.1.2 now_str]>
                         (approvals acc)))
                   p.1.1 "timeout" "system" "system" "审批超时" now_str)
              db expired_requests
    end
  else db.


End Db.

(** ** The permission collaborator: [permission_service.py]

    The users file is read from disk; what it holds is taken as the two
    look-ups every other method is written with. *)

Record UserInfo := {
  ui_name : option string;
  ui_role : option string
}.

Record PermissionService := {
  get_user_info : string -> option UserInfo;
  get_project_owners : string -> list string;
  (* [get_approval_settings()['approval_timeout_minutes']] *)
  approval_timeout_minutes : Z
}.

(** [get_user_role]: the role of the user, ['用户'] by default. *)
Definition get_user_role (ps : PermissionService) (username : string) : string :=
  match get_user_info ps username with
  | Some ui => default "用户" (ui_role ui)
  | None => "用户"
  end.

(** [get_user_display_name]: name and role, or the bare user name. *)
Definition get_user_display_name (ps : PermissionService) (username : string)
    : string :=
  match get_user_info ps username with
  | Some ui =>
      default username (ui_name ui) +:+ "（" +:+ default "用户" (ui_role ui)
      +:+ "）"
  | None => username
  end.

(** ** The in-memory registry: [class APIHandler] *)

(** The dictionary [approval_data] that [approval_wait] stores under the
    approval id.  Keys written only later are optional. *)
Record ApprovalData := {
  approval_id : string;
  project : string;
  env : string;
  build : string;
  version : string;
  job : string;
  desc : string;
  action : string;
  project_owners : list string;
  timeout_minutes : Z;
  status : string;
  created_at : option string;
  expires_at : option string;
  reminder_count : Z;
  approver : option string;
  approver_role : option string;
  comment : option string;
  updated_at : option string;
  reminder_stopped : bool
}.

(** [d['status'] = st] *)
Definition set_status (d : ApprovalData) (st : string) : ApprovalData :=
  {| approval_id := approval_id d; project := project d; env := env d;
     build := build d; version := version d; job := job d; desc := desc d;
     action := action d; project_owners := project_owners d;
     timeout_minutes := timeout_minutes d;
     status := st;
     created_at := created_at d; expires_at := expires_at d;
     reminder_count := reminder_count d;
     approver := approver d; approver_role := approver_role d;
     comment := comment d; updated_at := updated_at d;
     reminder_stopped := reminder_stopped d |}.

(** The four assignments [d['approver']], [d['approver_role']],
    [d['comment']] and [d['updated_at']]. *)
Definition set_decider (d : ApprovalData) (who role cmt upd : string)
    : ApprovalData :=
  {| approval_id := approval_id d; project := project d; env := env d;
     build := build d; version := version d; job := job d; desc := desc d;
     action := action d; project_owners := project_owners d;
     timeout_minutes := timeout_minutes d;
     status := status d;
     created_at := created_at d; expires_at := expires_at d;
     reminder_count := reminder_count d;
     approver := Some who; approver_role := Some role;
     comment := Some cmt; updated_at := Some upd;
     reminder_stopped := reminder_stopped d |}.

(** [d['reminder_stopped'] = True] *)
Definition set_reminder_stopped (d : ApprovalData) : ApprovalData :=
  {| approval_id := approval_id d; project := project d; env := env d;
     build := build d; version := version d; job := job d; desc := desc d;
     action := action d; project_owners := project_owners d;
     timeout_minutes := timeout_minutes d;
     status := status d;
     created_at := created_at d; expires_at := expires_at d;
     reminder_count := reminder_count d;
     approver := approver d; approver_role := approver_role d;
     comment := comment d; updated_at := updated_at d;
     reminder_stopped := true |}.

(** The attributes of the handler object that the approval life cycle
    reads and writes.  [database_service] is the property of that name:
    [None] while the global service has not been initialised. *)
Record APIHandler := {
  reminder_timers : gset string;
  _stopped_reminders : gset string;
  _processing_approvals : gset string;
  pending_approvals : gmap string ApprovalData;
  _approval_events : gmap string bool;
  database_service : option Db.DatabaseService
}.

Definition with_pending (self : APIHandler) (m : gmap string ApprovalData)
    : APIHandler :=
  {| reminder_timers := reminder_timers self;
     _stopped_reminders := _stopped_reminders self;
     _processing_approvals := _processing_approvals self;
     pending_approvals := m;
     _approval_events := _approval_events self;
     database_service := database_service self |}.

Definition with_events (self : APIHandler) (m : gmap string bool) : APIHandler :=
  {| reminder_timers := reminder_timers self;
     _stopped_reminders := _stopped_reminders self;
     _processing_approvals := _processing_approvals self;
     pending_approvals := pending_approvals self;
     _approval_events := m;
     database_service := database_service self |}.

Definition with_processing (self : APIHandler) (g : gset string) : APIHandler :=
  {| reminder_timers := reminder_timers self;
     _stopped_reminders := _stopped_reminders self;
     _processing_approvals := g;
     pending_approvals := pending_approvals self;
     _approval_events := _approval_events self;
     database_service := database_service self |}.

Definition with_database (self : APIHandler) (db : option Db.DatabaseService)
    : APIHandler :=
  {| reminder_timers := reminder_timers self;
     _stopped_reminders := _stopped_reminders self;
     _processing_approvals := _processing_approvals self;
     pending_approvals := pending_approvals self;
     _approval_events := _approval_events self;
     database_service := db |}.

(** [_cancel_reminder_timer]: the id joins the stopped set, a record that
    is still pending gets its [reminder_stopped] mark, and the thread
    reference is dropped. *)
Definition _cancel_reminder_timer (self : APIHandler) (id : string)
    : APIHandler :=
  {| reminder_timers := reminder_timers self ∖ {[ id ]};
     _stopped_reminders := _stopped_reminders self ∪ {[ id ]};
     _processing_approvals := _processing_approvals self;
     pending_approvals :=
       match pending_approvals self !! id with
       | Some d =>
           if bool_decide (status d = "pending")
           then <[id := set_reminder_stopped d]> (pending_approvals self)
           else pending_approvals self
       | None => pending_approvals self
       end;
     _approval_events := _approval_events self;
     database_service := database_service self |}.

(** The status that [process_approval_internal] derives from [action]. *)
Definition final_status (act : string) : string :=
  if bool_decide (act = "approve") then "approved"
  else if bool_decide (act = "reject") then "rejected"
  else if bool_decide (act = "approved") || bool_decide (act = "rejected")
       then act
  else act +:+ "d".

(** The refusal for a record that is no longer pending. *)
Definition already_processed (current_status : string) : string :=
  if bool_decide (current_status = "approved")
  then "该审批已被通过，无法重复操作"
  else if bool_decide (current_status = "rejected")
  then "该审批已被拒绝，无法重复操作"
  else "该审批已被处理（状态：" +:+ current_status +:+ "），无法重复操作".

Definition in_progress : string := "审批正在处理中，请勿重复点击".

Section Handler.

Variable permission_service : PermissionService.

(** [process_approval_internal].  [now] is
    [datetime.now().isoformat()].  The [finally] clause removes the
    in-progress mark on every path that set it. *)
Definition process_approval_internal (self : APIHandler)
    (id act approver_id approver_username cmt now : string)
    : APIHandler * (bool * string) :=
  if bool_decide (id ∈ _processing_approvals self) then
    (self, (false, in_progress))
  else
    let self1 :=
      with_processing self (_processing_approvals self ∪ {[ id ]}) in
    let self2 := _cancel_reminder_timer self1 id in
    let finally (s : APIHandler) :=
      with_processing s (_processing_approvals s ∖ {[ id ]}) in
    match pending_approvals self2 !! id with
    | None =>
        (finally self2, (false, "审批 " +:+ id +:+ " 不存在或已过期"))
    | Some d =>
        if negb (bool_decide (status d = "pending")) then
          (finally self2, (false, already_processed (status d)))
        else
          let approver_role := get_user_role permission_service
                                 approver_username in
          let d1 := set_status d (final_status act) in
          let d2 := set_decider d1 approver_username approver_role cmt now in
          let d3 := set_reminder_stopped d2 in
          let self3 :=
            with_pending self2 (<[id := d3]> (pending_approvals self2)) in
          (* the event is set, or created already set when it is missing *)
          let self4 :=
            with_events self3 (<[id := true]> (_approval_events self3)) in
          (finally self4, (true, "审批" +:+ act +:+ "成功"))
    end.

(** The body of [timeout_handler] after its sleep; [now] as above. *)
Definition timeout_handler (self : APIHandler) (id now : string)
    : APIHandler :=
  match pending_approvals self !! id with
  | Some d =>
      if bool_decide (status d = "pending") then
        let d1 := set_status d "timeout" in
        let d2 := set_decider d1 "system" "system" "审批超时" now in
        let self1 :=
          with_pending self (<[id := d2]> (pending_approvals self)) in
        let self2 :=
          match _approval_events self1 !! id with
          | Some _ => with_events self1 (<[id := true]> (_approval_events self1))
          | None => self1
          end in
        _cancel_reminder_timer self2 id
      else self
  | None => self
  end.

End Handler.

(** ** The deadline thread, statement by statement

    Nothing holds the handler between the test that [timeout_handler]
    makes after its sleep and the assignments under it: the prints in
    between give way to the other threads, which find the handler as it
    was when the test was made, and the assignments are made on the
    handler as those threads have left it. *)

(** The test [approval_id in self.pending_approvals and
    self.pending_approvals[approval_id]['status'] == 'pending']. *)
Definition timeout_test (self : APIHandler) (id : string) : bool :=
  match pending_approvals self !! id with
  | Some d => bool_decide (status d = "pending")
  | None => false
  end.

(** The body of the [if], run on the handler as it is by then.  The
    five assignments index the registry; [None] is their [KeyError],
    which ends the thread. *)
Definition timeout_body (self : APIHandler) (id now : string)
    : option APIHandler :=
  match pending_approvals self !! id with
  | None => None
  | Some d =>
      let d1 := set_status d "timeout" in
      let d2 := set_decider d1 "system" "system" "审批超时" now in
      let self1 :=
        with_pending self (<[id := d2]> (pending_approvals self)) in
      let self2 :=
        match _approval_events self1 !! id with
        | Some _ => with_events self1 (<[id := true]> (_approval_events self1))
        | None => self1
        end in
      Some (_cancel_reminder_timer self2 id)
  end.

(** ** The periodic sweep: [cleanup_task] *)

(** A [datetime]: microseconds on the local time line, and whether the
    value carries a UTC offset. *)
Record datetime := {
  micros : Z;
  aware : bool
}.

(** The text before a final ['Z'], when the string ends with one. *)
Fixpoint strip_Z (s : string) : option string :=
  match s with
  | EmptyString => None
  | String c rest =>
      match rest with
      | EmptyString =>
          if bool_decide (c = "Z"%char) then Some EmptyString else None
      | String _ _ => String c <$> strip_Z rest
      end
  end.

(** [created_at_str[:-1] + '+00:00'] for a string that ends with ['Z']. *)
Definition normalize_Z (s : string) : string :=
  match strip_Z s with
  | Some p => p +:+ "+00:00"
  | None => s
  end.

Section Sweep.

(** [datetime.fromisoformat]; [None] is its [ValueError]. *)
Variable fromisoformat : string -> option datetime.
(** The reading of a creation time by the durable sweep. *)
Variable strptime : string -> option Z.

(** The [try] block that the sweep runs for one record: its age in
    microseconds, or [None] when the record is skipped (no creation
    time, a creation time that does not parse, or one with an offset,
    which cannot be subtracted from the naive [datetime.now()]). *)
Definition age_of (now : Z) (d : ApprovalData) : option Z :=
  match created_at d with
  | None => None
  | Some s =>
      if bool_decide (s = "") then None
      else
        match fromisoformat (normalize_Z s) with
        | None => None
        | Some t => if aware t then None else Some (now - micros t)
        end
  end.

(** [age_seconds > 7200] *)
Definition expired (now : Z) (d : ApprovalData) : bool :=
  match age_of now d with
  | Some a => bool_decide (7200 * 1000000 < a)
  | None => false
  end.

Definition expired_ids (now : Z) (m : gmap string ApprovalData)
    : list string :=
  (filter (fun kv : string * ApprovalData => expired now kv.2)
     (map_to_list m)).*1.

(** One round of [cleanup_task] after its sleep.  The order in which
    Python lists a set is the order of [elements]. *)
Definition cleanup_task (self : APIHandler) (now : Z) (now_str : string)
    : APIHandler :=
  let ids := expired_ids now (pending_approvals self) in
  let stopped := elements (_stopped_reminders self) in
  {| reminder_timers := reminder_timers self;
     _stopped_reminders :=
       if bool_decide (100 < length stopped)%nat
       then list_to_set (drop (length stopped - 50) stopped)
       else _stopped_reminders self;
     _processing_approvals := ∅;
     pending_approvals := foldr delete (pending_approvals self) ids;
     _approval_events := foldr delete (_approval_events self) ids;
     database_service :=
       (fun db => Db.cleanup_expired_approvals strptime db now now_str)
         <$> database_service self |}.

End Sweep.

(** ** The blocking wait: [approval_wait] *)

(** The JSON bodies that [approval_wait] answers with, by the keys the
    properties speak of. *)
Inductive WaitResponse :=
| FromMemory (result approver approver_role comment : string)
             (waited_seconds : Z)
| LastMoment (result : string) (approver approver_role comment : option string)
             (waited_seconds : Z)
| TimedOut (waited_seconds : Z)
| ErrorResponse (http_status : Z) (message : string).

(** What the other threads of the process do to the handler. *)
Inductive Action :=
| Submit (id act uid user cmt now : string)
| Deadline (id now : string)
| Cancel (id : string)
| Sweep (now : Z) (now_str : string).

(** How the wait loop ends: with an answer, or with [waited] having
    reached [max_wait_seconds].  [blocked] counts the calls that suspend
    the thread for at most one [check_interval]. *)
Inductive LoopExit :=
| Answered (self : APIHandler) (r : WaitResponse) (blocked : nat)
| Elapsed (self : APIHandler) (waited : Z) (blocked tick : nat).

Section Wait.

Variable permission_service : PermissionService.
Variable fromisoformat : string -> option datetime.
Variable strptime : string -> option Z.

Definition run_action (self : APIHandler) (a : Action) : APIHandler :=
  match a with
  | Submit id act uid user cmt now =>
      (process_approval_internal permission_service self id act uid user
         cmt now).1
  | Deadline id now => timeout_handler self id now
  | Cancel id => _cancel_reminder_timer self id
  | Sweep now now_str => cleanup_task fromisoformat strptime self now now_str
  end.

Definition run_actions (self : APIHandler) (l : list Action) : APIHandler :=
  foldl run_action self l.

(** [sched n]: what the other threads do while the waiter is suspended
    for the [n]-th time. *)
Variable sched : nat -> list Action.

Definition suspend (self : APIHandler) (tick : nat) : APIHandler :=
  run_actions self (sched tick).

(** [memory_status and memory_status != 'pending'] *)
Definition resolved (d : ApprovalData) : bool :=
  negb (bool_decide (status d = "")) && negb (bool_decide (status d = "pending")).

Definition clear_event (self : APIHandler) (id : string) : APIHandler :=
  with_events self (<[id := false]> (_approval_events self)).

(** One round of the loop for a record that is not resolved: wait on
    the event, or sleep when there is none; then the second sleep of
    the round.  [memory_status] is the status read at the head of the
    round.  The result is the handler with the counters [blocked] and
    [tick]. *)
Definition wait_round (id : string) (self : APIHandler)
    (memory_status : option string) (blocked tick : nat)
    : APIHandler * nat * nat :=
  let '(self1, blocked1, tick1) :=
    match _approval_events self !! id with
    | Some true => (clear_event self id, blocked, tick)
    | Some false =>
        (* event_obj.wait(timeout=check_interval) *)
        let s := suspend self tick in
        (match _approval_events s !! id with
         | Some true => clear_event s id
         | _ => s
         end, S blocked, S tick)
    | None =>
        (* time.sleep(check_interval) *)
        (suspend self tick, S blocked, S tick)
    end in
  if bool_decide (_approval_events self1 !! id = None)
     && bool_decide (memory_status = Some "pending")
  then (suspend self1 tick1, S blocked1, S tick1)
  else (self1, blocked1, tick1).

(** The [while waited < max_wait_seconds] loop; [remaining] is the
    number of rounds left, [waited] grows by [check_interval = 1]. *)
Fixpoint wait_loop (remaining : nat) (id : string) (self : APIHandler)
    (waited : Z) (blocked tick : nat) : LoopExit :=
  match remaining with
  | O => Elapsed self waited blocked tick
  | S k =>
      match pending_approvals self !! id with
      | Some d =>
          if resolved d then
            Answered (_cancel_reminder_timer self id)
              (FromMemory (status d)
                 (default "unknown" (approver d))
                 (default "管理员" (approver_role d))
                 (default "" (comment d))
                 waited)
              blocked
          else
            let '(self', blocked', tick') :=
              wait_round id self (Some (status d)) blocked tick in
            wait_loop k id self' (waited + 1) blocked' tick'
      | None =>
          let '(self', blocked', tick') :=
            wait_round id self None blocked tick in
          wait_loop k id self' (waited + 1) blocked' tick'
      end
  end.

(** The code after the loop ("超时处理"): the reminder is cancelled, the
    durable row is read once more, and the answer is built.  Without a
    database service the attribute access raises and the handler
    answers 500. *)
Definition wait_epilogue (self : APIHandler) (id : string) (waited : Z)
    (now_str : string) : APIHandler * WaitResponse :=
  let self1 := _cancel_reminder_timer self id in
  match database_service self1 with
  | None => (self1, ErrorResponse 500 "❌ 审批请求失败: ")
  | Some db =>
      match Db.get_approval db id with
      | Some approval_request =>
          if bool_decide (Db.status approval_request = Db.PENDING) then
            let db' :=
              (Db.update_approval_status db id Db.TIMEOUT "system" "system"
                 "审批超时" now_str).1 in
            let self2 := with_database self1 (Some db') in
            let self3 :=
              match pending_approvals self2 !! id with
              | Some d =>
                  let s :=
                    with_pending self2
                      (<[id := set_status d "timeout"]>
                         (pending_approvals self2)) in
                  match _approval_events s !! id with
                  | Some _ =>
                      with_events s (<[id := true]> (_approval_events s))
                  | None => s
                  end
              | None => self2
              end in
            (self3, TimedOut waited)
          else
            let self2 :=
              match pending_approvals self1 !! id with
              | Some d =>
                  with_pending self1
                    (<[id := set_status d (Db.status approval_request)]>
                       (pending_approvals self1))
              | None => self1
              end in
            let self3 :=
              with_events self2 (delete id (_approval_events self2)) in
            (self3,
             LastMoment (Db.status approval_request)
               (Db.approver approval_request)
               (Db.approver_role approval_request)
               (Db.comment approval_request) waited)
      | None => (self1, TimedOut waited)
      end
  end.

(** Loop and epilogue: the waiting part of [approval_wait], with the
    number of suspensions it took. *)
Definition wait_for_decision (self : APIHandler) (id : string)
    (max_wait_seconds : Z) (now_str : string)
    : APIHandler * WaitResponse * nat :=
  match wait_loop (Z.to_nat max_wait_seconds) id self 0 0%nat 0%nat with
  | Answered self' r blocked => (self', r, blocked)
  | Elapsed self' waited blocked _ =>
      let '(self'', r) := wait_epilogue self' id waited now_str in
      (self'', r, blocked)
  end.

(** [approval_wait] from the request parameters on.  [timeout] is the
    parsed parameter of that name when it is given and not empty,
    [timestamp] is [int(time.time())] in decimal, [now] and [expires]
    are the two ISO instants of the record.  The notification sent to
    the chat changes nothing in the handler; the two threads started
    here run on their own, as [reminder_task] below and as the
    [Deadline] action of the schedule. *)
Definition approval_wait (self : APIHandler)
    (prj e b v j dsc act : string) (timeout : option Z)
    (timestamp now expires now_str : string)
    : APIHandler * WaitResponse * nat :=
  let timeout_minutes :=
    default (approval_timeout_minutes permission_service) timeout in
  let id := "approval-" +:+ prj +:+ "-" +:+ e +:+ "-" +:+ b +:+ "-"
            +:+ timestamp in
  let owners := get_project_owners permission_service prj in
  match owners with
  | [] => (self, ErrorResponse 400 "❌ 未找到项目负责人配置", 0%nat)
  | _ :: _ =>
      match database_service self with
      | None => (self, ErrorResponse 500 "❌ 审批请求失败: ", 0%nat)
      | Some db =>
          let '(db', created) :=
            Db.create_approval db
              (Db.new_request id prj e b j v dsc act (timeout_minutes * 60)
                 now) now_str in
          if negb created then
            (with_database self (Some db'),
             ErrorResponse 500 "❌ 创建审批请求失败", 0%nat)
          else
            let approval_data :=
              {| approval_id := id; project := prj; env := e; build := b;
                 version := v; job := j; desc := dsc; action := act;
                 project_owners := owners;
                 timeout_minutes := timeout_minutes;
                 status := "pending";
                 created_at := Some now; expires_at := Some expires;
                 reminder_count := 0;
                 approver := None; approver_role := None; comment := None;
                 updated_at := None; reminder_stopped := false |} in
            let registered :=
              {| reminder_timers := reminder_timers self ∪ {[ id ]};
                 _stopped_reminders := _stopped_reminders self;
                 _processing_approvals := _processing_approvals self;
                 pending_approvals :=
                   <[id := approval_data]> (pending_approvals self);
                 _approval_events :=
                   <[id := false]> (_approval_events self);
                 database_service := Some db' |} in
            wait_for_decision registered id (timeout_minutes * 60) now_str
      end
  end.

End Wait.

(** ** The reminder thread: [_start_reminder_timer] *)

(** The dictionary [reminder_data] handed to
    [_send_reminder_notification]. *)
Record Reminder := {
  rem_approval_id : string;
  rem_project : string;
  rem_env : string;
  rem_build : string;
  rem_version : string;
  rem_desc : string;
  rem_project_owners : list string;
  rem_reminder_count : nat
}.

(** Where [reminder_task] stands.  [approval_request] is the local
    variable of that name: [None] while it has never been assigned. *)
Inductive Phase :=
| FirstWait (i : nat)
| LoopHead (count : nat) (approval_request : option Db.ApprovalRequest)
| BetweenWait (count i : nat) (approval_request : option Db.ApprovalRequest)
| Finished
| Stopped
| Crashed.

Definition max_reminders : nat := 6.

Section Reminder.

Variable permission_service : PermissionService.
Variable id : string.

(** The three checks made on the shared state at every wake-up: the
    stop set, the status in memory, the [reminder_stopped] mark. *)
Definition stop_requested (self : APIHandler) : bool :=
  bool_decide (id ∈ _stopped_reminders self)
  || match pending_approvals self !! id with
     | Some d =>
         negb (bool_decide (status d = "pending")) || reminder_stopped d
     | None => false
     end.

(** The end of a reminder round, from [count += 1] on: the reminder
    is built from [approval_request] and sent, and the thread goes on
    to wait unless this was the last one. *)
Definition fire (count : nat) (approval_request : option Db.ApprovalRequest)
    : Phase * list Reminder :=
  let count := S count in
  match approval_request with
  | None => (Crashed, []) (* unbound local variable *)
  | Some r =>
      (if bool_decide (count < max_reminders)%nat
       then BetweenWait count 0 approval_request
       else Finished,
       [ {| rem_approval_id := id;
            rem_project := Db.project r;
            rem_env := Db.env r;
            rem_build := Db.build r;
            rem_version := Db.version r;
            rem_desc := Db.desc r;
            rem_project_owners :=
              get_project_owners permission_service (Db.project r);
            rem_reminder_count := count |} ])
  end.

(** One step of the thread against the handler it sees when it wakes
    up: the next phase and the reminders sent. *)
Definition reminder_step (p : Phase) (self : APIHandler)
    : Phase * list Reminder :=
  match p with
  | FirstWait i =>
      if stop_requested self then (Stopped, [])
      else
        let db_says_stop :=
          if bool_decide (i `mod` 20 = 0)%nat then
            match database_service self with
            | None => false (* the exception is passed over *)
            | Some db =>
                match Db.get_approval db id with
                | Some r => negb (bool_decide (Db.status r = "pending"))
                | None => false
                end
            end
          else false in
        if db_says_stop then (Stopped, [])
        else if bool_decide (S i < 600)%nat then (FirstWait (S i), [])
        else (LoopHead 0 None, [])
  | LoopHead count approval_request =>
      if negb (bool_decide (count < max_reminders)%nat) then (Finished, [])
      else if stop_requested self then (Stopped, [])
      else
        (* check 4 *)
        match database_service self with
        | None =>
            (* the read raises: the variable keeps what it had *)
            fire count approval_request
        | Some db =>
            match Db.get_approval db id with
            | Some r =>
                if bool_decide (Db.status r = Db.PENDING)
                then fire count (Some r)
                else (Stopped, [])
            | None => (Stopped, [])
            end
        end
  | BetweenWait count i approval_request =>
      if stop_requested self then (Stopped, [])
      else if bool_decide (S i < 150)%nat
           then (BetweenWait count (S i) approval_request, [])
           else (LoopHead count approval_request, [])
  | Finished => (Finished, [])
  | Stopped => (Stopped, [])
  | Crashed => (Crashed, [])
  end.

Definition terminal (p : Phase) : bool :=
  match p with
  | Finished | Stopped | Crashed => true
  | _ => false
  end.

(** The thread run for [fuel] steps; [obs n] is the handler as the
    thread finds it at its [n]-th step. *)
Fixpoint reminder_run (fuel : nat) (obs : nat -> APIHandler) (n : nat)
    (p : Phase) : Phase * list Reminder :=
  match fuel with
  | O => (p, [])
  | S fuel' =>
      let '(p', out) := reminder_step p (obs n) in
      let '(p'', out') := reminder_run fuel' obs (S n) p' in
      (p'', (out ++ out')%list)
  end.

(** [reminder_task] from its first statement. *)
Definition reminder_task (fuel : nat) (obs : nat -> APIHandler)
    : Phase * list Reminder :=
  reminder_run fuel obs 0 (FirstWait 0).

(** Steps that are enough for the thread to end from phase [p]. *)
Definition head_steps (count : nat) : nat := (max_reminders - count) * 152 + 1.

Definition steps_left (p : Phase) : nat :=
  match p with
  | FirstWait i => (600 - i) + 1 + head_steps 0
  | LoopHead count _ => head_steps count
  | BetweenWait count i _ => (150 - i) + 1 + head_steps count
  | Finished | Stopped | Crashed => 0
  end.

End Reminder.

(** ** A reminder round, statement by statement

    At the head of a round the thread looks at the shared state (the
    stop set, the status in memory, the [reminder_stopped] mark); then
    it reads the durable row, a call to the database server during
    which the other threads run; when the read returns it sends the
    reminder, without another look at the shared state. *)

Section ReminderRound.

Variable permission_service : PermissionService.
Variable id : string.

(** Checks 1 to 3 of the round, on the handler as the thread finds it:
    [true] when the thread goes on to the read. *)
Definition round_checks (self : APIHandler) : bool :=
  negb (stop_requested id self).

(** Check 4 and the sending, on the handler as it is when the read is
    made. *)
Definition round_read_and_send (self : APIHandler) (count : nat)
    (approval_request : option Db.ApprovalRequest) : Phase * list Reminder :=
  match database_service self with
  | None => fire permission_service id count approval_request
  | Some db =>
      match Db.get_approval db id with
      | Some r =>
          if bool_decide (Db.status r = Db.PENDING)
          then fire permission_service id count (Some r)
          else (Stopped, [])
      | None => (Stopped, [])
      end
  end.

End ReminderRound.

(** ** The web endpoints [/api/approve/<id>] and [/api/reject/<id>] *)

Record WebResponse := {
  http_status : Z;
  result : string;
  web_message : string;
  web_approver : option string;
  web_approver_role : option string;
  web_comment : option string
}.

Definition nl : string := String "010"%char EmptyString.

Section Web.

Variable permission_service : PermissionService.

(** The approver recorded for a request: the parameter when it is given
    and not empty, else the first owner of the project of the record,
    else ['admin']. *)
Definition web_approver_username (self : APIHandler) (id : string)
    (approver_arg : option string) : string :=
  match approver_arg with
  | Some a =>
      if bool_decide (a = "") then
        match pending_approvals self !! id with
        | Some d =>
            match get_project_owners permission_service (project d) with
            | o :: _ => o
            | [] => "admin"
            end
        | None => "admin"
        end
      else a
  | None =>
      match pending_approvals self !! id with
      | Some d =>
          match get_project_owners permission_service (project d) with
          | o :: _ => o
          | [] => "admin"
          end
      | None => "admin"
      end
  end.

(** The role shown in the answer: the role of the user's entry, or
    ['管理员']. *)
Definition web_role (username : string) : string :=
  match get_user_info permission_service username with
  | Some ui => default "管理员" (ui_role ui)
  | None => "管理员"
  end.

(** [approve_request]; [now] and [now_str] are the two formats of the
    clock. *)
Definition approve_request (self : APIHandler) (id : string)
    (approver_arg comment_arg : option string) (now now_str : string)
    : APIHandler * WebResponse :=
  let approver_username := web_approver_username self id approver_arg in
  let cmt := default "Web界面审批" comment_arg in
  let '(self', (ok, msg)) :=
    process_approval_internal permission_service self id "approved"
      "web_user" approver_username cmt now in
  if ok then
    let approver_display :=
      get_user_display_name permission_service approver_username in
    let role := web_role approver_username in
    (self',
     {| http_status := 200; result := "approved";
        web_message :=
          "✅ 审批通过！" +:+ nl +:+ nl +:+ "👤 审批人: " +:+ approver_display
          +:+ " (" +:+ role +:+ ")" +:+ nl +:+ "💬 备注: " +:+ cmt +:+ nl
          +:+ "⏰ 操作时间: " +:+ now_str +:+ nl +:+ nl
          +:+ "🚀 构建将继续执行！";
        web_approver := Some approver_display;
        web_approver_role := Some role;
        web_comment := Some cmt |})
  else
    (self',
     {| http_status := 400; result := "error";
        web_message := "❌ 审批处理失败：" +:+ msg;
        web_approver := None; web_approver_role := None;
        web_comment := None |}).

(** [reject_request]. *)
Definition reject_request (self : APIHandler) (id : string)
    (approver_arg comment_arg : option string) (now now_str : string)
    : APIHandler * WebResponse :=
  let approver_username := web_approver_username self id approver_arg in
  let cmt := default "Web界面拒绝" comment_arg in
  let '(self', (ok, msg)) :=
    process_approval_internal permission_service self id "rejected"
      "web_user" approver_username cmt now in
  if ok then
    let approver_display :=
      get_user_display_name permission_service approver_username in
    let role := web_role approver_username in
    (self',
     {| http_status := 200; result := "rejected";
        web_message :=
          "❌ 审批已拒绝！" +:+ nl +:+ nl +:+ "👤 拒绝人: " +:+ approver_display
          +:+ " (" +:+ role +:+ ")" +:+ nl +:+ "💬 拒绝原因: " +:+ cmt +:+ nl
          +:+ "⏰ 操作时间: " +:+ now_str +:+ nl +:+ nl
          +:+ "🛑 构建已终止！";
        web_approver := Some approver_display;
        web_approver_role := Some role;
        web_comment := Some cmt |})
  else
    (self',
     {| http_status := 400; result := "error";
        web_message := "❌ 拒绝处理失败：" +:+ msg;
        web_approver := None; web_approver_role := None;
        web_comment := None |}).

End Web.


(** ** Measures on the reminder thread *)

(** The value of the local variable [count] in a phase. *)
Definition phase_count (p : Phase) : nat :=
  match p with
  | FirstWait _ => 0
  | LoopHead count _ => count
  | BetweenWait count _ _ => count
  | Finished | Stopped | Crashed => max_reminders
  end.

(** A handler on which the thread for [id] finds nothing to stop for:
    no stop request, and a durable row that is still pending. *)
Definition quiet (id : string) (self : APIHandler) : Prop :=
  stop_requested id self = false
  /\ exists db r,
       database_service self = Some db
       /\ Db.get_approval db id = Some r
       /\ Db.status r = "pending".

Definition is_sweep (a : Action) : bool :=
  match a with
  | Sweep _ _ => true
  | _ => false
  end.


(** The reminders still to come from a phase when nothing stops the
    thread. *)
Definition fires_left (p : Phase) : nat :=
  match p with
  | FirstWait _ => max_reminders
  | LoopHead count _ => max_reminders - count
  | BetweenWait count _ _ => max_reminders - count
  | Finished | Stopped | Crashed => 0
  end.

Definition alive (p : Phase) : bool :=
  match p with
  | Stopped | Crashed => false
  | _ => true
  end.


(** What a web request comes to: the HTTP status, the [result] key of the
    answer, and the status that the record of [id] has afterwards. *)
Definition web_outcome (id : string) (out : APIHandler * WebResponse)
    : Z * string * option string :=
  (http_status out.2, result out.2, status <$> pending_approvals out.1 !! id).


(** ** Invariants of the registry *)

(** A record for [id] has its event object. *)
Definition has_event (id : string) (self : APIHandler) : Prop :=
  is_Some (pending_approvals self !! id) ->
  is_Some (_approval_events self !! id).

(** What the threads of the process may do to the handler between two
    looks at it: add no record, remove the event of no record that
    stays, keep the database service. *)
Definition evolves (self self' : APIHandler) : Prop :=
  (forall k, is_Some (pending_approvals self' !! k) ->
             is_Some (pending_approvals self !! k))
  /\ (forall k, is_Some (pending_approvals self' !! k) ->
                is_Some (_approval_events self !! k) ->
                is_Some (_approval_events self' !! k))
  /\ (is_Some (database_service self) -> is_Some (database_service self')).

(** One more suspension is open to the waiter while the record for [id]
    is in the registry. *)
Definition slack (id : string) (self : APIHandler) : nat :=
  match pending_approvals self !! id with
  | Some _ => 1
  | None => 0
  end.

(** [stop_requested] as a proposition. *)
Definition Stop (id : string) (self : APIHandler) : Prop :=
  id ∈ _stopped_reminders self
  \/ exists d, pending_approvals self !! id = Some d
               /\ (status d <> "pending" \/ reminder_stopped d = true).


(** ** Reading a message *)

(** [needle in hay] on Python strings. *)
Fixpoint contains (needle hay : string) : bool :=
  String.prefix needle hay
  || match hay with
     | EmptyString => false
     | String _ rest => contains needle rest
     end.


(** ** The durable decision path of the handler: [_handle_approval] *)

(** The dictionary that [_handle_approval] returns: [{'error': ...}],
    or the one with [success], [result], [message], [approval_id],
    [approver] and [approver_role]. *)
Inductive HandleResult :=
| HandleError (error : string)
| HandleSuccess (result message approval_id approver approver_role : string).

Section HandleApproval.

Variable permission_service : PermissionService.

(** [approver_info.get('role', '管理员') if approver_info else '管理员'] *)
Definition handle_role (user_name : string) : string :=
  match get_user_info permission_service user_name with
  | Some ui => default "管理员" (ui_role ui)
  | None => "管理员"
  end.

(** [_handle_approval].  [lock_now] and [update_now] are the readings
    of the clock inside [lock_approval] and [update_approval_status],
    [expired] is the outcome of the expiry test of the lock.  Of the
    [ApprovalRequest] built from the record, or read from the store
    when there is no record, only the status is used.  Without a
    database service the attribute access raises and the outer [except]
    answers; the text of the exception follows the colon in the source.
    The thread [cleanup_after_telegram] that a success starts runs on
    its own, see below. *)
Definition _handle_approval (self : APIHandler)
    (id act user_name lock_now update_now : string) (expired : bool)
    : APIHandler * HandleResult :=
  if bool_decide (id ∈ _processing_approvals self) then
    (self, HandleError "审批正在处理中，请勿重复点击")
  else
    let self1 :=
      with_processing self (_processing_approvals self ∪ {[ id ]}) in
    let finally (s : APIHandler) :=
      with_processing s (_processing_approvals s ∖ {[ id ]}) in
    (* [approval_request.status]; the outer [None] is the raise *)
    let found : option (option string) :=
      match pending_approvals self1 !! id with
      | Some d => Some (Some (status d))
      | None =>
          match database_service self1 with
          | None => None
          | Some db => Some (Db.status <$> Db.get_approval db id)
          end
      end in
    match found with
    | None => (finally self1, HandleError "处理失败: ")
    | Some None => (finally self1, HandleError "审批记录不存在或已过期")
    | Some (Some st) =>
        if negb (bool_decide (st = Db.PENDING)) then
          (finally self1,
           HandleError
             ("审批" +:+ (if bool_decide (st = "approved")
                          then "已同意" else "已拒绝")
              +:+ "，请勿重复操作"))
        else
          let approver_role := handle_role user_name in
          let cmt := "Telegram " +:+ act in
          match database_service self1 with
          | None => (finally self1, HandleError "处理失败: ")
          | Some db =>
              let '(db1, locked) :=
                Db.lock_approval db id user_name 60 lock_now expired in
              let self2 := with_database self1 (Some db1) in
              if negb locked then
                (finally self2,
                 HandleError "审批正在被他人处理中，请稍后重试")
              else
                let st' :=
                  if bool_decide (act = "approved")
                  then Db.APPROVED else Db.REJECTED in
                let '(db2, res) :=
                  Db.update_approval_status db1 id st' user_name
                    approver_role cmt update_now in
                let self3 := with_database self2 (Some db2) in
                if Db.success res then
                  let self4 :=
                    match pending_approvals self3 !! id with
                    | Some d =>
                        with_pending self3
                          (<[id := set_decider (set_status d st') user_name
                                     approver_role cmt update_now]>
                             (pending_approvals self3))
                    | None => self3
                    end in
                  let self5 := _cancel_reminder_timer self4 id in
                  (* the event is set, or created already set *)
                  let self6 :=
                    with_events self5
                      (<[id := true]> (_approval_events self5)) in
                  let self7 :=
                    with_database self6
                      (Some (Db.unlock_approval db2 id).1) in
                  let status_text :=
                    if bool_decide (st' = "approved")
                    then "已通过" else "已拒绝" in
                  (finally self7,
                   HandleSuccess st' ("✅ 审批" +:+ status_text +:+ "！") id
                     user_name approver_role)
                else
                  (finally self3, HandleError (Db.message res))
          end
    end.

(** The thread [cleanup_after_telegram] after its sleep of two
    seconds. *)
Definition cleanup_after_telegram (self : APIHandler) (id : string)
    : APIHandler :=
  with_events self (delete id (_approval_events self)).

End HandleApproval.

(** ** The Telegram webhook: [telegram_webhook] *)

(** [s.split(':', 1)] for a string [s] that has a colon: the text before
    the first colon and the text after it.  [None] when [':' in s] is
    false. *)
Fixpoint split_colon (s : string) : option (string * string) :=
  match s with
  | EmptyString => None
  | String c rest =>
      if bool_decide (c = ":"%char) then Some (EmptyString, rest)
      else (fun p : string * string => (String c p.1, p.2))
             <$> split_colon rest
  end.

(** The value of key ['callback_query'] of the posted JSON, by the keys
    read: ['data'], and ['username'] and ['first_name'] of ['from']. *)
Record CallbackQuery := {
  cq_data : option string;
  cq_username : option string;
  cq_first_name : option string
}.

(** The JSON answers of the webhook: [{'status': 'ok'}] alone, or with
    the [result] of the submission, or [{'error': ...}] with HTTP 500. *)
Inductive WebhookResponse :=
| WebhookOk
| WebhookResult (success : bool) (message : string)
| WebhookError.

Section Webhook.

Variable permission_service : PermissionService.

(** [telegram_webhook].  [data] is [None] when the request has no JSON
    body, so that the look-up in it raises; it is [Some None] when the
    JSON has no key ['callback_query'].  [now] is the reading of the
    clock in [process_approval_internal]. *)
Definition telegram_webhook (self : APIHandler)
    (data : option (option CallbackQuery)) (now : string)
    : APIHandler * WebhookResponse :=
  match data with
  | None => (self, WebhookError)
  | Some None => (self, WebhookOk)
  | Some (Some cq) =>
      let callback_data := default "" (cq_data cq) in
      let user_name :=
        default (default "Unknown" (cq_first_name cq)) (cq_username cq) in
      match split_colon callback_data with
      | None => (self, WebhookOk)
      | Some (act, approval_id) =>
          if bool_decide (act = "approve") then
            let '(self', (ok, msg)) :=
              process_approval_internal permission_service self approval_id
                "approved" "telegram_user" user_name "Telegram回调审批" now in
            (self', WebhookResult ok msg)
          else if bool_decide (act = "reject") then
            let '(self', (ok, msg)) :=
              process_approval_internal permission_service self approval_id
                "rejected" "telegram_user" user_name "Telegram回调审批" now in
            (self', WebhookResult ok msg)
          else (self, WebhookOk)
      end
  end.

(** The [callback_data] of the two buttons that
    [_send_approval_notification] puts under the approval message. *)
Definition approve_button (approval_id : string) : string :=
  "approve:" +:+ approval_id.
Definition reject_button (approval_id : string) : string :=
  "reject:" +:+ approval_id.

End Webhook.

(** ** The permission check: [check_permission] *)

Section CheckPermission.

Variable permission_service : PermissionService.
(** Two more keys of the dictionary of a user:
    [user_info.get('permissions', [])] and
    [user_info.get('is_admin', False)]. *)
Variable user_permissions : string -> list string.
Variable user_is_admin : string -> bool.

Definition check_permission (username : string) (permission : option string)
    : bool :=
  match get_user_info permission_service username with
  | None => false
  | Some _ =>
      match permission with
      | None => true
      | Some p =>
          bool_decide (p ∈ user_permissions username)
          || user_is_admin username
      end
  end.

Definition check_approver_permission (username : string) : bool :=
  check_permission username (Some "approve").

End CheckPermission.

(** ** The approval manager: [core/approval_manager.py] and
    [models/approval.py] *)

Module Mgr.

(** The [user_id] argument: [user.id] of Telegram, or a string such as
    ['telegram_user']. *)
Inductive UserId :=
| IntId (n : Z)
| StrId (s : string).

(** [class Approval] *)
Record Approval := {
  job_name : string;
  build_number : string;
  environment : string;
  approver : option string;
  webhook_url : option string;
  status : string;
  created_at : string;
  created_timestamp : Z;
  processed_by : option string;
  processed_at : option string;
  processor_user_id : option UserId;
  should_notify_build_result : bool
}.

(** [Approval.__init__]; [now_str] and [ts] are the two readings of the
    clock. *)
Definition new_approval (job build envt : string)
    (appr url : option string) (now_str : string) (ts : Z) : Approval :=
  {| job_name := job; build_number := build; environment := envt;
     approver := appr; webhook_url := url; status := "pending";
     created_at := now_str; created_timestamp := ts;
     processed_by := None; processed_at := None;
     processor_user_id := None; should_notify_build_result := false |}.

Definition approval_id (a : Approval) : string :=
  job_name a +:+ "-" +:+ build_number a +:+ "-" +:+ environment a.

Definition processed (a : Approval) (st : string) (user_id : UserId)
    (username now_str : string) : Approval :=
  {| job_name := job_name a; build_number := build_number a;
     environment := environment a; approver := approver a;
     webhook_url := webhook_url a; status := st;
     created_at := created_at a; created_timestamp := created_timestamp a;
     processed_by := Some username; processed_at := Some now_str;
     processor_user_id := Some user_id;
     should_notify_build_result := should_notify_build_result a |}.

Definition approve (a : Approval) (user_id : UserId)
    (username now_str : string) : Approval :=
  processed a "approved" user_id username now_str.

Definition reject (a : Approval) (user_id : UserId)
    (username now_str : string) : Approval :=
  processed a "rejected" user_id username now_str.

Definition notify_build_result (a : Approval) : Approval :=
  {| job_name := job_name a; build_number := build_number a;
     environment := environment a; approver := approver a;
     webhook_url := webhook_url a; status := status a;
     created_at := created_at a; created_timestamp := created_timestamp a;
     processed_by := processed_by a; processed_at := processed_at a;
     processor_user_id := processor_user_id a;
     should_notify_build_result := true |}.

(** [str.lstrip('#')] *)
Fixpoint lstrip_hash (s : string) : string :=
  match s with
  | EmptyString => EmptyString
  | String c rest =>
      if bool_decide (c = "#"%char) then lstrip_hash rest else s
  end.

(** [class BuildRejection], which is also its [to_dict]. *)
Record BuildRejection := {
  br_job_name : string;
  br_build_number : string;
  br_environment : string;
  rejected_by : option string;
  rejected_at : string;
  rejected_timestamp : Z
}.

Definition rejection_keys (r : BuildRejection) : list string :=
  let normalized_build_number := lstrip_hash (br_build_number r) in
  [ br_job_name r +:+ "-" +:+ normalized_build_number +:+ "-"
    +:+ br_environment r;
    br_job_name r +:+ "-#" +:+ normalized_build_number +:+ "-"
    +:+ br_environment r ].

(** [class ApprovalManager]: the two caches. *)
Record ApprovalManager := {
  approval_cache : gmap string Approval;
  rejected_builds_cache : gmap string BuildRejection
}.

Definition with_cache (m : ApprovalManager) (c : gmap string Approval)
    : ApprovalManager :=
  {| approval_cache := c;
     rejected_builds_cache := rejected_builds_cache m |}.

Definition create_approval (m : ApprovalManager) (job build envt : string)
    (appr url : option string) (now_str : string) (ts : Z)
    : ApprovalManager * string :=
  let approval := new_approval job build envt appr url now_str ts in
  (with_cache m (<[approval_id approval := approval]> (approval_cache m)),
   approval_id approval).

Definition get_approval (m : ApprovalManager) (id : string)
    : option Approval :=
  approval_cache m !! id.

(** [_record_build_rejection]: the same record under each of its keys. *)
Definition _record_build_rejection (m : ApprovalManager)
    (job build envt : string) (by_whom : option string)
    (now_str : string) (ts : Z) : ApprovalManager :=
  let rejection :=
    {| br_job_name := job; br_build_number := build;
       br_environment := envt; rejected_by := by_whom;
       rejected_at := now_str; rejected_timestamp := ts |} in
  {| approval_cache := approval_cache m;
     rejected_builds_cache :=
       foldl (fun c key => <[key := rejection]> c)
         (rejected_builds_cache m) (rejection_keys rejection) |}.

Definition is_build_rejected (m : ApprovalManager)
    (job build envt : string) : bool :=
  let normalized_build_number := lstrip_hash build in
  let possible_keys :=
    [ job +:+ "-" +:+ normalized_build_number +:+ "-" +:+ envt;
      job +:+ "-#" +:+ normalized_build_number +:+ "-" +:+ envt;
      job +:+ "-" +:+ build +:+ "-" +:+ envt ] in
  existsb (fun build_key =>
             bool_decide (is_Some (rejected_builds_cache m !! build_key)))
    possible_keys.

(** [get_approval_statistics] *)
Record Statistics := {
  total : nat;
  pending : nat;
  approved : nat;
  rejected : nat
}.

Definition count_status (m : ApprovalManager) (st : string) : nat :=
  length (filter (fun kv : string * Approval => status kv.2 = st)
            (map_to_list (approval_cache m))).

Definition get_approval_statistics (m : ApprovalManager) : Statistics :=
  {| total := size (approval_cache m);
     pending := count_status m "pending";
     approved := count_status m "approved";
     rejected := count_status m "rejected" |}.

Section Manager.

(** [permission_service.check_approver_permission] *)
Variable check_approver : string -> bool.
(** The call to Jenkins in [continue_build], which answers [False] on
    any failure: [requests.post(webhook_url, ...).status_code == 200]. *)
Variable post_proceed : string -> bool.

(** [JenkinsService.continue_build] *)
Definition continue_build (url : option string) : bool :=
  match url with
  | Some u => if bool_decide (u = "") then false else post_proceed u
  | None => false
  end.

Definition _handle_approval_success (a : Approval) : Approval :=
  if continue_build (webhook_url a) then notify_build_result a else a.

(** [process_approval].  [now_str] is the clock read by [approve] or
    [reject], [rej_now] and [rej_ts] are the readings of
    [BuildRejection.__init__]. *)
Definition process_approval (m : ApprovalManager) (id act : string)
    (user_id : UserId) (username now_str rej_now : string) (rej_ts : Z)
    : ApprovalManager * (bool * string) :=
  match get_approval m id with
  | None => (m, (false, "审批ID不存在"))
  | Some approval =>
      if negb (bool_decide (status approval = "pending")) then
        (m, (false, "审批已被处理"))
      else if negb (check_approver username) then
        (m, (false, "权限不足"))
      else if bool_decide (act = "approved") then
        let a1 := approve approval user_id username now_str in
        let a2 := _handle_approval_success a1 in
        (with_cache m (<[id := a2]> (approval_cache m)),
         (true, "处理成功"))
      else if bool_decide (act = "rejected") then
        let a1 := reject approval user_id username now_str in
        let m1 := with_cache m (<[id := a1]> (approval_cache m)) in
        (* [abort_build] is called on Jenkins; its answer is only logged *)
        (_record_build_rejection m1 (job_name a1) (build_number a1)
           (environment a1) (processed_by a1) rej_now rej_ts,
         (true, "处理成功"))
      else (m, (false, "无效的操作"))
  end.

End Manager.

End Mgr.

(** ** The Telegram commands and buttons: [telegram_handler.py] *)

(** [class TelegramHandler]: [api_handler] is [None] until
    [set_api_handler] has been called. *)
Record TelegramHandler := {
  api_handler : option APIHandler;
  approval_manager : Mgr.ApprovalManager
}.

(** The dictionary returned by [_process_approval_action]. *)
Inductive ActionResult :=
| ActionDone (act project env build version message : string)
| ActionFailed (message : string).

(** What [_button_handler] hands to [_edit_message]: a text, or the
    text of a decision, given by what is put into it. *)
Inductive ButtonReply :=
| Edited (text : string)
| EditedDecision (act project env build version user_display approval_id
                  : string).

Section Telegram.

Variable permission_service : PermissionService.
Variable user_permissions : string -> list string.
Variable user_is_admin : string -> bool.
Variable post_proceed : string -> bool.

Definition manager_process :=
  Mgr.process_approval
    (check_approver_permission permission_service user_permissions
       user_is_admin)
    post_proceed.

(** [_process_approval_action] *)
Definition _process_approval_action (self : TelegramHandler)
    (approval_id act user_name now now_str rej_now : string) (rej_ts : Z)
    : TelegramHandler * ActionResult :=
  match api_handler self with
  | Some h =>
      let '(h', (ok, msg)) :=
        process_approval_internal permission_service h approval_id act
          "telegram_user" user_name "Telegram按钮审批" now in
      let self' :=
        {| api_handler := Some h';
           approval_manager := approval_manager self |} in
      if ok then
        match pending_approvals h' !! approval_id with
        | Some d =>
            (self', ActionDone act (project d) (env d) (build d)
                      (version d) msg)
        | None =>
            (self', ActionDone act "unknown" "unknown" "unknown" "unknown"
                      msg)
        end
      else (self', ActionFailed msg)
  | None =>
      let '(m', (ok, msg)) :=
        manager_process (approval_manager self) approval_id act
          (Mgr.StrId "telegram_user") user_name now_str rej_now rej_ts in
      let self' := {| api_handler := None; approval_manager := m' |} in
      if ok then
        (self', ActionDone act "unknown" "unknown" "unknown" "unknown" msg)
      else (self', ActionFailed msg)
  end.

(** [_button_handler]; [user_name] is
    [user.username or user.first_name or 'Unknown']. *)
Definition _button_handler (self : TelegramHandler)
    (callback_data user_name now now_str rej_now : string) (rej_ts : Z)
    : TelegramHandler * ButtonReply :=
  match split_colon callback_data with
  | None => (self, Edited "❌ 无效的操作格式")
  | Some (act, approval_id) =>
      let check :=
        check_permission permission_service user_permissions user_is_admin
          user_name in
      let decide (a : string) :=
        let '(self', r) :=
          _process_approval_action self approval_id a user_name now now_str
            rej_now rej_ts in
        match r with
        | ActionDone a' prj e b v _ =>
            (self',
             EditedDecision a' prj e b v
               (get_user_display_name permission_service user_name)
               approval_id)
        | ActionFailed msg =>
            (self', Edited ("❌ 操作失败" +:+ nl +:+ nl +:+ msg))
        end in
      if negb (check None) then
        (self, Edited ("❌ 用户 " +:+ user_name +:+ " 没有操作权限"))
      else if bool_decide (act = "approve") then
        if negb (check (Some "approve")) then
          (self, Edited ("❌ 用户 " +:+ user_name +:+ " 没有审批权限"))
        else decide "approved"
      else if bool_decide (act = "reject") then
        if negb (check (Some "reject")) then
          (self, Edited ("❌ 用户 " +:+ user_name +:+ " 没有拒绝权限"))
        else decide "rejected"
      else if bool_decide (act = "logs") then
        (self,
         Edited ("🔍 日志链接：http://localhost:8770/logs/" +:+ approval_id
                 +:+ nl +:+ nl +:+ "点击链接查看详细信息"))
      else (self, Edited ("❌ 不支持的操作: " +:+ act))
  end.

(** The [callback_data] of the two buttons that
    [send_approval_notification] of this class puts under its message. *)
Definition legacy_approve_button (approval_id : string) : string :=
  "approve_" +:+ approval_id.
Definition legacy_reject_button (approval_id : string) : string :=
  "reject_" +:+ approval_id.

(** [_cmd_approve] and [_cmd_reject]: [args] are the words after the
    command, [user_id] is [user.id], [name] is
    [user.username or user.first_name], and the reply is the text handed
    to [_send_reply]. *)
Definition command (act ok_head ok_tail fail_head usage : string)
    (self : TelegramHandler) (args : list string) (user_id : Z)
    (name first_name now now_str rej_now : string) (rej_ts : Z)
    : TelegramHandler * string :=
  match args with
  | [] => (self, usage)
  | approval_id :: _ =>
      let '(self', (ok, msg)) :=
        match api_handler self with
        | Some h =>
            let '(h', r) :=
              process_approval_internal permission_service h approval_id act
                (pretty user_id) name "Telegram审批" now in
            ({| api_handler := Some h';
                approval_manager := approval_manager self |}, r)
        | None =>
            let '(m', r) :=
              manager_process (approval_manager self) approval_id act
                (Mgr.IntId user_id) name now_str rej_now rej_ts in
            ({| api_handler := None; approval_manager := m' |}, r)
        end in
      if ok then
        (self',
         ok_head +:+ nl +:+ nl +:+ "审批ID: " +:+ approval_id +:+ nl
         +:+ "处理人: " +:+ first_name +:+ nl +:+ nl +:+ ok_tail)
      else (self', fail_head +:+ nl +:+ nl +:+ "错误: " +:+ msg)
  end.

Definition _cmd_approve :=
  command "approved" "审批成功" "构建将继续执行" "审批失败"
    ("请提供审批ID" +:+ nl +:+ nl +:+ "使用: /approve <approval_id>").

Definition _cmd_reject :=
  command "rejected" "审批拒绝" "构建已停止" "操作失败"
    ("请提供审批ID" +:+ nl +:+ nl +:+ "使用: /reject <approval_id>").

End Telegram.


(** ** Concrete data for the examples *)

Module Demo.

Definition users : PermissionService :=
  {| get_user_info := fun u =>
       if bool_decide (u = "alice")
       then Some {| ui_name := Some "Alice"; ui_role := Some "ops" |}
       else None;
     get_project_owners := fun p =>
       if bool_decide (p = "shop") then ["alice"; "bob"] else [];
     approval_timeout_minutes := 30 |}.

Definition fresh (id : string) : ApprovalData :=
  {| approval_id := id; project := "shop"; env := "prod"; build := "7";
     version := "1.0"; job := "deploy"; desc := "release"; action := "deploy";
     project_owners := ["alice"; "bob"]; timeout_minutes := 1;
     status := "pending";
     created_at := Some "2024-01-01T10:00:00";
     expires_at := Some "2024-01-01T10:01:00";
     reminder_count := 0;
     approver := None; approver_role := None; comment := None;
     updated_at := None; reminder_stopped := false |}.

Definition row (id : string) : Db.ApprovalRequest :=
  {| Db.request_id := id; Db.project := "shop"; Db.env := "prod";
     Db.build := "7"; Db.job := "deploy"; Db.version := "1.0";
     Db.desc := "release"; Db.action := "deploy";
     Db.timeout_seconds := 60; Db.status := "pending";
     Db.created_at := "2024-01-01T10:00:00";
     Db.updated_at := "2024-01-01T10:00:00";
     Db.approver := None; Db.approver_role := None; Db.comment := None;
     Db.is_locked := false; Db.lock_timestamp := None;
     Db.lock_timeout := Some 60 |}.

(** A clock that reads one instant, taken as the origin, and one
    instant with an offset. *)
Definition clock (s : string) : option datetime :=
  if bool_decide (s = "2024-01-01T10:00:00")
  then Some {| micros := 0; aware := false |}
  else if bool_decide (s = "2024-01-01T10:00:00+00:00")
  then Some {| micros := 0; aware := true |}
  else None.

(** A record whose creation time does not parse. *)
Definition garbled (id : string) : ApprovalData :=
  {| approval_id := id; project := "shop"; env := "prod"; build := "8";
     version := "1.1"; job := "deploy"; desc := "release"; action := "deploy";
     project_owners := ["alice"; "bob"]; timeout_minutes := 1;
     status := "pending";
     created_at := Some "yesterday";
     expires_at := None;
     reminder_count := 0;
     approver := None; approver_role := None; comment := None;
     updated_at := None; reminder_stopped := false |}.

Definition store : Db.DatabaseService :=
  {| Db.approvals := {[ "a1" := row "a1" ]};
     Db.approval_history := [];
     Db.connectable := true |}.

(** A handler with an empty registry and an empty store. *)
Definition idle : APIHandler :=
  {| reminder_timers := ∅;
     _stopped_reminders := ∅;
     _processing_approvals := ∅;
     pending_approvals := ∅;
     _approval_events := ∅;
     database_service :=
       Some {| Db.approvals := ∅; Db.approval_history := [];
               Db.connectable := true |} |}.

(** The handler right after [approval_wait] has registered ["a1"]. *)
Definition created : APIHandler :=
  {| reminder_timers := {[ "a1" ]};
     _stopped_reminders := ∅;
     _processing_approvals := ∅;
     pending_approvals := {[ "a1" := fresh "a1" ]};
     _approval_events := {[ "a1" := false ]};
     database_service := Some store |}.

(** A handler with the record of ["a1"] and a garbled record ["g1"]. *)
Definition two_records : APIHandler :=
  {| reminder_timers := ∅;
     _stopped_reminders := ∅;
     _processing_approvals := ∅;
     pending_approvals := {[ "a1" := fresh "a1"; "g1" := garbled "g1" ]};
     _approval_events := {[ "a1" := false; "g1" := false ]};
     database_service := Some store |}.

(** The same handler while the global database service is [None]. *)
Definition no_database : APIHandler := with_database created None.

(** The same handler while the database server cannot be reached. *)
Definition unreachable : APIHandler :=
  with_database created
    (Some {| Db.approvals := Db.approvals store;
             Db.approval_history := [];
             Db.connectable := false |}).

(** ["a1"] approved by alice. *)
Definition decided : APIHandler :=
  (process_approval_internal users created "a1" "approved" "web_user"
     "alice" "ok" "2024-01-01T10:00:30").1.

(** The same, seen while another submission for ["a1"] is still in
    flight. *)
Definition decided_in_flight : APIHandler :=
  with_processing decided {[ "a1" ]}.

(** ["a1"] approved by bob, half a minute later than alice would. *)
Definition decided_by_bob : APIHandler :=
  (process_approval_internal users created "a1" "approved" "web_user"
     "bob" "fine" "2024-01-01T10:00:59").1.

End Demo.

(** ** The build result route: [build_result] *)

(** The JSON answers of [build_result] with their [status] key:
    ['skipped'], or ['success'] with [telegram_sent]. *)
Inductive BuildResultResponse :=
| BuildSkipped (approval_id : string)
| BuildNotified (approval_id : string) (telegram_sent : bool).

(** [build_result] from the posted keys on; [telegram_handler] says
    whether the handler of that name is set.  The approval is looked up
    in the manager under project, build and environment. *)
Definition build_result (m : Mgr.ApprovalManager) (telegram_handler : bool)
    (project build env : option string) : BuildResultResponse :=
  let project := default "unknown" project in
  let build := default "0" build in
  let env := default "unknown" env in
  let approval_id := project +:+ "-" +:+ build +:+ "-" +:+ env in
  match Mgr.get_approval m approval_id with
  | Some approval =>
      if Mgr.should_notify_build_result approval
      then BuildNotified approval_id telegram_handler
      else BuildSkipped approval_id
  | None => BuildSkipped approval_id
  end.


(** ** Concrete data for the Telegram side *)

Module Chat.

(** alice may approve and reject, carol may only reject, nobody is
    administrator. *)
Definition permissions (u : string) : list string :=
  if bool_decide (u = "alice") then ["approve"; "reject"]
  else if bool_decide (u = "carol") then ["reject"]
  else [].

Definition no_admin (u : string) : bool := false.

(** A permission service that knows alice and carol. *)
Definition users : PermissionService :=
  {| get_user_info := fun u =>
       if bool_decide (u = "alice")
       then Some {| ui_name := Some "Alice"; ui_role := Some "ops" |}
       else if bool_decide (u = "carol")
       then Some {| ui_name := Some "Carol"; ui_role := Some "dev" |}
       else None;
     get_project_owners := fun p =>
       if bool_decide (p = "shop") then ["alice"; "bob"] else [];
     approval_timeout_minutes := 30 |}.

(** A click by a user of the given name. *)
Definition click (data username : string) : CallbackQuery :=
  {| cq_data := Some data; cq_username := Some username;
     cq_first_name := Some "First" |}.

(** The approval of build 7 of job deploy for prod, as the manager
    creates it. *)
Definition approval : Mgr.Approval :=
  Mgr.new_approval "deploy" "#7" "prod" None None "2024-01-01 10:00:00"
    1704103200.

Definition manager : Mgr.ApprovalManager :=
  {| Mgr.approval_cache := {[ "deploy-#7-prod" := approval ]};
     Mgr.rejected_builds_cache := ∅ |}.

(** A manager with nothing in it; one in which build 7 has been created
    with a webhook address; and that one after alice has approved the
    build and Jenkins has answered the request to proceed. *)
Definition empty : Mgr.ApprovalManager :=
  {| Mgr.approval_cache := ∅; Mgr.rejected_builds_cache := ∅ |}.

Definition hooked : Mgr.ApprovalManager :=
  (Mgr.create_approval empty "deploy" "7" "prod" None
     (Some "http://jenkins/proceed") "2024-01-01 10:00:00" 1704103200).1.

Definition proceeded : Mgr.ApprovalManager :=
  (Mgr.process_approval (fun _ => true) (fun _ => true) hooked
     "deploy-7-prod" "approved" (Mgr.IntId 42) "alice"
     "2024-01-01 10:00:30" "2024-01-01 10:00:30" 1704103230).1.

(** A Telegram handler with the API handler set, and one without. *)
Definition wired : TelegramHandler :=
  {| api_handler := Some Demo.created; approval_manager := manager |}.

Definition unwired : TelegramHandler :=
  {| api_handler := None; approval_manager := manager |}.

End Chat.


(** * Properties *)

(** ** The state machine of [status] *)

Section Transitions.

Variable permission_service : PermissionService.

Abbreviation process := (process_approval_internal permission_service).

Lemma cancel_keeps_resolved self id d :
  pending_approvals self !! id = Some d ->
  status d <> "pending" ->
  pending_approvals (_cancel_reminder_timer self id) = pending_approvals self.
Proof.
  intros Hd Hs. unfold _cancel_reminder_timer; simpl.
  rewrite Hd. rewrite bool_decide_eq_false_2; done.
Qed.

Lemma cancel_lookup_pending self id d :
  pending_approvals self !! id = Some d ->
  status d = "pending" ->
  pending_approvals (_cancel_reminder_timer self id) !! id
  = Some (set_reminder_stopped d).
Proof.
  intros Hd Hs. unfold _cancel_reminder_timer; simpl.
  rewrite Hd. rewrite bool_decide_eq_true_2 by done.
  apply lookup_insert_eq.
Qed.

Lemma cancel_lookup_other self id id' :
  id <> id' ->
  pending_approvals (_cancel_reminder_timer self id) !! id'
  = pending_approvals self !! id'.
Proof.
  intros Hne. unfold _cancel_reminder_timer; simpl.
  destruct (pending_approvals self !! id) as [d|]; [|done].
  case_bool_decide; [|done]. by rewrite lookup_insert_ne.
Qed.

(** A submission on a resolved record fails and leaves the whole
    registry as it was. *)
Lemma process_resolved self id d act uid user cmt now :
  pending_approvals self !! id = Some d ->
  status d <> "pending" ->
  pending_approvals (process self id act uid user cmt now).1
  = pending_approvals self
  /\ (process self id act uid user cmt now).2
     = (false, if bool_decide (id ∈ _processing_approvals self)
               then in_progress else already_processed (status d)).
Proof.
  intros Hd Hs. unfold process_approval_internal.
  case_bool_decide as Hin; [done|].
  set (self1 := with_processing self _).
  assert (Hd1 : pending_approvals self1 !! id = Some d) by done.
  pose proof (cancel_keeps_resolved self1 id d Hd1 Hs) as Hc.
  assert (Hl : pending_approvals (_cancel_reminder_timer self1 id) !! id
               = Some d) by (by rewrite Hc).
  rewrite Hl. rewrite bool_decide_eq_false_2 by done. simpl.
  split; [|done].
  rewrite Hd. by rewrite bool_decide_eq_false_2.
Qed.

(** The deadline enforcer does nothing to a resolved record. *)
Lemma timeout_resolved self id d now :
  pending_approvals self !! id = Some d ->
  status d <> "pending" ->
  timeout_handler self id now = self.
Proof.
  intros Hd Hs. unfold timeout_handler. rewrite Hd.
  by rewrite bool_decide_eq_false_2.
Qed.

(** What a submission writes to a pending record. *)
Lemma process_pending self id d act uid user cmt now :
  pending_approvals self !! id = Some d ->
  status d = "pending" ->
  id ∉ _processing_approvals self ->
  pending_approvals (process self id act uid user cmt now).1 !! id
  = Some (set_reminder_stopped
            (set_decider (set_status (set_reminder_stopped d)
                            (final_status act))
               user (get_user_role permission_service user) cmt now))
  /\ (process self id act uid user cmt now).2
     = (true, "审批" +:+ act +:+ "成功").
Proof.
  intros Hd Hs Hin. unfold process_approval_internal.
  rewrite bool_decide_eq_false_2 by done.
  set (self1 := with_processing self _).
  assert (Hd1 : pending_approvals self1 !! id = Some d) by done.
  rewrite (cancel_lookup_pending self1 id d Hd1 Hs).
  change (status (set_reminder_stopped d)) with (status d).
  rewrite bool_decide_eq_true_2 by done. simpl.
  split; [|done]. apply lookup_insert_eq.
Qed.

(** A submission that goes through sets the event of the id. *)
Lemma process_pending_event self id d act uid user cmt now :
  pending_approvals self !! id = Some d ->
  status d = "pending" ->
  id ∉ _processing_approvals self ->
  _approval_events (process self id act uid user cmt now).1 !! id = Some true.
Proof.
  intros Hd Hs Hin. unfold process_approval_internal.
  rewrite bool_decide_eq_false_2 by done.
  set (self1 := with_processing self _).
  assert (Hd1 : pending_approvals self1 !! id = Some d) by done.
  rewrite (cancel_lookup_pending self1 id d Hd1 Hs).
  change (status (set_reminder_stopped d)) with (status d).
  rewrite bool_decide_eq_true_2 by done. simpl.
  apply lookup_insert_eq.
Qed.

Lemma timeout_pending self id d now :
  pending_approvals self !! id = Some d ->
  status d = "pending" ->
  pending_approvals (timeout_handler self id now) !! id
  = Some (set_decider (set_status d "timeout")
            "system" "system" "审批超时" now).
Proof.
  intros Hd Hs. unfold timeout_handler. rewrite Hd.
  rewrite bool_decide_eq_true_2 by done.
  set (d2 := set_decider _ _ _ _ _).
  set (self1 := with_pending self _).
  assert (H1 : pending_approvals self1 !! id = Some d2)
    by apply lookup_insert_eq.
  assert (Hs2 : status d2 <> "pending") by (simpl; discriminate).
  destruct (_approval_events self1 !! id).
  - rewrite (cancel_keeps_resolved _ id d2); [done|done|done].
  - rewrite (cancel_keeps_resolved _ id d2); [done|done|done].
Qed.

Lemma final_status_known act :
  act ∈ ["approve"; "reject"; "approved"; "rejected"] ->
  final_status act = "approved" \/ final_status act = "rejected".
Proof.
  intros H. repeat (apply elem_of_cons in H as [->|H]);
    [left|right|left|right|by apply elem_of_nil in H]; reflexivity.
Qed.

End Transitions.

(** One call at a time.  When each call runs from its first statement
    to its last with no other thread in between, a record leaves
    ["pending"] only for ["approved"] or ["rejected"] (a submission with
    one of the four actions the entry points pass, when none is in
    flight) or for ["timeout"] (the deadline enforcer).  Once its status
    is not ["pending"], a submission changes nothing in the registry and
    fails, with the in-progress refusal while a submission for the id is
    in flight and with the already-processed refusal otherwise; the
    deadline enforcer leaves the handler as it is. *)
Theorem status_moves_once (ps : PermissionService) (self : APIHandler)
    (id : string) (d : ApprovalData) (act uid user cmt now : string) :
  pending_approvals self !! id = Some d ->
  (status d = "pending" ->
     (id ∉ _processing_approvals self ->
      act ∈ ["approve"; "reject"; "approved"; "rejected"] ->
      exists d',
        pending_approvals
          (process_approval_internal ps self id act uid user cmt now).1 !! id
        = Some d'
        /\ (status d' = "approved" \/ status d' = "rejected")
        /\ (process_approval_internal ps self id act uid user cmt now).2.1
           = true)
     /\ exists d',
          pending_approvals (timeout_handler self id now) !! id = Some d'
          /\ status d' = "timeout")
  /\ (status d <> "pending" ->
      pending_approvals
        (process_approval_internal ps self id act uid user cmt now).1
      = pending_approvals self
      /\ (process_approval_internal ps self id act uid user cmt now).2
         = (false,
            if bool_decide (id ∈ _processing_approvals self)
            then in_progress else already_processed (status d))
      /\ timeout_handler self id now = self).
Proof.
  intros Hd. split.
  - intros Hs. split.
    + intros Hin Hact.
      destruct (process_pending ps self id d act uid user cmt now Hd Hs Hin)
        as [Hl Hr].
      eexists. split; [exact Hl|]. split.
      * simpl. by apply final_status_known.
      * by rewrite Hr.
    + eexists. split; [by apply timeout_pending|]. reflexivity.
  - intros Hs.
    destruct (process_resolved ps self id d act uid user cmt now Hd Hs)
      as [H1 H2].
    split; [exact H1|]. split; [exact H2|].
    by apply (timeout_resolved self id d).
Qed.

(** The theorem at the demo handler: the enforcer times out the fresh
    record, and leaves the decided one alone. *)
Lemma status_moves_once_witness :
  (exists d',
     pending_approvals
       (timeout_handler Demo.created "a1" "2024-01-01T10:01:00") !! "a1"
     = Some d' /\ status d' = "timeout")
  /\ timeout_handler Demo.decided "a1" "2024-01-01T10:01:00" = Demo.decided.
Proof.
  split.
  - apply (status_moves_once Demo.users Demo.created "a1" (Demo.fresh "a1")
             "approved" "web_user" "bob" "late" "2024-01-01T10:01:00");
      reflexivity.
  - refine (proj2 (proj2 (proj2
      (status_moves_once Demo.users Demo.decided "a1" _
         "approved" "web_user" "bob" "late" "2024-01-01T10:01:00" _) _))).
    + vm_compute. reflexivity.
    + vm_compute. discriminate.
Defined.

(** While a submission for ["a1"] is in flight, a later submission on
    the approved record is refused with the in-progress message, which
    is not the already-processed one. *)
Lemma resubmission_in_flight_is_in_progress :
  status <$> pending_approvals Demo.decided_in_flight !! "a1" = Some "approved"
  /\ (process_approval_internal Demo.users Demo.decided_in_flight "a1"
        "rejected" "web_user" "bob" "no" "2024-01-01T10:00:31").2
     = (false, in_progress)
  /\ in_progress <> already_processed "approved".
Proof.
  split; [vm_compute; reflexivity|].
  split; [vm_compute; reflexivity|].
  vm_compute. discriminate.
Qed.

(** The call of [timeout_handler] that runs with no other thread in
    between is its test followed by its body. *)
Lemma timeout_handler_split (self : APIHandler) (id now : string) :
  timeout_handler self id now
  = if timeout_test self id
    then default self (timeout_body self id now)
    else self.
Proof.
  unfold timeout_handler, timeout_test, timeout_body.
  destruct (pending_approvals self !! id) as [d|]; [|reflexivity].
  case_bool_decide; reflexivity.
Qed.

(** C1 on the failing inputs.  The record is pending and no submission
    is in flight.  The deadline enforcer makes its test and finds the
    record pending; before it reaches its assignments a submission with
    one of the four actions of the entry points is made, returns
    success, and leaves the record approved or rejected in the name of
    the submitter.  The enforcer then makes its assignments: the decided
    record has its status changed to ["timeout"] and its decider, role,
    comment and update time replaced by those of the enforcer.  Neither
    call is refused. *)
Theorem deadline_rewrites_decided_record (ps : PermissionService)
    (self : APIHandler) (id : string) (d : ApprovalData)
    (act uid user cmt now now' : string) :
  pending_approvals self !! id = Some d ->
  status d = "pending" ->
  id ∉ _processing_approvals self ->
  act ∈ ["approve"; "reject"; "approved"; "rejected"] ->
  let submitted := process_approval_internal ps self id act uid user cmt now in
  timeout_test self id = true
  /\ submitted.2 = (true, "审批" +:+ act +:+ "成功")
  /\ (exists d1,
        pending_approvals submitted.1 !! id = Some d1
        /\ (status d1 = "approved" \/ status d1 = "rejected")
        /\ approver d1 = Some user
        /\ comment d1 = Some cmt
        /\ updated_at d1 = Some now)
  /\ (exists self2 d2,
        timeout_body submitted.1 id now' = Some self2
        /\ pending_approvals self2 !! id = Some d2
        /\ status d2 = "timeout"
        /\ approver d2 = Some "system"
        /\ approver_role d2 = Some "system"
        /\ comment d2 = Some "审批超时"
        /\ updated_at d2 = Some now').
Proof.
  intros Hd Hs Hin Hact submitted. subst submitted.
  destruct (process_pending ps self id d act uid user cmt now Hd Hs Hin)
    as [Hl Hr].
  split.
  { unfold timeout_test. rewrite Hd. by apply bool_decide_eq_true_2. }
  split; [exact Hr|]. split.
  { eexists. split; [exact Hl|]. split; [|by repeat split].
    cbn. by apply final_status_known. }
  set (s1 := (process_approval_internal ps self id act uid user cmt now).1)
    in *.
  set (d1 := set_reminder_stopped _) in Hl.
  set (d2 := set_decider (set_status d1 "timeout") "system" "system"
               "审批超时" now').
  set (s2 := with_pending s1 (<[id := d2]> (pending_approvals s1))).
  assert (H2 : pending_approvals s2 !! id = Some d2)
    by apply lookup_insert_eq.
  assert (Hne : status d2 <> "pending") by discriminate.
  unfold timeout_body. rewrite Hl. cbv zeta. fold d2. fold s2.
  destruct (_approval_events s2 !! id).
  - eexists. exists d2. split; [reflexivity|]. split; [|by repeat split].
    erewrite cancel_keeps_resolved; [exact H2 | exact H2 | exact Hne].
  - eexists. exists d2. split; [reflexivity|]. split; [|by repeat split].
    erewrite cancel_keeps_resolved; [exact H2 | exact H2 | exact Hne].
Qed.

(** The theorem on the demo handler: the enforcer tests the fresh
    record, alice approves it, and the enforcer times it out. *)
Lemma deadline_rewrites_decided_record_witness :
  timeout_test Demo.created "a1" = true
  /\ (status <$> pending_approvals Demo.decided !! "a1") = Some "approved"
  /\ (approver <$> pending_approvals Demo.decided !! "a1")
     = Some (Some "alice")
  /\ exists self2,
       timeout_body Demo.decided "a1" "2024-01-01T10:01:00" = Some self2
       /\ (status <$> pending_approvals self2 !! "a1") = Some "timeout"
       /\ (approver <$> pending_approvals self2 !! "a1")
          = Some (Some "system").
Proof.
  destruct (deadline_rewrites_decided_record Demo.users Demo.created "a1"
              (Demo.fresh "a1") "approved" "web_user" "alice" "ok"
              "2024-01-01T10:00:30" "2024-01-01T10:01:00")
    as (H1 & _ & _ & (s2 & d2 & Hb & Hd2 & Hs2 & Ha2 & _)).
  - reflexivity.
  - reflexivity.
  - vm_compute. discriminate.
  - apply list_elem_of_further, list_elem_of_further, list_elem_of_here.
  - split; [exact H1|]. split; [vm_compute; reflexivity|].
    split; [vm_compute; reflexivity|].
    exists s2. split; [exact Hb|]. rewrite Hd2. cbn. by rewrite Hs2, Ha2.
Defined.

(** ** Memory and durable store *)

Section Durability.

Variable permission_service : PermissionService.

Abbreviation process := (process_approval_internal permission_service).

(** A submission never touches the durable store. *)
Lemma process_keeps_database self id act uid user cmt now :
  database_service (process self id act uid user cmt now).1
  = database_service self.
Proof.
  unfold process_approval_internal.
  case_bool_decide; [done|].
  destruct (pending_approvals _ !! id) as [d|]; [|done].
  by destruct (negb _).
Qed.

(** A submission that succeeds found a pending record and no submission
    in flight. *)
Lemma process_success_inv self id act uid user cmt now :
  (process self id act uid user cmt now).2.1 = true ->
  (id ∉ _processing_approvals self)
  /\ exists d, pending_approvals self !! id = Some d /\ status d = "pending".
Proof.
  unfold process_approval_internal.
  case_bool_decide as Hin; [done|]. intros H. split; [done|].
  destruct (pending_approvals self !! id) as [d|] eqn:Hd.
  - exists d. split; [done|].
    destruct (decide (status d = "pending")) as [|Hs]; [done|].
    exfalso. revert H.
    set (self1 := with_processing self _).
    assert (Hd1 : pending_approvals self1 !! id = Some d) by done.
    pose proof (cancel_keeps_resolved self1 id d Hd1 Hs) as Hc.
    assert (Hl : pending_approvals (_cancel_reminder_timer self1 id) !! id
                 = Some d) by (by rewrite Hc).
    rewrite Hl. by rewrite bool_decide_eq_false_2.
  - exfalso. revert H.
    set (self1 := with_processing self _).
    assert (Hl : pending_approvals (_cancel_reminder_timer self1 id) !! id
                 = None).
    { unfold _cancel_reminder_timer; simpl. by rewrite Hd. }
    by rewrite Hl.
Qed.

End Durability.

(** C3 (amended).  A submission that returns success has written the new
    status, the actor, the role, the comment and the timestamp to the
    record in memory, and has left the durable store exactly as it
    was. *)
Theorem decision_written_to_memory_only (ps : PermissionService)
    (self : APIHandler) (id act uid user cmt now : string) :
  (process_approval_internal ps self id act uid user cmt now).2.1 = true ->
  (exists d',
     pending_approvals
       (process_approval_internal ps self id act uid user cmt now).1 !! id
     = Some d'
     /\ status d' = final_status act
     /\ approver d' = Some user
     /\ approver_role d' = Some (get_user_role ps user)
     /\ comment d' = Some cmt
     /\ updated_at d' = Some now)
  /\ database_service
       (process_approval_internal ps self id act uid user cmt now).1
     = database_service self.
Proof.
  intros Hok. split; [|apply process_keeps_database].
  destruct (process_success_inv ps self id act uid user cmt now Hok)
    as (Hin & d & Hd & Hs).
  destruct (process_pending ps self id d act uid user cmt now Hd Hs Hin)
    as [Hl _].
  eexists. split; [exact Hl|]. by repeat split.
Qed.

Lemma decision_written_to_memory_only_witness :
  database_service
    (process_approval_internal Demo.users Demo.created "a1" "approved"
       "web_user" "alice" "ok" "2024-01-01T10:00:30").1
  = database_service Demo.created.
Proof.
  apply (decision_written_to_memory_only Demo.users Demo.created "a1"
           "approved" "web_user" "alice" "ok" "2024-01-01T10:00:30").
  vm_compute. reflexivity.
Defined.

(** C3 as stated fails: the approval of ["a1"] returns success and the
    record in memory is approved, while the durable row is still pending
    and no history row was added. *)
Lemma approval_leaves_durable_row_pending :
  let r := process_approval_internal Demo.users Demo.created "a1" "approved"
             "web_user" "alice" "ok" "2024-01-01T10:00:30" in
  r.2.1 = true
  /\ status <$> pending_approvals r.1 !! "a1" = Some "approved"
  /\ (database_service r.1 ≫=
        fun db => Db.status <$> Db.get_approval db "a1") = Some "pending"
  /\ (Db.approval_history <$> database_service r.1) = Some [].
Proof. vm_compute. repeat split; reflexivity. Qed.

(** ** The refusal of a second decision *)

(** The durable store's refusal does name the status and the operator. *)
Lemma update_refused_names_operator (db : Db.DatabaseService)
    (rid st who role cmt now_str : string) (r : Db.ApprovalRequest) :
  Db.connectable db = true ->
  Db.approvals db !! rid = Some r ->
  Db.status r <> "pending" ->
  Db.update_approval_status db rid st who role cmt now_str
  = (db, {| Db.success := false;
            Db.message := "❌ 审批已处理！当前状态: " +:+ Db.status r +:+
                          ", 操作人: " +:+ Db.fmt (Db.approver r) +:+
                          "，请勿重复操作";
            Db.code := Db.ALREADY_PROCESSED |}).
Proof.
  intros Hc Hr Hs. unfold Db.update_approval_status.
  rewrite Hc, Hr. unfold Db.PENDING. by rewrite bool_decide_eq_false_2.
Qed.

(** C7 (amended).  With no submission in flight, a submission on a record
    that is approved or rejected is refused with a message that is fixed
    by the status alone: it says that the approval was already passed,
    or already rejected, and cannot be repeated.  Two handlers whose
    records agree on the status get the same refusal whoever decided
    them and whenever. *)
Theorem refusal_names_status_only (ps : PermissionService)
    (self1 self2 : APIHandler) (id : string) (d1 d2 : ApprovalData)
    (act uid user cmt now : string) :
  pending_approvals self1 !! id = Some d1 ->
  pending_approvals self2 !! id = Some d2 ->
  status d1 = status d2 ->
  status d1 = "approved" \/ status d1 = "rejected" ->
  id ∉ _processing_approvals self1 ->
  id ∉ _processing_approvals self2 ->
  (process_approval_internal ps self1 id act uid user cmt now).2
  = (process_approval_internal ps self2 id act uid user cmt now).2
  /\ (process_approval_internal ps self1 id act uid user cmt now).2
     = (false,
        if bool_decide (status d1 = "approved")
        then "该审批已被通过，无法重复操作"
        else "该审批已被拒绝，无法重复操作").
Proof.
  intros H1 H2 Heq Hst Hp1 Hp2.
  assert (Hs1 : status d1 <> "pending") by (destruct Hst as [-> | ->]; done).
  assert (Hs2 : status d2 <> "pending") by (by rewrite <- Heq).
  destruct (process_resolved ps self1 id d1 act uid user cmt now H1 Hs1)
    as [_ E1].
  destruct (process_resolved ps self2 id d2 act uid user cmt now H2 Hs2)
    as [_ E2].
  rewrite E1, E2, <- Heq.
  rewrite !bool_decide_eq_false_2 by done.
  split; [done|].
  destruct Hst as [-> | ->]; reflexivity.
Qed.

Lemma refusal_names_status_only_witness :
  (process_approval_internal Demo.users Demo.decided "a1" "rejected"
     "web_user" "carol" "no" "2024-01-01T10:00:40").2
  = (process_approval_internal Demo.users Demo.decided_by_bob "a1" "rejected"
       "web_user" "carol" "no" "2024-01-01T10:00:40").2.
Proof.
  refine (proj1 (refusal_names_status_only Demo.users Demo.decided
                   Demo.decided_by_bob "a1" _ _ "rejected" "web_user" "carol"
                   "no" "2024-01-01T10:00:40" _ _ _ _ _ _)).
  - vm_compute. reflexivity.
  - vm_compute. reflexivity.
  - reflexivity.
  - left. reflexivity.
  - vm_compute. discriminate.
  - vm_compute. discriminate.
Defined.

(** C7 as stated fails: ["a1"] was approved by alice at 10:00:30, and the
    refusal of a later rejection names neither her nor that instant. *)
Lemma refusal_omits_decider :
  let r := process_approval_internal Demo.users Demo.decided "a1" "rejected"
             "web_user" "bob" "no" "2024-01-01T10:00:40" in
  (approver <$> pending_approvals Demo.decided !! "a1") = Some (Some "alice")
  /\ (updated_at <$> pending_approvals Demo.decided !! "a1")
     = Some (Some "2024-01-01T10:00:30")
  /\ r.2.1 = false
  /\ r.2.2 = "该审批已被通过，无法重复操作"
  /\ contains "alice" r.2.2 = false
  /\ contains "Alice" r.2.2 = false
  /\ contains "2024-01-01T10:00:30" r.2.2 = false.
Proof. vm_compute. repeat split; reflexivity. Qed.

(** ** The end of the wait *)

(** An update asked in the name of an operator who does not hold the
    lock of a pending row is refused and writes nothing. *)
Lemma update_needs_lock (db : Db.DatabaseService)
    (rid st who role cmt now_str : string) (r : Db.ApprovalRequest) :
  Db.connectable db = true ->
  Db.approvals db !! rid = Some r ->
  Db.status r = "pending" ->
  Db.is_locked r = false \/ Db.approver r <> Some who ->
  Db.update_approval_status db rid st who role cmt now_str
  = (db, {| Db.success := false; Db.message := "审批请求未被正确锁定";
            Db.code := Db.LOCK_REQUIRED |}).
Proof.
  intros Hc Hr Hs Hl. unfold Db.update_approval_status.
  rewrite Hc, Hr. unfold Db.PENDING.
  rewrite bool_decide_eq_true_2 by done. simpl.
  destruct Hl as [-> | Hne]; [done|].
  rewrite (bool_decide_eq_false_2 _ Hne). by rewrite orb_true_r.
Qed.

(** The last read finds a resolved row: its decision is the answer. *)
Lemma epilogue_last_moment (self : APIHandler) (id : string) (waited : Z)
    (now_str : string) (db : Db.DatabaseService) (r : Db.ApprovalRequest) :
  database_service self = Some db ->
  Db.get_approval db id = Some r ->
  Db.status r <> "pending" ->
  (wait_epilogue self id waited now_str).2
  = LastMoment (Db.status r) (Db.approver r) (Db.approver_role r)
      (Db.comment r) waited.
Proof.
  intros Hdb Hr Hs. unfold wait_epilogue.
  change (database_service (_cancel_reminder_timer self id))
    with (database_service self).
  rewrite Hdb, Hr. unfold Db.PENDING.
  by rewrite bool_decide_eq_false_2.
Qed.

(** The last read finds a pending row that "system" has not locked: the
    answer is a timeout, the update is refused and the durable store is
    as it was. *)
Lemma epilogue_refused (self : APIHandler) (id : string)
    (waited : Z) (now_str : string) (db : Db.DatabaseService)
    (r : Db.ApprovalRequest) :
  database_service self = Some db ->
  Db.get_approval db id = Some r ->
  Db.status r = "pending" ->
  Db.is_locked r = false \/ Db.approver r <> Some "system" ->
  (wait_epilogue self id waited now_str).2 = TimedOut waited
  /\ database_service (wait_epilogue self id waited now_str).1 = Some db
  /\ Db.code
       (Db.update_approval_status db id Db.TIMEOUT "system" "system"
          "审批超时" now_str).2 = Db.LOCK_REQUIRED.
Proof.
  intros Hdb Hr Hs Hl.
  assert (Hc : Db.connectable db = true).
  { unfold Db.get_approval in Hr. by destruct (Db.connectable db). }
  assert (Hr' : Db.approvals db !! id = Some r).
  { unfold Db.get_approval in Hr. by rewrite Hc in Hr. }
  pose proof (update_needs_lock db id Db.TIMEOUT "system" "system" "审批超时"
                now_str r Hc Hr' Hs Hl) as Hu.
  unfold wait_epilogue.
  change (database_service (_cancel_reminder_timer self id))
    with (database_service self).
  rewrite Hdb, Hr. unfold Db.PENDING.
  rewrite bool_decide_eq_true_2 by done.
  rewrite Hu. simpl. split; [done|]. split; [|done].
  repeat case_match; reflexivity.
Qed.

(** C4 on the failing inputs.  When the wait elapses and the last read
    finds a pending row that "system" has not locked (no path of the
    waiter locks it), the answer is a timeout, and the update that
    should record it is refused: the durable store is exactly as it
    was, whatever the record in memory says. *)
Theorem timeout_never_written_durably (self : APIHandler) (id : string)
    (waited : Z) (now_str : string) (db : Db.DatabaseService)
    (r : Db.ApprovalRequest) :
  database_service self = Some db ->
  Db.get_approval db id = Some r ->
  Db.status r = "pending" ->
  Db.is_locked r = false \/ Db.approver r <> Some "system" ->
  (wait_epilogue self id waited now_str).2 = TimedOut waited
  /\ database_service (wait_epilogue self id waited now_str).1 = Some db
  /\ Db.code
       (Db.update_approval_status db id Db.TIMEOUT "system" "system"
          "审批超时" now_str).2 = Db.LOCK_REQUIRED
  /\ (database_service (wait_epilogue self id waited now_str).1 ≫=
        fun db' => Db.status <$> Db.get_approval db' id) = Some "pending".
Proof.
  intros Hdb Hr Hs Hl.
  destruct (epilogue_refused self id waited now_str db r Hdb Hr Hs Hl)
    as (H1 & H2 & H3).
  repeat split; try done.
  rewrite H2. simpl. rewrite Hr. simpl. by rewrite Hs.
Qed.

(** The theorem on ["a1"] as [approval_wait] registers it. *)
Lemma timeout_never_written_durably_witness :
  (wait_epilogue Demo.created "a1" 60 "2024-01-01 10:01:00").2 = TimedOut 60
  /\ database_service
       (wait_epilogue Demo.created "a1" 60 "2024-01-01 10:01:00").1
     = Some Demo.store.
Proof.
  destruct (timeout_never_written_durably Demo.created "a1" 60
              "2024-01-01 10:01:00" Demo.store (Demo.row "a1"))
    as (H1 & H2 & _ & _).
  - reflexivity.
  - vm_compute. reflexivity.
  - reflexivity.
  - left. reflexivity.
  - split; [exact H1|exact H2].
Defined.

(** The same run, evaluated: the record in memory is marked, the
    durable row is still pending and has no history row. *)
Example timeout_not_written_durably :
  let out := wait_epilogue Demo.created "a1" 60 "2024-01-01 10:01:00" in
  out.2 = TimedOut 60
  /\ (status <$> pending_approvals out.1 !! "a1") = Some "timeout"
  /\ (database_service out.1 ≫=
        fun db => Db.status <$> Db.get_approval db "a1") = Some "pending"
  /\ (Db.approval_history <$> database_service out.1) = Some [].
Proof. vm_compute. repeat split; reflexivity. Qed.

(** ** The reminder thread and a failing store *)

(** C8 on the failing inputs.  In its first reminder round, with nothing
    asking it to stop, the thread does not survive a failing store.
    With no database service the read raises, the round passes over the
    exception and then uses the variable that the read should have
    bound: the thread dies before its first reminder.  With a server
    that cannot be reached the read returns nothing and the thread ends
    at once.  The checks of the first wait do pass over both
    failures. *)
Theorem reminder_dies_on_store_failure (ps : PermissionService) (id : string)
    (self : APIHandler) :
  stop_requested id self = false ->
  (database_service self = None ->
   reminder_step ps id (LoopHead 0 None) self = (Crashed, []))
  /\ (forall db,
        database_service self = Some db ->
        Db.connectable db = false ->
        reminder_step ps id (LoopHead 0 None) self = (Stopped, []))
  /\ (forall i,
        database_service self = None
        \/ (exists db, database_service self = Some db
                       /\ Db.connectable db = false) ->
        reminder_step ps id (FirstWait i) self
        = (if bool_decide (S i < 600)%nat
           then FirstWait (S i) else LoopHead 0 None, [])).
Proof.
  intros Hs. split; [|split].
  - intros Hdb. unfold reminder_step. rewrite Hs, Hdb. reflexivity.
  - intros db Hdb Hc. unfold reminder_step. rewrite Hs, Hdb.
    unfold Db.get_approval. rewrite Hc. reflexivity.
  - intros i H. unfold reminder_step. rewrite Hs.
    assert (Hq :
      (if bool_decide (i `mod` 20 = 0)%nat
       then match database_service self with
            | Some db =>
                match Db.get_approval db id with
                | Some r => negb (bool_decide (Db.status r = "pending"))
                | None => false
                end
            | None => false
            end
       else false) = false).
    { destruct (bool_decide (i `mod` 20 = 0)%nat); [|done].
      destruct H as [-> | (db & -> & Hc)]; [done|].
      unfold Db.get_approval. by rewrite Hc. }
    rewrite Hq. destruct (bool_decide (S i < 600)%nat); reflexivity.
Qed.

(** The theorem on the demo handler without a database service, reached
    from the first statement of the thread. *)
Lemma reminder_dies_on_store_failure_witness :
  reminder_step Demo.users "a1" (LoopHead 0 None) Demo.no_database
  = (Crashed, []).
Proof.
  refine (proj1 (reminder_dies_on_store_failure Demo.users "a1"
                   Demo.no_database _) _).
  - vm_compute. reflexivity.
  - reflexivity.
Defined.

Example reminder_dies_without_database :
  reminder_task Demo.users "a1" 601 (fun _ => Demo.no_database)
  = (Crashed, [])
  /\ reminder_task Demo.users "a1" 601 (fun _ => Demo.unreachable)
     = (Stopped, []).
Proof. vm_compute. split; reflexivity. Qed.

(** ** The reminder thread *)

Section ReminderFacts.

Variable permission_service : PermissionService.
Variable id : string.

Abbreviation step := (reminder_step permission_service id).
Abbreviation run := (reminder_run permission_service id).

Lemma step_terminal p self :
  terminal p = true -> step p self = (p, []).
Proof. by destruct p. Qed.

Lemma run_terminal fuel obs n p :
  terminal p = true -> run fuel obs n p = (p, []).
Proof.
  revert n. induction fuel as [|fuel IH]; intros n Ht; [done|].
  simpl. rewrite (step_terminal p (obs n) Ht). by rewrite IH.
Qed.

(** A wake-up that finds a stop request ends the thread without a
    reminder, in whatever phase it was. *)
Lemma step_stop p self :
  stop_requested id self = true ->
  (step p self).2 = [] /\ terminal (step p self).1 = true.
Proof.
  intros Hs. destruct p as [i|c ar|c i ar| | |]; simpl; rewrite ?Hs; try done.
  by destruct (negb _).
Qed.

Lemma run_stop fuel obs n p :
  stop_requested id (obs n) = true -> (run fuel obs n p).2 = [].
Proof.
  intros Hs. destruct fuel as [|fuel]; [done|]. simpl.
  destruct (step_stop p (obs n) Hs) as [Ho Ht].
  destruct (step p (obs n)) as [p' out]. simpl in *. subst out.
  by rewrite (run_terminal fuel obs (S n) p' Ht).
Qed.

Lemma fire_count c ar :
  (c < max_reminders)%nat ->
  ((fire permission_service id c ar).2 = []
   /\ terminal (fire permission_service id c ar).1 = true)
  \/ (exists r,
        (fire permission_service id c ar).2 = [r]
        /\ rem_reminder_count r = S c
        /\ (terminal (fire permission_service id c ar).1 = true
            \/ phase_count (fire permission_service id c ar).1 = S c)).
Proof.
  intros Hc. unfold fire. destruct ar as [r|]; [|left; auto].
  right. eexists. split; [reflexivity|]. split; [reflexivity|].
  case_bool_decide; simpl; auto.
Qed.

(** One step sends nothing and keeps [count], or sends the reminder
    numbered [count + 1], which is at most [max_reminders]. *)
Lemma step_count p self :
  ((step p self).2 = []
   /\ (terminal (step p self).1 = true
       \/ phase_count (step p self).1 = phase_count p))
  \/ (exists r,
        (step p self).2 = [r]
        /\ rem_reminder_count r = S (phase_count p)
        /\ (phase_count p < max_reminders)%nat
        /\ (terminal (step p self).1 = true
            \/ phase_count (step p self).1 = S (phase_count p))).
Proof.
  destruct p as [i|c ar|c i ar| | |]; unfold reminder_step.
  - left. repeat case_match; simpl; auto.
  - case_bool_decide as Hc; simpl negb; cbv iota; [|left; auto].
    destruct (stop_requested id self); [left; auto|].
    assert (Hgo : forall a,
      ((fire permission_service id c a).2 = []
       /\ (terminal (fire permission_service id c a).1 = true
           \/ phase_count (fire permission_service id c a).1
              = phase_count (LoopHead c ar)))
      \/ (exists r,
            (fire permission_service id c a).2 = [r]
            /\ rem_reminder_count r = S (phase_count (LoopHead c ar))
            /\ (phase_count (LoopHead c ar) < max_reminders)%nat
            /\ (terminal (fire permission_service id c a).1 = true
                \/ phase_count (fire permission_service id c a).1
                   = S (phase_count (LoopHead c ar))))).
    { intros a. destruct (fire_count c a Hc) as [[H1 H2] | (r & H1 & H2 & H3)].
      - left. auto.
      - right. exists r. simpl. auto. }
    destruct (database_service self) as [db|]; [|apply Hgo].
    destruct (Db.get_approval db id) as [r|]; [|left; auto].
    case_bool_decide; [apply Hgo|left; auto].
  - left. repeat case_match; simpl; auto.
  - left; auto.
  - left; auto.
  - left; auto.
Qed.

Lemma run_counts fuel : forall obs n p,
  map rem_reminder_count (run fuel obs n p).2
  = seq (S (phase_count p)) (length (run fuel obs n p).2)
  /\ (length (run fuel obs n p).2 = 0%nat
      \/ (phase_count p + length (run fuel obs n p).2 <= max_reminders)%nat).
Proof.
  induction fuel as [|fuel IH]; intros obs n p; [simpl; auto|].
  simpl.
  pose proof (step_count p (obs n)) as Hstep.
  destruct (step p (obs n)) as [p' out] eqn:Hp. simpl in Hstep.
  specialize (IH obs (S n) p').
  pose proof (run_terminal fuel obs (S n) p') as Hterm.
  destruct (run fuel obs (S n) p') as [p'' out'] eqn:Hrun. simpl in *.
  destruct Hstep as [[-> Hn] | (r & -> & Hr & Hlt & Hn)]; simpl.
  - destruct Hn as [Ht | Hc].
    + specialize (Hterm Ht). injection Hterm as _ ->. simpl. auto.
    + rewrite <- Hc. exact IH.
  - destruct Hn as [Ht | Hc].
    + specialize (Hterm Ht). injection Hterm as _ ->. simpl.
      rewrite Hr. split; [done|]. right. lia.
    + rewrite Hc in IH. destruct IH as [IH1 IH2].
      rewrite Hr, IH1. split; [done|]. right.
      destruct IH2 as [-> | IH2]; lia.
Qed.

Lemma fire_decreases c ar :
  (c < max_reminders)%nat ->
  (steps_left (fire permission_service id c ar).1 < head_steps c)%nat.
Proof.
  unfold fire, head_steps, max_reminders. intros Hc.
  destruct ar as [r|]; simpl; [|lia].
  case_bool_decide; simpl; unfold head_steps, max_reminders; lia.
Qed.

(** Every step of a phase that has not ended uses up the measure. *)
Lemma step_decreases p self :
  terminal p = false ->
  (steps_left (step p self).1 < steps_left p)%nat.
Proof.
  destruct p as [i|c ar|c i ar| | |]; try done; intros _;
    unfold reminder_step.
  - destruct (stop_requested id self); [simpl; lia|].
    match goal with |- context [if ?b then (Stopped, _) else _] =>
      destruct b end; [simpl; lia|].
    case_bool_decide; simpl; unfold head_steps, max_reminders; lia.
  - case_bool_decide as Hc; simpl negb; cbv iota;
      [|simpl; unfold head_steps; lia].
    destruct (stop_requested id self); [simpl; unfold head_steps; lia|].
    destruct (database_service self) as [db|];
      [|by apply fire_decreases].
    destruct (Db.get_approval db id) as [r|];
      [|simpl; unfold head_steps; lia].
    case_bool_decide; [by apply fire_decreases|].
    simpl; unfold head_steps; lia.
  - destruct (stop_requested id self); [simpl; lia|].
    case_bool_decide; simpl; lia.
Qed.

Lemma run_ends fuel : forall obs n p,
  (steps_left p <= fuel)%nat -> terminal (run fuel obs n p).1 = true.
Proof.
  induction fuel as [|fuel IH]; intros obs n p Hle.
  - simpl. destruct p; simpl in *; unfold head_steps in *; try done; lia.
  - simpl. destruct (terminal p) eqn:Ht.
    + rewrite (step_terminal p (obs n) Ht).
      rewrite (run_terminal fuel obs (S n) p Ht). done.
    + pose proof (step_decreases p (obs n) Ht) as Hd.
      destruct (step p (obs n)) as [p' out]. simpl in Hd.
      specialize (IH obs (S n) p' ltac:(lia)).
      by destruct (run fuel obs (S n) p').
Qed.

(** On a quiet handler a step never stops the thread, and sends the
    reminder that is due. *)
Lemma step_quiet p self :
  quiet id self ->
  alive p = true ->
  alive (step p self).1 = true
  /\ (length (step p self).2 + fires_left (step p self).1)%nat
     = fires_left p.
Proof.
  intros (Hs & db & r & Hdb & Hr & Hst) Hp.
  destruct p as [i|c ar|c i ar| | |]; try done; unfold reminder_step;
    rewrite ?Hs, ?Hdb, ?Hr.
  - unfold Db.PENDING. rewrite (bool_decide_eq_true_2 _ Hst). simpl negb.
    repeat case_bool_decide; simpl; auto.
  - case_bool_decide as Hc; simpl negb; cbv iota.
    + unfold Db.PENDING. rewrite (bool_decide_eq_true_2 _ Hst).
      unfold fire. case_bool_decide; simpl; unfold max_reminders in *;
        split; try done; lia.
    + simpl. unfold max_reminders in *. split; [done|lia].
  - case_bool_decide; simpl; auto.
Qed.

Lemma run_quiet obs fuel : forall n p,
  (forall m, quiet id (obs m)) ->
  alive p = true ->
  (steps_left p <= fuel)%nat ->
  (run fuel obs n p).1 = Finished
  /\ length (run fuel obs n p).2 = fires_left p.
Proof.
  induction fuel as [|fuel IH]; intros n p Hq Hp Hle.
  - destruct p; simpl in *; unfold head_steps in *; try done; lia.
  - destruct (terminal p) eqn:Ht.
    + rewrite (run_terminal (S fuel) obs n p Ht).
      by destruct p.
    + simpl.
      pose proof (step_decreases p (obs n) Ht) as Hd.
      destruct (step_quiet p (obs n) (Hq n) Hp) as [Ha Hf].
      destruct (step p (obs n)) as [p' out]. simpl in *.
      destruct (IH (S n) p' Hq Ha ltac:(lia)) as [IH1 IH2].
      destruct (run fuel obs (S n) p') as [p'' out']. simpl in *.
      split; [done|]. rewrite length_app. lia.
Qed.

End ReminderFacts.

(** C6.  Whatever the reminder thread observes and however long it runs,
    the reminders it has sent carry the counts 1, 2, ... in this order
    and are at most [max_reminders] = 6; the thread ends within 1514
    steps; and when nothing stops it, it sends exactly six reminders
    and ends by itself.  (The thread only reads the handler: it has no
    assignment to a record, so it forces no status.) *)
Theorem reminders_counted_and_capped (ps : PermissionService) (id : string)
    (obs : nat -> APIHandler) (fuel : nat) :
  map rem_reminder_count (reminder_task ps id fuel obs).2
  = seq 1 (length (reminder_task ps id fuel obs).2)
  /\ (length (reminder_task ps id fuel obs).2 <= max_reminders)%nat
  /\ terminal (reminder_task ps id 1514 obs).1 = true
  /\ ((forall n, quiet id (obs n)) ->
      (reminder_task ps id 1514 obs).1 = Finished
      /\ map rem_reminder_count (reminder_task ps id 1514 obs).2
         = [1; 2; 3; 4; 5; 6]%nat).
Proof.
  unfold reminder_task.
  destruct (run_counts ps id fuel obs 0%nat (FirstWait 0)) as [H1 H2].
  split; [exact H1|]. split; [simpl in H2; lia|].
  split; [apply run_ends; vm_compute; lia|].
  intros Hq.
  destruct (run_quiet ps id obs 1514 0%nat (FirstWait 0) Hq eq_refl)
    as [Hf Hl]; [vm_compute; lia|].
  split; [exact Hf|].
  destruct (run_counts ps id 1514 obs 0%nat (FirstWait 0)) as [H3 _].
  rewrite H3, Hl. reflexivity.
Qed.

Lemma reminders_counted_and_capped_witness :
  (reminder_task Demo.users "a1" 1514 (fun _ => Demo.created)).1 = Finished
  /\ map rem_reminder_count
       (reminder_task Demo.users "a1" 1514 (fun _ => Demo.created)).2
     = [1; 2; 3; 4; 5; 6]%nat.
Proof.
  apply (reminders_counted_and_capped Demo.users "a1"
           (fun _ => Demo.created) 0).
  intros _. split; [vm_compute; reflexivity|].
  exists Demo.store, (Demo.row "a1"). repeat split; vm_compute; reflexivity.
Defined.

(** ** Cancelling the reminders *)

Section Cancellation.

Variable permission_service : PermissionService.
Variable id : string.

Abbreviation Stop := (Stop id).

Lemma stop_spec self : stop_requested id self = true <-> Stop self.
Proof.
  unfold stop_requested, Stop. rewrite orb_true_iff, bool_decide_eq_true.
  destruct (pending_approvals self !! id) as [d|].
  - rewrite orb_true_iff, negb_true_iff, bool_decide_eq_false.
    split; (intros [H|H]; [by left|right]).
    + by exists d.
    + destruct H as (d' & [= <-] & H). done.
  - split; (intros [H|H]; [by left|]); [done|].
    by destruct H as (d' & ? & _).
Qed.

(** What a cancellation for [id'] does to the record of [id]. *)
Lemma cancel_record self id' d :
  pending_approvals self !! id = Some d ->
  exists d',
    pending_approvals (_cancel_reminder_timer self id') !! id = Some d'
    /\ status d' = status d
    /\ (reminder_stopped d = true -> reminder_stopped d' = true).
Proof.
  intros Hd. unfold _cancel_reminder_timer; simpl.
  destruct (pending_approvals self !! id') as [d0|] eqn:Hd0;
    [|by exists d].
  case_bool_decide; [|by exists d].
  destruct (decide (id' = id)) as [->|Hne].
  - rewrite lookup_insert_eq. rewrite Hd in Hd0. injection Hd0 as <-.
    by exists (set_reminder_stopped d).
  - rewrite lookup_insert_ne by done. by exists d.
Qed.

Lemma stop_after_cancel self : Stop (_cancel_reminder_timer self id).
Proof. left. simpl. set_solver. Qed.

Lemma stop_stable_cancel self id' :
  Stop self -> Stop (_cancel_reminder_timer self id').
Proof.
  intros [Hin | (d & Hd & Hc)].
  - left. simpl. set_solver.
  - right. destruct (cancel_record self id' d Hd) as (d' & Hd' & Hs & Hr).
    exists d'. split; [done|]. rewrite Hs. destruct Hc; auto.
Qed.

Lemma stop_stable_processing self g :
  Stop self -> Stop (with_processing self g).
Proof. done. Qed.

Lemma stop_stable_process self id' act uid user cmt now :
  Stop self ->
  Stop (process_approval_internal permission_service self id' act uid user
          cmt now).1.
Proof.
  intros Hs. unfold process_approval_internal.
  case_bool_decide; [done|].
  set (self1 := with_processing self _).
  assert (H2 : Stop (_cancel_reminder_timer self1 id'))
    by (by apply stop_stable_cancel).
  set (self2 := _cancel_reminder_timer self1 id') in *.
  destruct (pending_approvals self2 !! id') as [d|] eqn:Hd; [|done].
  destruct (negb _); [done|]. simpl.
  destruct H2 as [Hin | (d0 & Hd0 & Hc)]; [by left|].
  right. simpl. destruct (decide (id' = id)) as [->|Hne].
  - eexists. rewrite lookup_insert_eq. split; [done|]. by right.
  - exists d0. by rewrite lookup_insert_ne.
Qed.

Lemma stop_stable_timeout self id' now :
  Stop self -> Stop (timeout_handler self id' now).
Proof.
  intros Hs. unfold timeout_handler.
  destruct (pending_approvals self !! id') as [d|] eqn:Hd; [|done].
  case_bool_decide; [|done].
  apply stop_stable_cancel.
  assert (H1 : Stop (with_pending self
                       (<[id' := set_decider (set_status d "timeout")
                                   "system" "system" "审批超时" now]>
                          (pending_approvals self)))).
  { destruct Hs as [Hin | (d0 & Hd0 & Hc)]; [by left|].
    right. simpl. destruct (decide (id' = id)) as [->|Hne].
    - eexists. rewrite lookup_insert_eq. split; [done|]. by left.
    - exists d0. by rewrite lookup_insert_ne. }
  destruct (_approval_events _ !! id'); exact H1.
Qed.

Lemma stop_after_process self act uid user cmt now :
  (process_approval_internal permission_service self id act uid user cmt
     now).2.1 = true ->
  Stop (process_approval_internal permission_service self id act uid user
          cmt now).1.
Proof.
  intros Hok.
  destruct (process_success_inv permission_service self id act uid user
              cmt now Hok) as (Hin & d & Hd & Hs).
  destruct (process_pending permission_service self id d act uid user cmt
              now Hd Hs Hin) as [Hl _].
  right. eexists. split; [exact Hl|]. by right.
Qed.

Lemma stop_after_timeout self d now :
  pending_approvals self !! id = Some d ->
  status d = "pending" ->
  Stop (timeout_handler self id now).
Proof.
  intros Hd Hs. right. eexists.
  split; [by apply timeout_pending|]. by left.
Qed.

Lemma cancel_idempotent self :
  _cancel_reminder_timer (_cancel_reminder_timer self id) id
  = _cancel_reminder_timer self id.
Proof.
  unfold _cancel_reminder_timer; simpl.
  assert (Hp :
    match
      match pending_approvals self !! id with
      | Some d =>
          if bool_decide (status d = "pending")
          then <[id := set_reminder_stopped d]> (pending_approvals self)
          else pending_approvals self
      | None => pending_approvals self
      end !! id
    with
    | Some d =>
        if bool_decide (status d = "pending")
        then <[id := set_reminder_stopped d]>
               match pending_approvals self !! id with
               | Some d0 =>
                   if bool_decide (status d0 = "pending")
                   then <[id := set_reminder_stopped d0]>
                          (pending_approvals self)
                   else pending_approvals self
               | None => pending_approvals self
               end
        else
          match pending_approvals self !! id with
          | Some d0 =>
              if bool_decide (status d0 = "pending")
              then <[id := set_reminder_stopped d0]> (pending_approvals self)
              else pending_approvals self
          | None => pending_approvals self
          end
    | None =>
        match pending_approvals self !! id with
        | Some d0 =>
            if bool_decide (status d0 = "pending")
            then <[id := set_reminder_stopped d0]> (pending_approvals self)
            else pending_approvals self
        | None => pending_approvals self
        end
    end
    = match pending_approvals self !! id with
      | Some d =>
          if bool_decide (status d = "pending")
          then <[id := set_reminder_stopped d]> (pending_approvals self)
          else pending_approvals self
      | None => pending_approvals self
      end).
  { destruct (pending_approvals self !! id) as [d|] eqn:Hd.
    - case_bool_decide as Hs.
      + rewrite lookup_insert_eq. simpl.
        rewrite bool_decide_eq_true_2 by done.
        by rewrite insert_insert_eq.
      + rewrite Hd. by rewrite bool_decide_eq_false_2.
    - by rewrite Hd. }
  rewrite Hp. f_equal.
  - apply set_eq. intros x. rewrite !elem_of_difference. tauto.
  - apply set_eq. intros x. rewrite !elem_of_union. tauto.
Qed.

End Cancellation.

Lemma stop_stable_actions (ps : PermissionService)
    (fromisoformat : string -> option datetime) (strptime : string -> option Z)
    (id : string) (acts : list Action) : forall self,
  Stop id self ->
  Forall (fun a => is_sweep a = false) acts ->
  Stop id (run_actions ps fromisoformat strptime self acts).
Proof.
  induction acts as [|a acts IH]; intros self Hs Hf; [done|].
  inversion Hf as [|? ? Ha Hf']; subst. simpl. apply IH; [|done].
  destruct a as [id' act uid user cmt now|id' now|id'|now now_str]; simpl.
  - by apply stop_stable_process.
  - by apply stop_stable_timeout.
  - by apply stop_stable_cancel.
  - done.
Qed.

(** Stop requests.  A cancellation, a successful submission and a
    deadline that times the record out each leave a stop request for the
    id, and later submissions, deadlines and cancellations (for any id)
    keep it.  A reminder thread that wakes up on a stop request, in
    whatever phase (also in the middle of a wait), ends without a
    reminder and sends none afterwards.  Cancelling again changes
    nothing, and cancelling an id that has no thread reference leaves
    the references as they are. *)
Theorem no_reminder_after_transition (ps : PermissionService)
    (fromisoformat : string -> option datetime) (strptime : string -> option Z)
    (id : string) :
  (forall self, stop_requested id (_cancel_reminder_timer self id) = true)
  /\ (forall self act uid user cmt now,
        (process_approval_internal ps self id act uid user cmt now).2.1 = true ->
        stop_requested id
          (process_approval_internal ps self id act uid user cmt now).1 = true)
  /\ (forall self d now,
        pending_approvals self !! id = Some d ->
        status d = "pending" ->
        stop_requested id (timeout_handler self id now) = true)
  /\ (forall self acts,
        stop_requested id self = true ->
        Forall (fun a => is_sweep a = false) acts ->
        stop_requested id (run_actions ps fromisoformat strptime self acts)
        = true)
  /\ (forall fuel obs n p,
        stop_requested id (obs n) = true ->
        (reminder_run ps id fuel obs n p).2 = []
        /\ terminal (reminder_run ps id (S fuel) obs n p).1 = true)
  /\ (forall self,
        _cancel_reminder_timer (_cancel_reminder_timer self id) id
        = _cancel_reminder_timer self id)
  /\ (forall self,
        id ∉ reminder_timers self ->
        reminder_timers (_cancel_reminder_timer self id)
        = reminder_timers self).
Proof.
  split; [intros; apply stop_spec, stop_after_cancel|].
  split; [intros; by apply stop_spec, stop_after_process|].
  split; [intros; by eapply stop_spec, stop_after_timeout|].
  split.
  { intros self acts Hs Hf. apply stop_spec.
    apply stop_stable_actions; [by apply stop_spec|done]. }
  split.
  { intros fuel obs n p Hs. split; [by apply run_stop|].
    simpl. destruct (step_stop ps id p (obs n) Hs) as [_ Ht].
    destruct (reminder_step ps id p (obs n)) as [p' out]. simpl in Ht.
    by rewrite (run_terminal ps id fuel obs (S n) p' Ht). }
  split; [apply cancel_idempotent|].
  intros self Hin. simpl. apply set_eq. intros x.
  rewrite elem_of_difference, elem_of_singleton.
  split; [tauto|]. intros Hx. split; [done|]. by intros ->.
Qed.

(** The theorem on the demo handler: a thread in the middle of the wait
    after its second reminder wakes up after alice's approval and sends
    nothing. *)
Lemma no_reminder_after_transition_witness :
  (reminder_run Demo.users "a1" 1000 (fun _ => Demo.decided) 7
     (BetweenWait 2 40 (Some (Demo.row "a1")))).2 = [].
Proof.
  refine (proj1 (proj1 (proj2 (proj2 (proj2 (proj2
    (no_reminder_after_transition Demo.users (fun _ => None) (fun _ => None)
       "a1"))))) 1000%nat (fun _ => Demo.decided) 7%nat
       (BetweenWait 2 40 (Some (Demo.row "a1"))) _)).
  refine (proj1 (proj2
    (no_reminder_after_transition Demo.users (fun _ => None) (fun _ => None)
       "a1")) Demo.created "approved" "web_user" "alice" "ok"
       "2024-01-01T10:00:30" _).
  vm_compute. reflexivity.
Defined.

(** A round made with no other thread in between is its checks followed
    by its read and its sending. *)
Lemma loop_head_split (ps : PermissionService) (id : string)
    (self : APIHandler) (count : nat)
    (approval_request : option Db.ApprovalRequest) :
  reminder_step ps id (LoopHead count approval_request) self
  = if negb (bool_decide (count < max_reminders)%nat) then (Finished, [])
    else if round_checks id self
         then round_read_and_send ps id self count approval_request
         else (Stopped, []).
Proof.
  unfold reminder_step, round_checks, round_read_and_send.
  destruct (negb (bool_decide (count < max_reminders)%nat)); [reflexivity|].
  by destruct (stop_requested id self).
Qed.

(** C5 on the failing inputs.  A reminder round begins on a handler
    with no stop request for the id (the record is pending and unmarked,
    the id is not in the stop set), with a durable row that is pending:
    the three checks pass.  While the thread reads the durable row, a
    submission for the id is made and returns success; it has called
    the cancellation, so that the id is in the stop set and the record
    is resolved and marked.  The submission does not write the durable
    row, so the read finds it pending, and the thread sends the next
    reminder: after the transition and after the cancellation.  The
    same happens when only the cancellation is called during the read.
    And a cancellation is no no-op where there is nothing to cancel:
    for an id with no thread reference and no record it changes the
    handler, adding the id to the stop set, and a reminder thread for
    that id that finds this stop set ends at its first wake-up without
    having sent anything. *)
Theorem reminder_follows_transition (ps : PermissionService) (id : string)
    (self : APIHandler) (d : ApprovalData) (db : Db.DatabaseService)
    (r : Db.ApprovalRequest) (act uid user cmt now : string) (count : nat)
    (approval_request : option Db.ApprovalRequest) :
  pending_approvals self !! id = Some d ->
  status d = "pending" ->
  reminder_stopped d = false ->
  id ∉ _stopped_reminders self ->
  id ∉ _processing_approvals self ->
  database_service self = Some db ->
  Db.get_approval db id = Some r ->
  Db.status r = Db.PENDING ->
  (count < max_reminders)%nat ->
  let submitted := process_approval_internal ps self id act uid user cmt now in
  round_checks id self = true
  /\ submitted.2.1 = true
  /\ id ∈ _stopped_reminders submitted.1
  /\ stop_requested id submitted.1 = true
  /\ (exists reminder,
        (round_read_and_send ps id submitted.1 count approval_request).2
        = [reminder]
        /\ rem_approval_id reminder = id
        /\ rem_reminder_count reminder = S count)
  /\ (stop_requested id (_cancel_reminder_timer self id) = true
      /\ exists reminder,
           (round_read_and_send ps id (_cancel_reminder_timer self id) count
              approval_request).2 = [reminder]
           /\ rem_approval_id reminder = id
           /\ rem_reminder_count reminder = S count)
  /\ (forall (idle : APIHandler) (id' : string),
        id' ∉ reminder_timers idle ->
        id' ∉ _stopped_reminders idle ->
        pending_approvals idle !! id' = None ->
        stop_requested id' idle = false
        /\ _cancel_reminder_timer idle id' <> idle
        /\ id' ∈ _stopped_reminders (_cancel_reminder_timer idle id')
        /\ forall fuel obs,
             _stopped_reminders (obs 0%nat)
             = _stopped_reminders (_cancel_reminder_timer idle id') ->
             (reminder_task ps id' fuel obs).2 = []
             /\ (reminder_task ps id' (S fuel) obs).1 = Stopped).
Proof.
  intros Hd Hs Hm Hst Hin Hdb Hr Hrs Hc submitted. subst submitted.
  destruct (process_pending ps self id d act uid user cmt now Hd Hs Hin)
    as [Hl Hok].
  split.
  { unfold round_checks, stop_requested. rewrite Hd, Hm.
    rewrite (bool_decide_eq_false_2 _ Hst).
    by rewrite (bool_decide_eq_true_2 _ Hs). }
  split; [by rewrite Hok|].
  assert (Hstop : id ∈ _stopped_reminders
                    (process_approval_internal ps self id act uid user cmt
                       now).1).
  { unfold process_approval_internal.
    rewrite (bool_decide_eq_false_2 _ Hin). cbv zeta.
    set (s2 := _cancel_reminder_timer _ id).
    assert (H2 : id ∈ _stopped_reminders s2).
    { subst s2. cbn [_cancel_reminder_timer _stopped_reminders].
      apply elem_of_union. right. by apply elem_of_singleton. }
    destruct (pending_approvals s2 !! id) as [d0|];
      [destruct (negb (bool_decide (status d0 = "pending")))|]; exact H2. }
  split; [exact Hstop|]. split.
  { unfold stop_requested. by rewrite (bool_decide_eq_true_2 _ Hstop). }
  split.
  { unfold round_read_and_send.
    rewrite (process_keeps_database ps self id act uid user cmt now).
    rewrite Hdb, Hr, (bool_decide_eq_true_2 _ Hrs).
    unfold fire. eexists. by repeat split. }
  split.
  { split.
    - unfold stop_requested.
      rewrite bool_decide_eq_true_2; [reflexivity|].
      cbn [_cancel_reminder_timer _stopped_reminders].
      apply elem_of_union. right. by apply elem_of_singleton.
    - unfold round_read_and_send.
      change (database_service (_cancel_reminder_timer self id))
        with (database_service self).
      rewrite Hdb, Hr, (bool_decide_eq_true_2 _ Hrs).
      unfold fire. eexists. by repeat split. }
  intros idle id' Ht Hs' Hp. split.
  { unfold stop_requested. rewrite Hp.
    by rewrite (bool_decide_eq_false_2 _ Hs'). }
  assert (Hnew : id' ∈ _stopped_reminders (_cancel_reminder_timer idle id')).
  { cbn [_cancel_reminder_timer _stopped_reminders].
    apply elem_of_union. right. by apply elem_of_singleton. }
  split.
  { intros Heq. rewrite Heq in Hnew. done. }
  split; [exact Hnew|].
  intros fuel obs Hobs.
  assert (Hsr : stop_requested id' (obs 0%nat) = true).
  { unfold stop_requested. rewrite bool_decide_eq_true_2; [reflexivity|].
    by rewrite Hobs. }
  split.
  - unfold reminder_task. by apply run_stop.
  - unfold reminder_task. cbn [reminder_run reminder_step]. rewrite Hsr.
    by rewrite (run_terminal ps id' fuel obs 1 Stopped).
Qed.

(** The theorem on the demo handler: the round that would send the third
    reminder makes its checks on the fresh record, alice approves during
    the read, and the third reminder is sent on the decided handler. *)
Lemma reminder_follows_transition_witness :
  round_checks "a1" Demo.created = true
  /\ stop_requested "a1" Demo.decided = true
  /\ exists reminder,
       (round_read_and_send Demo.users "a1" Demo.decided 2
          (Some (Demo.row "a1"))).2 = [reminder]
       /\ rem_approval_id reminder = "a1"
       /\ rem_reminder_count reminder = 3%nat.
Proof.
  destruct (reminder_follows_transition Demo.users "a1" Demo.created
              (Demo.fresh "a1") Demo.store (Demo.row "a1") "approved"
              "web_user" "alice" "ok" "2024-01-01T10:00:30" 2
              (Some (Demo.row "a1")))
    as (H1 & _ & _ & H4 & H5 & _ & _).
  - reflexivity.
  - reflexivity.
  - reflexivity.
  - vm_compute. discriminate.
  - vm_compute. discriminate.
  - reflexivity.
  - vm_compute. reflexivity.
  - reflexivity.
  - unfold max_reminders. lia.
  - split; [exact H1|]. split; [exact H4|]. exact H5.
Defined.

(** ** The periodic sweep *)

Section SweepFacts.

Variable fromisoformat : string -> option datetime.
Variable strptime : string -> option Z.

Lemma elem_of_expired_ids now (m : gmap string ApprovalData) id :
  id ∈ expired_ids fromisoformat now m
  <-> exists d, m !! id = Some d /\ expired fromisoformat now d = true.
Proof.
  unfold expired_ids. rewrite list_elem_of_fmap. split.
  - intros ([k d] & -> & Hin). apply list_elem_of_filter in Hin as [He Hin].
    apply elem_of_map_to_list in Hin. exists d. split; [done|].
    simpl in He. by destruct (expired _ _ _).
  - intros (d & Hd & He). exists (id, d). split; [done|].
    apply list_elem_of_filter. split; [simpl; by rewrite He|].
    by apply elem_of_map_to_list.
Qed.

(** The sweep keeps every record it does not find expired, with its
    event. *)
Lemma sweep_keeps self now now_str id d :
  pending_approvals self !! id = Some d ->
  expired fromisoformat now d = false ->
  pending_approvals (cleanup_task fromisoformat strptime self now now_str)
    !! id = Some d
  /\ _approval_events (cleanup_task fromisoformat strptime self now now_str)
       !! id = _approval_events self !! id.
Proof.
  intros Hd He. simpl.
  assert (Hn : id ∉ expired_ids fromisoformat now (pending_approvals self)).
  { rewrite elem_of_expired_ids. intros (d' & Hd' & He').
    rewrite Hd in Hd'. injection Hd' as <-. congruence. }
  split.
  - by rewrite lookup_foldr_delete_not_elem_of.
  - by rewrite lookup_foldr_delete_not_elem_of.
Qed.

(** The sweep removes every record it finds expired, and its event. *)
Lemma sweep_evicts self now now_str id d :
  pending_approvals self !! id = Some d ->
  expired fromisoformat now d = true ->
  pending_approvals (cleanup_task fromisoformat strptime self now now_str)
    !! id = None
  /\ _approval_events (cleanup_task fromisoformat strptime self now now_str)
       !! id = None.
Proof.
  intros Hd He. simpl.
  assert (Hn : id ∈ expired_ids fromisoformat now (pending_approvals self)).
  { rewrite elem_of_expired_ids. by exists d. }
  split; by apply lookup_foldr_delete.
Qed.

End SweepFacts.

(** C9.  A record without a creation time, with an empty one, with one
    that [fromisoformat] refuses, or with one whose age cannot be taken
    (an instant with an offset, which Python does not subtract from the
    naive clock) survives every round of the sweep, together with its
    event.  A record whose creation time is read as a naive instant more
    than 7200 seconds before the clock is removed from the registry, and
    so is its event. *)
Theorem sweep_never_evicts_unparsed
    (fromisoformat : string -> option datetime) (strptime : string -> option Z)
    (self : APIHandler) (now : Z) (now_str id : string) (d : ApprovalData) :
  pending_approvals self !! id = Some d ->
  ((created_at d = None
    \/ created_at d = Some ""
    \/ exists s, created_at d = Some s
                 /\ (fromisoformat (normalize_Z s) = None
                     \/ exists t, fromisoformat (normalize_Z s) = Some t
                                  /\ aware t = true)) ->
   pending_approvals (cleanup_task fromisoformat strptime self now now_str)
     !! id = Some d
   /\ _approval_events (cleanup_task fromisoformat strptime self now now_str)
        !! id = _approval_events self !! id)
  /\ (forall s t,
        created_at d = Some s -> s <> "" ->
        fromisoformat (normalize_Z s) = Some t ->
        aware t = false ->
        7200 * 1000000 < now - micros t ->
        pending_approvals (cleanup_task fromisoformat strptime self now now_str)
          !! id = None
        /\ _approval_events
             (cleanup_task fromisoformat strptime self now now_str) !! id
           = None).
Proof.
  intros Hd. split.
  - intros Hc. apply sweep_keeps; [done|].
    unfold expired, age_of.
    destruct Hc as [-> | [-> | (s & -> & [Hs | (t & Hs & Ha)])]];
      [done|done| |].
    + case_bool_decide; [done|]. by rewrite Hs.
    + case_bool_decide; [done|]. by rewrite Hs, Ha.
  - intros s t Hs Hne Ht Ha Hage. apply (sweep_evicts _ _ _ _ _ _ d); [done|].
    unfold expired, age_of. rewrite Hs.
    rewrite bool_decide_eq_false_2 by done. rewrite Ht, Ha.
    by apply bool_decide_eq_true_2.
Qed.

(** The theorem on a handler with a garbled record and an old one, three
    hours after the origin of the demo clock. *)
Lemma sweep_never_evicts_unparsed_witness :
  pending_approvals
    (cleanup_task Demo.clock (fun _ => None) Demo.two_records 10800000000
       "2024-01-01 13:00:00") !! "g1" = Some (Demo.garbled "g1")
  /\ pending_approvals
       (cleanup_task Demo.clock (fun _ => None) Demo.two_records 10800000000
          "2024-01-01 13:00:00") !! "a1" = None.
Proof.
  split.
  - refine (proj1 (proj1
      (sweep_never_evicts_unparsed Demo.clock (fun _ => None) Demo.two_records
         10800000000 "2024-01-01 13:00:00" "g1" (Demo.garbled "g1") _) _)).
    + vm_compute. reflexivity.
    + right. right. exists "yesterday".
      split; [reflexivity|]. left. vm_compute. reflexivity.
  - refine (proj1 (proj2
      (sweep_never_evicts_unparsed Demo.clock (fun _ => None) Demo.two_records
         10800000000 "2024-01-01 13:00:00" "a1" (Demo.fresh "a1") _)
      "2024-01-01T10:00:00" {| micros := 0; aware := false |} _ _ _ _ _)).
    + vm_compute. reflexivity.
    + reflexivity.
    + discriminate.
    + vm_compute. reflexivity.
    + reflexivity.
    + reflexivity.
Defined.

(** ** The web endpoints *)

Section WebFacts.

Variable permission_service : PermissionService.

Abbreviation approve := (approve_request permission_service).
Abbreviation reject := (reject_request permission_service).
Abbreviation username := (web_approver_username permission_service).

(** On a pending record with no submission in flight the approval goes
    through for whatever approver the request names. *)
Lemma approve_pending self id d approver_arg comment_arg now now_str :
  pending_approvals self !! id = Some d ->
  status d = "pending" ->
  id ∉ _processing_approvals self ->
  http_status (approve self id approver_arg comment_arg now now_str).2 = 200
  /\ result (approve self id approver_arg comment_arg now now_str).2
     = "approved"
  /\ (status <$>
        pending_approvals
          (approve self id approver_arg comment_arg now now_str).1 !! id)
     = Some "approved"
  /\ (approver <$>
        pending_approvals
          (approve self id approver_arg comment_arg now now_str).1 !! id)
     = Some (Some (username self id approver_arg)).
Proof.
  intros Hd Hs Hin. unfold approve_request.
  destruct (process_pending permission_service self id d "approved"
              "web_user" (username self id approver_arg)
              (default "Web界面审批" comment_arg) now Hd Hs Hin) as [Hl Hr].
  destruct (process_approval_internal _ _ _ _ _ _ _ _) as [self' [ok msg]].
  simpl in Hl, Hr. injection Hr as -> ->. simpl.
  rewrite Hl. done.
Qed.

Lemma reject_pending self id d approver_arg comment_arg now now_str :
  pending_approvals self !! id = Some d ->
  status d = "pending" ->
  id ∉ _processing_approvals self ->
  http_status (reject self id approver_arg comment_arg now now_str).2 = 200
  /\ result (reject self id approver_arg comment_arg now now_str).2
     = "rejected"
  /\ (status <$>
        pending_approvals
          (reject self id approver_arg comment_arg now now_str).1 !! id)
     = Some "rejected"
  /\ (approver <$>
        pending_approvals
          (reject self id approver_arg comment_arg now now_str).1 !! id)
     = Some (Some (username self id approver_arg)).
Proof.
  intros Hd Hs Hin. unfold reject_request.
  destruct (process_pending permission_service self id d "rejected"
              "web_user" (username self id approver_arg)
              (default "Web界面拒绝" comment_arg) now Hd Hs Hin) as [Hl Hr].
  destruct (process_approval_internal _ _ _ _ _ _ _ _) as [self' [ok msg]].
  simpl in Hl, Hr. injection Hr as -> ->. simpl.
  rewrite Hl. done.
Qed.

Lemma username_given self id a :
  a <> "" -> username self id (Some a) = a.
Proof.
  intros Ha. unfold web_approver_username.
  by rewrite bool_decide_eq_false_2.
Qed.

Lemma username_absent self id d :
  pending_approvals self !! id = Some d ->
  username self id None
  = match get_project_owners permission_service (project d) with
    | o :: _ => o
    | [] => "admin"
    end
  /\ username self id (Some "") = username self id None.
Proof. intros Hd. unfold web_approver_username. by rewrite Hd. Qed.

Lemma username_unknown self id :
  pending_approvals self !! id = None ->
  username self id None = "admin" /\ username self id (Some "") = "admin".
Proof. intros Hd. unfold web_approver_username. by rewrite Hd. Qed.

End WebFacts.

(** C10.  On a pending approval with no submission in flight,
    [/api/approve/<id>] and [/api/reject/<id>] apply the decision for any
    approver name the caller supplies, known to the permission service or
    not: two requests that differ only in that name get the same HTTP
    status and result and leave the same status in the record.  Without
    an approver (absent or empty) the decision is recorded under the
    first owner of the record's project, or under ['admin'] when the
    project has no owner; for an id that is not in the registry the name
    falls back to ['admin']. *)
Theorem web_decision_ignores_caller (ps : PermissionService)
    (self : APIHandler) (id : string) (d : ApprovalData)
    (comment_arg : option string) (now now_str : string) :
  pending_approvals self !! id = Some d ->
  status d = "pending" ->
  id ∉ _processing_approvals self ->
  (forall a1 a2, a1 <> "" -> a2 <> "" ->
     web_outcome id (approve_request ps self id (Some a1) comment_arg now now_str)
     = (200, "approved", Some "approved")
     /\ web_outcome id
          (approve_request ps self id (Some a1) comment_arg now now_str)
        = web_outcome id
            (approve_request ps self id (Some a2) comment_arg now now_str)
     /\ web_outcome id
          (reject_request ps self id (Some a1) comment_arg now now_str)
        = (200, "rejected", Some "rejected")
     /\ web_outcome id
          (reject_request ps self id (Some a1) comment_arg now now_str)
        = web_outcome id
            (reject_request ps self id (Some a2) comment_arg now now_str)
     /\ (approver <$>
           pending_approvals
             (approve_request ps self id (Some a1) comment_arg now now_str).1
             !! id) = Some (Some a1)
     /\ (approver <$>
           pending_approvals
             (reject_request ps self id (Some a1) comment_arg now now_str).1
             !! id) = Some (Some a1))
  /\ (forall approver_arg,
        approver_arg = None \/ approver_arg = Some "" ->
        let owner :=
          match get_project_owners ps (project d) with
          | o :: _ => o
          | [] => "admin"
          end in
        (approver <$>
           pending_approvals
             (approve_request ps self id approver_arg comment_arg now now_str).1
             !! id) = Some (Some owner)
        /\ (approver <$>
              pending_approvals
                (reject_request ps self id approver_arg comment_arg now
                   now_str).1 !! id) = Some (Some owner))
  /\ (forall other id',
        pending_approvals other !! id' = None ->
        web_approver_username ps other id' None = "admin").
Proof.
  intros Hd Hs Hin. split; [|split].
  - intros a1 a2 H1 H2. unfold web_outcome.
    destruct (approve_pending ps self id d (Some a1) comment_arg now now_str
                Hd Hs Hin) as (A1 & A2 & A3 & A4).
    destruct (approve_pending ps self id d (Some a2) comment_arg now now_str
                Hd Hs Hin) as (B1 & B2 & B3 & _).
    destruct (reject_pending ps self id d (Some a1) comment_arg now now_str
                Hd Hs Hin) as (C1 & C2 & C3 & C4).
    destruct (reject_pending ps self id d (Some a2) comment_arg now now_str
                Hd Hs Hin) as (D1 & D2 & D3 & _).
    rewrite A1, A2, A3, B1, B2, B3, C1, C2, C3, D1, D2, D3, A4, C4.
    rewrite (username_given ps self id a1 H1). done.
  - intros approver_arg Harg owner.
    destruct (approve_pending ps self id d approver_arg comment_arg now
                now_str Hd Hs Hin) as (_ & _ & _ & A4).
    destruct (reject_pending ps self id d approver_arg comment_arg now
                now_str Hd Hs Hin) as (_ & _ & _ & C4).
    rewrite A4, C4.
    destruct (username_absent ps self id d Hd) as [U1 U2].
    destruct Harg as [-> | ->]; by rewrite ?U2, U1.
  - intros other id' Hn. by apply username_unknown.
Qed.

Lemma web_decision_ignores_caller_witness :
  web_outcome "a1"
    (approve_request Demo.users Demo.created "a1" (Some "mallory") None
       "2024-01-01T10:00:30" "2024-01-01 10:00:30")
  = (200, "approved", Some "approved")
  /\ (approver <$>
        pending_approvals
          (reject_request Demo.users Demo.created "a1" None None
             "2024-01-01T10:00:30" "2024-01-01 10:00:30").1 !! "a1")
     = Some (Some "alice").
Proof.
  pose proof (web_decision_ignores_caller Demo.users Demo.created "a1"
                (Demo.fresh "a1") None "2024-01-01T10:00:30"
                "2024-01-01 10:00:30" eq_refl eq_refl) as H.
  destruct H as (H1 & H2 & _).
  - vm_compute. discriminate.
  - split.
    + refine (proj1 (H1 "mallory" "alice" _ _)); discriminate.
    + exact (proj2 (H2 None (or_introl eq_refl))).
Defined.

(** ** The blocking wait *)

Section WaitFacts.

Variable permission_service : PermissionService.
Variable fromisoformat : string -> option datetime.
Variable strptime : string -> option Z.

Lemma evolves_refl self : evolves self self.
Proof. by repeat split. Qed.

Lemma evolves_trans s1 s2 s3 : evolves s1 s2 -> evolves s2 s3 -> evolves s1 s3.
Proof.
  intros (A1 & A2 & A3) (B1 & B2 & B3). repeat split; [| |tauto].
  - intros k H. by apply A1, B1.
  - intros k H He. apply B2; [done|]. apply A2; [|done]. by apply B1.
Qed.

Lemma cancel_dom self id' k :
  is_Some (pending_approvals (_cancel_reminder_timer self id') !! k)
  <-> is_Some (pending_approvals self !! k).
Proof.
  unfold _cancel_reminder_timer; simpl.
  destruct (pending_approvals self !! id') as [d|] eqn:Hd; [|done].
  case_bool_decide; [|done].
  destruct (decide (id' = k)) as [->|Hne].
  - rewrite lookup_insert_eq, Hd. by split.
  - by rewrite lookup_insert_ne.
Qed.

Lemma evolves_cancel self id' : evolves self (_cancel_reminder_timer self id').
Proof.
  repeat split; [|done|done]. intros k. by rewrite cancel_dom.
Qed.

Lemma insert_dom (m : gmap string ApprovalData) id' d d' k :
  m !! id' = Some d ->
  is_Some (<[id' := d']> m !! k) -> is_Some (m !! k).
Proof.
  intros Hd. destruct (decide (id' = k)) as [->|Hne].
  - by rewrite Hd.
  - by rewrite lookup_insert_ne.
Qed.

Lemma insert_keeps (m : gmap string bool) id' b k :
  is_Some (m !! k) -> is_Some (<[id' := b]> m !! k).
Proof.
  intros H. destruct (decide (id' = k)) as [->|Hne].
  - by rewrite lookup_insert_eq.
  - by rewrite lookup_insert_ne.
Qed.

Lemma evolves_process self id' act uid user cmt now :
  evolves self
    (process_approval_internal permission_service self id' act uid user cmt
       now).1.
Proof.
  unfold process_approval_internal.
  case_bool_decide; [apply evolves_refl|].
  set (self1 := with_processing self _).
  pose proof (evolves_cancel self1 id') as Hc.
  set (self2 := _cancel_reminder_timer self1 id') in *.
  assert (H12 : evolves self self2) by exact Hc.
  destruct (pending_approvals self2 !! id') as [d|] eqn:Hd; [|exact H12].
  destruct (negb _); [exact H12|].
  destruct H12 as (A1 & A2 & A3). repeat split; [| |done].
  - intros k Hk. apply A1. eapply insert_dom; [exact Hd|exact Hk].
  - intros k Hk He. apply insert_keeps, A2; [|done].
    eapply insert_dom; [exact Hd|exact Hk].
Qed.

Lemma evolves_timeout self id' now :
  evolves self (timeout_handler self id' now).
Proof.
  unfold timeout_handler.
  destruct (pending_approvals self !! id') as [d|] eqn:Hd;
    [|apply evolves_refl].
  case_bool_decide; [|apply evolves_refl].
  eapply evolves_trans; [|apply evolves_cancel].
  destruct (_approval_events _ !! id') eqn:He; repeat split; try done;
    simpl.
  - intros k Hk. by eapply insert_dom.
  - intros k Hk Hev. by apply insert_keeps.
  - intros k Hk. by eapply insert_dom.
Qed.

Lemma evolves_sweep self now now_str :
  evolves self (cleanup_task fromisoformat strptime self now now_str).
Proof.
  repeat split; simpl.
  - intros k [d Hk]. apply lookup_foldr_delete_Some in Hk as [_ Hk]. eauto.
  - intros k [d Hk] He. apply lookup_foldr_delete_Some in Hk as [Hn _].
    by rewrite lookup_foldr_delete_not_elem_of.
  - intros [db ->]. by eexists.
Qed.

Lemma evolves_action self a :
  evolves self (run_action permission_service fromisoformat strptime self a).
Proof.
  destruct a; simpl.
  - apply evolves_process.
  - apply evolves_timeout.
  - apply evolves_cancel.
  - apply evolves_sweep.
Qed.

Lemma evolves_actions acts : forall self,
  evolves self (run_actions permission_service fromisoformat strptime self acts).
Proof.
  induction acts as [|a acts IH]; intros self; [apply evolves_refl|].
  simpl. eapply evolves_trans; [apply evolves_action|apply IH].
Qed.

Variable sched : nat -> list Action.
Variable id : string.

Abbreviation suspend :=
  (suspend permission_service fromisoformat strptime sched).
Abbreviation round :=
  (wait_round permission_service fromisoformat strptime sched id).
Abbreviation loop :=
  (fun remaining =>
     wait_loop permission_service fromisoformat strptime sched remaining id).

Lemma evolves_suspend self tick : evolves self (suspend self tick).
Proof. apply evolves_actions. Qed.

Lemma evolves_clear self : evolves self (clear_event self id).
Proof.
  repeat split; try done. intros k _ He. by apply insert_keeps.
Qed.

Lemma has_event_evolves self self' :
  has_event id self -> evolves self self' -> has_event id self'.
Proof. intros J (A1 & A2 & _) H. apply A2; [done|]. by apply J, A1. Qed.

Lemma slack_evolves self self' :
  evolves self self' -> (slack id self' <= slack id self)%nat.
Proof.
  intros (A1 & _ & _). unfold slack.
  destruct (pending_approvals self' !! id) eqn:H'; [|lia].
  destruct (A1 id) as [d ->]; [by rewrite H'|]. lia.
Qed.

Lemma slack_le_1 self : (slack id self <= 1)%nat.
Proof. unfold slack. destruct (_ !! id); lia. Qed.

(** One round suspends the waiter at most once, or twice when the record
    was swept away during the first suspension. *)
Lemma round_spec self blocked tick :
  has_event id self ->
  evolves self (round self (status <$> pending_approvals self !! id)
                  blocked tick).1.1
  /\ ((round self (status <$> pending_approvals self !! id)
         blocked tick).1.2
      + slack id (round self (status <$> pending_approvals self !! id)
                    blocked tick).1.1
      <= blocked + 1 + slack id self)%nat.
Proof.
  intros J. unfold wait_round.
  destruct (pending_approvals self !! id) as [d|] eqn:Hd; simpl.
  - (* the record is there, hence its event *)
    destruct (J ltac:(by rewrite Hd)) as [b Hev]. rewrite Hev.
    assert (Hsl : slack id self = 1%nat) by (unfold slack; by rewrite Hd).
    destruct b.
    + (* the event is set: cleared, no suspension *)
      simpl. rewrite lookup_insert_eq. simpl.
      split; [apply evolves_clear|].
      pose proof (slack_evolves self (clear_event self id)
                    (evolves_clear self)). lia.
    + set (s := suspend self tick).
      assert (Hs : evolves self s) by apply evolves_suspend.
      set (self1 := match _approval_events s !! id with
                    | Some true => clear_event s id
                    | _ => s
                    end).
      assert (H1 : evolves self self1).
      { unfold self1. destruct (_approval_events s !! id) as [[|]|];
          [|done|done]. eapply evolves_trans; [done|apply evolves_clear]. }
      assert (J1 : has_event id self1) by (by eapply has_event_evolves).
      destruct (bool_decide (_approval_events self1 !! id = None)
                && bool_decide (Some (status d) = Some "pending")) eqn:Hc;
        simpl.
      * apply andb_true_iff in Hc as [Hn _].
        apply bool_decide_eq_true in Hn.
        assert (Habs : pending_approvals self1 !! id = None).
        { destruct (pending_approvals self1 !! id) eqn:Hp; [|done].
          destruct (J1 ltac:(by rewrite Hp)) as [? Hx]. congruence. }
        assert (H2 : evolves self1 (suspend self1 (S tick)))
          by apply evolves_suspend.
        split; [by eapply evolves_trans|].
        pose proof (slack_evolves _ _ H2) as Hle.
        unfold slack in Hle at 2. rewrite Habs in Hle. lia.
      * split; [done|]. pose proof (slack_le_1 self1). lia.
  - (* no record: one suspension at most, and no second sleep *)
    assert (Hsl : slack id self = 0%nat) by (unfold slack; by rewrite Hd).
    destruct (_approval_events self !! id) as [[|]|] eqn:Hev.
    + rewrite andb_false_r. simpl. split; [apply evolves_clear|].
      pose proof (slack_evolves _ _ (evolves_clear self)). lia.
    + rewrite andb_false_r. simpl.
      set (s := suspend self tick).
      assert (Hs : evolves self s) by apply evolves_suspend.
      destruct (_approval_events s !! id) as [[|]|]; split; try done.
      * eapply evolves_trans; [done|apply evolves_clear].
      * pose proof (slack_evolves _ _
                      (evolves_trans _ _ _ Hs (evolves_clear s))). lia.
      * pose proof (slack_evolves _ _ Hs). lia.
      * pose proof (slack_evolves _ _ Hs). lia.
    + rewrite andb_false_r. simpl.
      split; [apply evolves_suspend|].
      pose proof (slack_evolves _ _ (evolves_suspend self tick)). lia.
Qed.

(** The loop: it ends, with at most one suspension per round and one
    more; an answer from the loop carries the status found in the
    record, which is neither pending nor empty. *)
Lemma loop_spec remaining : forall self waited blocked tick,
  has_event id self ->
  is_Some (database_service self) ->
  match loop remaining self waited blocked tick with
  | Answered self' r b =>
      (b <= blocked + remaining + slack id self)%nat
      /\ exists st a ro c w,
           r = FromMemory st a ro c w
           /\ st <> "pending" /\ st <> ""
           /\ waited <= w < waited + Z.of_nat remaining
           /\ (status <$> pending_approvals self' !! id) = Some st
  | Elapsed self' w b _ =>
      (b <= blocked + remaining + slack id self)%nat
      /\ w = waited + Z.of_nat remaining
      /\ is_Some (database_service self')
  end.
Proof.
  induction remaining as [|k IH]; intros self waited blocked tick J Hdb.
  - simpl. split; [lia|]. split; [lia|done].
  - simpl.
    pose proof (round_spec self blocked tick J) as Hr.
    destruct (pending_approvals self !! id) as [d|] eqn:Hd.
    + destruct (resolved d) eqn:Hres.
      * split; [lia|].
        unfold resolved in Hres.
        apply andb_true_iff in Hres as [H1 H2].
        apply negb_true_iff, bool_decide_eq_false in H1.
        apply negb_true_iff, bool_decide_eq_false in H2.
        eexists _, _, _, _, _. split; [reflexivity|].
        split; [done|]. split; [done|]. split; [lia|].
        by rewrite (cancel_keeps_resolved self id d Hd H2), Hd.
      * simpl in Hr.
        destruct (round self (Some (status d)) blocked tick)
          as [[self' blocked'] tick'].
        simpl in Hr. destruct Hr as [He Hb].
        assert (J' : has_event id self') by (by eapply has_event_evolves).
        assert (Hdb' : is_Some (database_service self'))
          by (by apply He).
        specialize (IH self' (waited + 1) blocked' tick' J' Hdb').
        assert (Hsl : slack id self = 1%nat)
          by (unfold slack; by rewrite Hd).
        destruct (loop k self' (waited + 1) blocked' tick')
          as [s r b|s w b t].
        -- destruct IH as (Hle & st & a & ro & c & w & -> & ? & ? & ? & ?).
           split; [lia|]. eexists _, _, _, _, _.
           split; [reflexivity|]. repeat split; try done; lia.
        -- destruct IH as (Hle & -> & ?). split; [lia|]. split; [lia|done].
    + simpl in Hr.
      destruct (round self None blocked tick) as [[self' blocked'] tick'].
      simpl in Hr. destruct Hr as [He Hb].
      assert (J' : has_event id self') by (by eapply has_event_evolves).
      assert (Hdb' : is_Some (database_service self')) by (by apply He).
      specialize (IH self' (waited + 1) blocked' tick' J' Hdb').
      destruct (loop k self' (waited + 1) blocked' tick')
        as [s r b|s w b t].
      * destruct IH as (Hle & st & a & ro & c & w & -> & ? & ? & ? & ?).
        split; [lia|]. eexists _, _, _, _, _.
        split; [reflexivity|]. repeat split; try done; lia.
      * destruct IH as (Hle & -> & ?). split; [lia|]. split; [lia|done].
Qed.

(** With a database service the code after the loop answers with the
    decision of the durable row or with a timeout. *)
Lemma epilogue_kind self waited now_str :
  is_Some (database_service self) ->
  match (wait_epilogue self id waited now_str).2 with
  | TimedOut w => w = waited
  | LastMoment st _ _ _ w => st <> "pending" /\ w = waited
  | _ => False
  end.
Proof.
  intros [db Hdb]. unfold wait_epilogue.
  change (database_service (_cancel_reminder_timer self id))
    with (database_service self).
  rewrite Hdb. destruct (Db.get_approval db id) as [r|]; [|done].
  unfold Db.PENDING. case_bool_decide; done.
Qed.

(** The waiting part of [approval_wait], from a handler that has the
    event of the record. *)
Lemma wait_for_decision_spec self max_wait_seconds now_str :
  has_event id self ->
  is_Some (database_service self) ->
  let out := wait_for_decision permission_service fromisoformat strptime
               sched self id max_wait_seconds now_str in
  (out.2 <= Z.to_nat max_wait_seconds + 1)%nat
  /\ match out.1.2 with
     | FromMemory st _ _ _ w =>
         st <> "pending" /\ st <> ""
         /\ 0 <= w < Z.max 0 max_wait_seconds
         /\ (status <$> pending_approvals out.1.1 !! id) = Some st
     | LastMoment st _ _ _ w =>
         st <> "pending" /\ w = Z.max 0 max_wait_seconds
     | TimedOut w => w = Z.max 0 max_wait_seconds
     | ErrorResponse _ _ => False
     end.
Proof.
  intros J Hdb. unfold wait_for_decision.
  pose proof (loop_spec (Z.to_nat max_wait_seconds) self 0 0%nat 0%nat
                J Hdb) as H.
  pose proof (slack_le_1 self) as Hs.
  destruct (loop (Z.to_nat max_wait_seconds) self 0 0%nat 0%nat)
    as [s r b|s w b t].
  - destruct H as (Hle & st & a & ro & c & w & -> & ? & ? & ? & ?).
    simpl. split; [lia|]. repeat split; try done; lia.
  - destruct H as (Hle & -> & Hdb').
    pose proof (epilogue_kind s (0 + Z.of_nat (Z.to_nat max_wait_seconds))
                  now_str Hdb') as Hk.
    destruct (wait_epilogue s id _ now_str) as [s' r]. simpl in *.
    split; [lia|].
    destruct r; try done.
    + destruct Hk as [? ->]. split; [done|lia].
    + subst. lia.
Qed.

End WaitFacts.

(** The bound of the wait.  Whatever the other threads do and whether or
    not a decision ever arrives, [approval_wait] returns: its loop runs
    [max_wait_seconds] rounds at most, and the calls that suspend it for
    up to one [check_interval] number at most [max_wait_seconds + 1].
    The answer is a refusal made before any waiting, a decision found in
    the record at the head of a round, the decision of the durable row
    read at the end, or a timeout. *)
Theorem wait_returns_within_bound (ps : PermissionService)
    (fromisoformat : string -> option datetime) (strptime : string -> option Z)
    (sched : nat -> list Action) (self : APIHandler)
    (prj e b v j dsc act : string) (timeout : option Z)
    (timestamp now expires now_str : string) :
  let max_wait_seconds := default (approval_timeout_minutes ps) timeout * 60 in
  let id := "approval-" +:+ prj +:+ "-" +:+ e +:+ "-" +:+ b +:+ "-"
            +:+ timestamp in
  let out := approval_wait ps fromisoformat strptime sched self prj e b v j
               dsc act timeout timestamp now expires now_str in
  (out.2 <= Z.to_nat max_wait_seconds + 1)%nat
  /\ match out.1.2 with
     | FromMemory st _ _ _ w =>
         st <> "pending" /\ st <> ""
         /\ 0 <= w < Z.max 0 max_wait_seconds
         /\ (status <$> pending_approvals out.1.1 !! id) = Some st
     | LastMoment st _ _ _ w =>
         st <> "pending" /\ w = Z.max 0 max_wait_seconds
     | TimedOut w => w = Z.max 0 max_wait_seconds
     | ErrorResponse _ _ => out.2 = 0%nat
     end.
Proof.
  intros max_wait_seconds id out. subst out. unfold approval_wait.
  fold id. fold max_wait_seconds.
  destruct (get_project_owners ps prj) as [|o owners]; [simpl; split; [lia|done]|].
  destruct (database_service self) as [db|]; [|simpl; split; [lia|done]].
  destruct (Db.create_approval db _ now_str) as [db' created].
  destruct created; simpl negb; cbv iota; [|simpl; split; [lia|done]].
  set (registered := Build_APIHandler _ _ _ _ _ _).
  pose proof (wait_for_decision_spec ps fromisoformat strptime sched id
                registered max_wait_seconds now_str) as H.
  simpl in H.
  destruct (wait_for_decision ps fromisoformat strptime sched registered id
              max_wait_seconds now_str) as [[s r] n].
  simpl in *.
  destruct H as [H1 H2].
  - intros _. unfold registered; simpl. rewrite lookup_insert_eq. by eexists.
  - by eexists.
  - split; [done|]. by destruct r.
Qed.

(** Two runs on the demo data, with a timeout of one minute.  Nobody
    decides: sixty rounds, sixty suspensions, a timeout. *)
Example wait_nobody_decides :
  (approval_wait Demo.users Demo.clock (fun _ => None) (fun _ => [])
     Demo.idle "shop" "prod" "7" "1.0" "deploy" "release" "deploy" (Some 1)
     "1700000000" "2024-01-01T10:00:00" "2024-01-01T10:01:00"
     "2024-01-01 10:01:00").1.2 = TimedOut 60
  /\ (approval_wait Demo.users Demo.clock (fun _ => None) (fun _ => [])
        Demo.idle "shop" "prod" "7" "1.0" "deploy" "release" "deploy" (Some 1)
        "1700000000" "2024-01-01T10:00:00" "2024-01-01T10:01:00"
        "2024-01-01 10:01:00").2 = 60%nat.
Proof. vm_compute. split; reflexivity. Qed.

(** Alice approves during the thirty-first suspension: the answer comes
    in the next round. *)
Example wait_alice_approves :
  let sched n :=
    if bool_decide (n = 30%nat)
    then [Submit "approval-shop-prod-7-1700000000" "approved" "web_user"
            "alice" "ok" "2024-01-01T10:00:30"]
    else [] in
  (approval_wait Demo.users Demo.clock (fun _ => None) sched
     Demo.idle "shop" "prod" "7" "1.0" "deploy" "release" "deploy" (Some 1)
     "1700000000" "2024-01-01T10:00:00" "2024-01-01T10:01:00"
     "2024-01-01 10:01:00").1.2 = FromMemory "approved" "alice" "ops" "ok" 31
  /\ (approval_wait Demo.users Demo.clock (fun _ => None) sched
        Demo.idle "shop" "prod" "7" "1.0" "deploy" "release" "deploy" (Some 1)
        "1700000000" "2024-01-01T10:00:00" "2024-01-01T10:01:00"
        "2024-01-01 10:01:00").2 = 31%nat.
Proof. vm_compute. split; reflexivity. Qed.


(** C2 on the failing inputs.  The record is pending, its event is not
    set, and the durable row is pending and not locked by "system" (as
    [approval_wait] leaves them); one round of the wait is left, and
    during its suspension a submission approves the record and returns
    success.  The waiter then answers with a timeout, and the approved
    record has its status overwritten while it keeps its approver. *)
Theorem last_round_decision_is_lost (ps : PermissionService)
    (fromisoformat : string -> option datetime) (strptime : string -> option Z)
    (sched : nat -> list Action) (self : APIHandler) (id : string)
    (d : ApprovalData) (db : Db.DatabaseService) (r : Db.ApprovalRequest)
    (uid user cmt now now_str : string) :
  pending_approvals self !! id = Some d ->
  status d = "pending" ->
  id ∉ _processing_approvals self ->
  _approval_events self !! id = Some false ->
  database_service self = Some db ->
  Db.get_approval db id = Some r ->
  Db.status r = "pending" ->
  Db.is_locked r = false \/ Db.approver r <> Some "system" ->
  sched 0%nat = [Submit id "approved" uid user cmt now] ->
  let out := wait_for_decision ps fromisoformat strptime sched self id 1
               now_str in
  (process_approval_internal ps self id "approved" uid user cmt now).2.1 = true
  /\ out.1.2 = TimedOut 1
  /\ out.2 = 1%nat
  /\ (status <$> pending_approvals out.1.1 !! id) = Some "timeout"
  /\ (approver <$> pending_approvals out.1.1 !! id) = Some (Some user).
Proof.
  intros Hd Hs Hin Hev Hdb Hr Hrs Hl Hsched out.
  destruct (process_pending ps self id d "approved" uid user cmt now Hd Hs Hin)
    as [Hp1 Hp2].
  pose proof (process_pending_event ps self id d "approved" uid user cmt now
                Hd Hs Hin) as Hp3.
  pose proof (process_keeps_database ps self id "approved" uid user cmt now)
    as Hp4.
  split; [by rewrite Hp2|].
  subst out. unfold wait_for_decision.
  change (Z.to_nat 1) with 1%nat. cbn [wait_loop].
  rewrite Hd.
  assert (Hres : resolved d = false).
  { unfold resolved. rewrite Hs. reflexivity. }
  rewrite Hres. unfold wait_round. rewrite Hev.
  unfold suspend. rewrite Hsched. cbn [run_actions foldl run_action].
  set (s1 := (process_approval_internal ps self id "approved" uid user cmt
                now).1) in *.
  rewrite Hp3.
  assert (Hc : _approval_events (clear_event s1 id) !! id = Some false)
    by apply lookup_insert_eq.
  rewrite Hc. cbn [bool_decide andb].
  rewrite (bool_decide_eq_false_2 (Some false = None)) by done.
  cbn [andb].
  set (d' := set_reminder_stopped _) in Hp1.
  assert (Hd' : pending_approvals (clear_event s1 id) !! id = Some d')
    by exact Hp1.
  assert (Hs' : status d' <> "pending") by (simpl; discriminate).
  pose proof (cancel_keeps_resolved (clear_event s1 id) id d' Hd' Hs') as Hk.
  destruct (epilogue_refused (clear_event s1 id) id (0 + 1)
              now_str db r) as (E1 & E2 & E3); [by rewrite <- Hdb|done..|].
  assert (Hfin :
    pending_approvals (wait_epilogue (clear_event s1 id) id (0 + 1) now_str).1
      !! id = Some (set_status d' "timeout")).
  { unfold wait_epilogue.
    change (database_service (_cancel_reminder_timer (clear_event s1 id) id))
      with (database_service s1).
    rewrite Hp4, Hdb, Hr. unfold Db.PENDING.
    rewrite bool_decide_eq_true_2 by done.
    cbn [fst snd pending_approvals with_database].
    rewrite Hk, Hd'.
    match goal with
    | |- context [match ?x with Some _ => _ | None => _ end] => destruct x
    end; apply lookup_insert_eq. }
  destruct (wait_epilogue (clear_event s1 id) id (0 + 1) now_str)
    as [s' resp].
  simpl in E1, Hfin |- *. rewrite Hfin, E1. done.
Qed.

(** The theorem on the handler of the demo. *)
Lemma last_round_decision_is_lost_witness :
  (wait_for_decision Demo.users Demo.clock (fun _ => None)
     (fun _ => [Submit "a1" "approved" "web_user" "alice" "ok"
                  "2024-01-01T10:00:59"])
     Demo.created "a1" 1 "2024-01-01 10:01:00").1.2 = TimedOut 1.
Proof.
  refine (proj1 (proj2
    (last_round_decision_is_lost Demo.users Demo.clock (fun _ => None)
       (fun _ => [Submit "a1" "approved" "web_user" "alice" "ok"
                    "2024-01-01T10:00:59"])
       Demo.created "a1" (Demo.fresh "a1") Demo.store (Demo.row "a1")
       "web_user" "alice" "ok" "2024-01-01T10:00:59" "2024-01-01 10:01:00"
       _ _ _ _ _ _ _ _ _))).
  - reflexivity.
  - reflexivity.
  - vm_compute. discriminate.
  - reflexivity.
  - reflexivity.
  - vm_compute. reflexivity.
  - reflexivity.
  - left. reflexivity.
  - reflexivity.
Defined.

(** A full run.  The wait is for one minute and alice
    approves during the sixtieth suspension, the last one.  The waiter
    wakes up, leaves the loop without another look at the record, finds
    the durable row still pending and answers with a timeout, after
    sixty suspensions; the record keeps alice as approver, with her
    comment, and has its status overwritten. *)
Example wait_loses_last_slice_decision :
  let id := "approval-shop-prod-7-1700000000" in
  let sched n :=
    if bool_decide (n = 59%nat)
    then [Submit id "approved" "web_user" "alice" "ok" "2024-01-01T10:00:59"]
    else [] in
  let out :=
    approval_wait Demo.users Demo.clock (fun _ => None) sched
      Demo.idle "shop" "prod" "7" "1.0" "deploy" "release" "deploy" (Some 1)
      "1700000000" "2024-01-01T10:00:00" "2024-01-01T10:01:00"
      "2024-01-01 10:01:00" in
  out.1.2 = TimedOut 60
  /\ out.2 = 60%nat
  /\ (status <$> pending_approvals out.1.1 !! id) = Some "timeout"
  /\ (approver <$> pending_approvals out.1.1 !! id) = Some (Some "alice")
  /\ (comment <$> pending_approvals out.1.1 !! id) = Some (Some "ok")
  /\ (updated_at <$> pending_approvals out.1.1 !! id)
     = Some (Some "2024-01-01T10:00:59").
Proof. vm_compute. repeat split; reflexivity. Qed.

(** * Further properties *)

(** ** The durable store *)

Lemma add_history_approvals (db : Db.DatabaseService)
    (rid act operator operator_role cmt now_str : string) :
  Db.approvals (Db._add_history db rid act operator operator_role cmt now_str)
  = Db.approvals db.
Proof. unfold Db._add_history. by destruct (Db.connectable db). Qed.

Lemma add_history_connectable (db : Db.DatabaseService)
    (rid act operator operator_role cmt now_str : string) :
  Db.connectable
    (Db._add_history db rid act operator operator_role cmt now_str)
  = Db.connectable db.
Proof. unfold Db._add_history. by destruct (Db.connectable db). Qed.

Lemma lock_free (db : Db.DatabaseService) (rid who : string) (timeout : Z)
    (now_str : string) (expired : bool) (r : Db.ApprovalRequest) :
  Db.connectable db = true ->
  Db.approvals db !! rid = Some r ->
  Db.is_locked r = false
  \/ Db.approver r = Some who
  \/ (is_Some (Db.lock_timestamp r) /\ expired = true) ->
  Db.lock_approval db rid who timeout now_str expired
  = (Db.with_approvals db
       (<[rid := Db.set_lock r now_str timeout who]> (Db.approvals db)),
     true).
Proof.
  intros Hc Hr Hfree. unfold Db.lock_approval. rewrite Hc, Hr.
  destruct Hfree as [Hl | [Ha | [Ht He]]].
  - rewrite Hl. reflexivity.
  - rewrite (bool_decide_eq_true_2 _ Ha). cbn [negb].
    by rewrite andb_false_r.
  - rewrite (bool_decide_eq_true_2 _ Ht), He.
    by destruct (Db.is_locked r).
Qed.

Lemma update_locked (db : Db.DatabaseService)
    (rid st who role cmt now_str : string) (r : Db.ApprovalRequest) :
  Db.connectable db = true ->
  Db.approvals db !! rid = Some r ->
  Db.status r = Db.PENDING ->
  Db.is_locked r = true ->
  Db.approver r = Some who ->
  Db.update_approval_status db rid st who role cmt now_str
  = (Db._add_history
       (Db.with_approvals db
          (<[rid := Db.set_decision r st who role cmt now_str]>
             (Db.approvals db)))
       rid st who role cmt now_str,
     {| Db.success := true; Db.message := "审批" +:+ st +:+ "成功";
        Db.code := Db.SUCCESS |}).
Proof.
  intros Hc Hr Hs Hl Ha. unfold Db.update_approval_status.
  rewrite Hc, Hr, Hl.
  rewrite (bool_decide_eq_true_2 _ Hs), (bool_decide_eq_true_2 _ Ha).
  reflexivity.
Qed.

Lemma update_success_inv (db : Db.DatabaseService)
    (rid st who role cmt now_str : string) :
  Db.success (Db.update_approval_status db rid st who role cmt now_str).2
  = true ->
  exists r,
    Db.connectable db = true /\ Db.approvals db !! rid = Some r
    /\ Db.status r = Db.PENDING /\ Db.is_locked r = true
    /\ Db.approver r = Some who.
Proof.
  unfold Db.update_approval_status.
  destruct (Db.connectable db) eqn:Hc; [|by cbn [snd Db.success]].
  destruct (Db.approvals db !! rid) as [r|] eqn:Hr;
    [|by cbn [snd Db.success]].
  case_bool_decide as Hs; cbn [negb]; [|by cbn [snd Db.success]].
  destruct (Db.is_locked r) eqn:Hl; cbn [negb orb];
    [|by cbn [snd Db.success]].
  case_bool_decide as Ha; cbn [negb]; [|by cbn [snd Db.success]].
  intros _. exists r. repeat split; assumption || reflexivity.
Qed.

(** X2.  Locking and then updating compose: on a pending row that is
    free for [who] (unlocked, or locked by [who], or locked with an
    expired lock), [lock_approval] succeeds and the following
    [update_approval_status] by [who] succeeds.  The row then carries
    the new status, [who], the role, the comment and the update time,
    and is unlocked; the history has one more row, with the same
    status, operator, role and comment; no other row changes. *)
Theorem lock_then_update (db : Db.DatabaseService)
    (rid st who role cmt t1 t2 : string) (timeout : Z) (expired : bool)
    (r : Db.ApprovalRequest) :
  Db.connectable db = true ->
  Db.approvals db !! rid = Some r ->
  Db.status r = Db.PENDING ->
  Db.is_locked r = false
  \/ Db.approver r = Some who
  \/ (is_Some (Db.lock_timestamp r) /\ expired = true) ->
  let locked := Db.lock_approval db rid who timeout t1 expired in
  let out := Db.update_approval_status locked.1 rid st who role cmt t2 in
  locked.2 = true
  /\ Db.success out.2 = true
  /\ Db.code out.2 = Db.SUCCESS
  /\ Db.get_approval out.1 rid
     = Some (Db.set_decision (Db.set_lock r t1 timeout who)
               st who role cmt t2)
  /\ Db.approval_history out.1
     = (Db.approval_history db ++
        [ {| Db.h_request_id := rid; Db.h_action := st;
             Db.h_operator := who; Db.h_operator_role := role;
             Db.h_comment := cmt; Db.h_timestamp := t2 |} ])%list
  /\ (forall rid', rid' <> rid ->
        Db.get_approval out.1 rid' = Db.get_approval db rid').
Proof.
  intros Hc Hr Hs Hfree locked out. subst out locked.
  rewrite (lock_free db rid who timeout t1 expired r Hc Hr Hfree).
  cbn [fst snd].
  set (db1 := Db.with_approvals db _).
  assert (Hc1 : Db.connectable db1 = true) by done.
  assert (Hr1 : Db.approvals db1 !! rid
                = Some (Db.set_lock r t1 timeout who)).
  { subst db1. cbn [Db.with_approvals Db.approvals].
    apply lookup_insert_eq. }
  rewrite (update_locked db1 rid st who role cmt t2 _ Hc1 Hr1 Hs eq_refl
             eq_refl).
  cbn [fst snd Db.success Db.code].
  repeat split.
  - unfold Db.get_approval. rewrite add_history_connectable,
      add_history_approvals.
    cbn [Db.with_approvals Db.connectable Db.approvals]. rewrite Hc1.
    apply lookup_insert_eq.
  - intros rid' Hne. unfold Db.get_approval.
    rewrite add_history_connectable, add_history_approvals.
    subst db1. cbn [Db.with_approvals Db.connectable Db.approvals].
    rewrite Hc. by rewrite !lookup_insert_ne.
Qed.

Lemma lock_then_update_witness :
  Db.success
    (Db.update_approval_status
       (Db.lock_approval Demo.store "a1" "alice" 60
          "2024-01-01 10:00:05" false).1
       "a1" "approved" "alice" "ops" "ok" "2024-01-01 10:00:06").2
  = true.
Proof.
  refine (proj1 (proj2
    (lock_then_update Demo.store "a1" "approved" "alice" "ops" "ok"
       "2024-01-01 10:00:05" "2024-01-01 10:00:06" 60 false
       (Demo.row "a1") _ _ _ _))).
  - reflexivity.
  - reflexivity.
  - reflexivity.
  - left. reflexivity.
Defined.

(** X3.  A durable decision is final: after an update that succeeded
    with a status other than ["pending"], every later update of the
    same row, whoever makes it and whatever the status, is refused with
    code [ALREADY_PROCESSED], names the first status and its operator in
    its message, and changes nothing. *)
Theorem durable_decision_is_final (db : Db.DatabaseService)
    (rid st who role cmt t st' who' role' cmt' t' : string) :
  Db.success (Db.update_approval_status db rid st who role cmt t).2 = true ->
  st <> Db.PENDING ->
  let db1 := (Db.update_approval_status db rid st who role cmt t).1 in
  Db.update_approval_status db1 rid st' who' role' cmt' t'
  = (db1,
     {| Db.success := false;
        Db.message := "❌ 审批已处理！当前状态: " +:+ st +:+
                      ", 操作人: " +:+ who +:+ "，请勿重复操作";
        Db.code := Db.ALREADY_PROCESSED |}).
Proof.
  intros Hok Hst db1. subst db1.
  destruct (update_success_inv _ _ _ _ _ _ _ Hok)
    as (r & Hc & Hr & Hs & Hl & Ha).
  rewrite (update_locked db rid st who role cmt t r Hc Hr Hs Hl Ha).
  cbn [fst].
  unfold Db.update_approval_status at 1.
  rewrite add_history_connectable, add_history_approvals.
  cbn [Db.with_approvals Db.connectable Db.approvals]. rewrite Hc.
  rewrite lookup_insert_eq.
  cbn [Db.set_decision Db.status Db.approver Db.fmt default].
  rewrite (bool_decide_eq_false_2 _ Hst). reflexivity.
Qed.

Lemma durable_decision_is_final_witness :
  Db.code
    (Db.update_approval_status
       (Db.update_approval_status
          (Db.lock_approval Demo.store "a1" "alice" 60
             "2024-01-01 10:00:05" false).1
          "a1" "approved" "alice" "ops" "ok" "2024-01-01 10:00:06").1
       "a1" "rejected" "bob" "dev" "no" "2024-01-01 10:00:07").2
  = Db.ALREADY_PROCESSED.
Proof.
  refine (f_equal (fun p => Db.code p.2)
    (durable_decision_is_final
       (Db.lock_approval Demo.store "a1" "alice" 60
          "2024-01-01 10:00:05" false).1
       "a1" "approved" "alice" "ops" "ok" "2024-01-01 10:00:06"
       "rejected" "bob" "dev" "no" "2024-01-01 10:00:07" _ _)).
  - vm_compute. reflexivity.
  - discriminate.
Defined.

(** X4.  The lock is exclusive.  Once [a] has locked a row that was
    unlocked, [lock_approval] by any other user [b] is refused and
    changes nothing as long as the lock has not expired, and an update
    by [b] of the pending row is refused with [LOCK_REQUIRED]; [a] can
    lock again at any time; after the lock has expired [b] obtains it
    and the row names [b]. *)
Theorem lock_is_exclusive (db : Db.DatabaseService)
    (rid a b st role cmt t1 t2 : string) (timeout timeout' : Z)
    (expired expired' : bool) (r : Db.ApprovalRequest) :
  Db.connectable db = true ->
  Db.approvals db !! rid = Some r ->
  Db.is_locked r = false ->
  a <> b ->
  let db1 := (Db.lock_approval db rid a timeout t1 expired).1 in
  Db.lock_approval db1 rid b timeout' t2 false = (db1, false)
  /\ (Db.status r = Db.PENDING ->
      Db.update_approval_status db1 rid st b role cmt t2
      = (db1, {| Db.success := false;
                 Db.message := "审批请求未被正确锁定";
                 Db.code := Db.LOCK_REQUIRED |}))
  /\ (Db.lock_approval db1 rid a timeout' t2 expired').2 = true
  /\ (Db.lock_approval db1 rid b timeout' t2 true).2 = true
  /\ Db.approver
       <$> Db.get_approval (Db.lock_approval db1 rid b timeout' t2 true).1 rid
     = Some (Some b).
Proof.
  intros Hc Hr Hl Hab db1. subst db1.
  rewrite (lock_free db rid a timeout t1 expired r Hc Hr (or_introl Hl)).
  cbn [fst].
  set (db1 := Db.with_approvals db _).
  assert (Hc1 : Db.connectable db1 = true) by done.
  assert (Hr1 : Db.approvals db1 !! rid = Some (Db.set_lock r t1 timeout a)).
  { subst db1. cbn [Db.with_approvals Db.approvals].
    apply lookup_insert_eq. }
  assert (Hne : Some a <> Some b) by congruence.
  split.
  { unfold Db.lock_approval. rewrite Hc1, Hr1.
    cbn [Db.set_lock Db.is_locked Db.lock_timestamp Db.approver].
    rewrite (bool_decide_eq_false_2 _ Hne).
    rewrite (bool_decide_eq_true_2 (is_Some (Some t1)));
      [reflexivity | by eexists]. }
  split.
  { intros Hs. unfold Db.update_approval_status. rewrite Hc1, Hr1.
    cbn [Db.set_lock Db.is_locked Db.status Db.approver].
    rewrite (bool_decide_eq_true_2 _ Hs), (bool_decide_eq_false_2 _ Hne).
    reflexivity. }
  split.
  { rewrite (lock_free db1 rid a timeout' t2 expired' _ Hc1 Hr1);
      [reflexivity | right; left; reflexivity]. }
  rewrite (lock_free db1 rid b timeout' t2 true _ Hc1 Hr1).
  - split; [reflexivity|]. cbn [fst]. unfold Db.get_approval.
    cbn [Db.with_approvals Db.connectable Db.approvals]. rewrite Hc1.
    by rewrite lookup_insert_eq.
  - right; right. split; [by eexists | reflexivity].
Qed.

Lemma lock_is_exclusive_witness :
  Db.lock_approval
    (Db.lock_approval Demo.store "a1" "alice" 60 "2024-01-01 10:00:05"
       false).1
    "a1" "bob" 60 "2024-01-01 10:00:06" false
  = ((Db.lock_approval Demo.store "a1" "alice" 60 "2024-01-01 10:00:05"
        false).1, false).
Proof.
  refine (proj1
    (lock_is_exclusive Demo.store "a1" "alice" "bob" "approved" "dev" "ok"
       "2024-01-01 10:00:05" "2024-01-01 10:00:06" 60 60 false false
       (Demo.row "a1") _ _ _ _)).
  - reflexivity.
  - reflexivity.
  - reflexivity.
  - discriminate.
Defined.

(** X5.  [lock_approval] does not look at the status.  After a decision
    has been written, the row is unlocked, so a later [lock_approval]
    by anybody succeeds and replaces the approver column: the row keeps
    the decided status, role and comment, but names the later caller,
    and is locked again. *)
Theorem lock_overwrites_decider (db : Db.DatabaseService)
    (rid st who role cmt t who' t' : string) (timeout : Z) (expired : bool) :
  Db.success (Db.update_approval_status db rid st who role cmt t).2 = true ->
  let db1 := (Db.update_approval_status db rid st who role cmt t).1 in
  let out := Db.lock_approval db1 rid who' timeout t' expired in
  out.2 = true
  /\ exists r',
       Db.get_approval out.1 rid = Some r'
       /\ Db.status r' = st
       /\ Db.approver r' = Some who'
       /\ Db.approver_role r' = Some role
       /\ Db.comment r' = Some cmt
       /\ Db.is_locked r' = true.
Proof.
  intros Hok db1 out. subst out db1.
  destruct (update_success_inv _ _ _ _ _ _ _ Hok)
    as (r & Hc & Hr & Hs & Hl & Ha).
  rewrite (update_locked db rid st who role cmt t r Hc Hr Hs Hl Ha).
  cbn [fst].
  set (db1 := Db._add_history _ _ _ _ _ _ _).
  assert (Hc1 : Db.connectable db1 = true).
  { subst db1. by rewrite add_history_connectable. }
  assert (Hr1 : Db.approvals db1 !! rid
                = Some (Db.set_decision r st who role cmt t)).
  { subst db1. rewrite add_history_approvals.
    cbn [Db.with_approvals Db.approvals]. apply lookup_insert_eq. }
  rewrite (lock_free db1 rid who' timeout t' expired _ Hc1 Hr1);
    [|left; reflexivity].
  split; [reflexivity|].
  eexists. split.
  { cbn [fst]. unfold Db.get_approval.
    cbn [Db.with_approvals Db.connectable Db.approvals]. rewrite Hc1.
    apply lookup_insert_eq. }
  repeat split.
Qed.

Lemma lock_overwrites_decider_witness :
  (Db.lock_approval
     (Db.update_approval_status
        (Db.lock_approval Demo.store "a1" "alice" 60 "2024-01-01 10:00:05"
           false).1
        "a1" "approved" "alice" "ops" "ok" "2024-01-01 10:00:06").1
     "a1" "bob" 60 "2024-01-01 10:00:07" false).2
  = true.
Proof.
  refine (proj1
    (lock_overwrites_decider
       (Db.lock_approval Demo.store "a1" "alice" 60 "2024-01-01 10:00:05"
          false).1
       "a1" "approved" "alice" "ops" "ok" "2024-01-01 10:00:06"
       "bob" "2024-01-01 10:00:07" 60 false _)).
  vm_compute. reflexivity.
Defined.

Section CleanupExpired.
Variable strptime : string -> option Z.
Variables (now : Z) (now_str : string).

Abbreviation mark_timeout :=
  (fun (acc : Db.DatabaseService) (p : (string * Db.ApprovalRequest) * Z) =>
     Db._add_history
       (Db.with_approvals acc
          (<[p.1.1 := Db.set_timeout p.1.2 now_str]> (Db.approvals acc)))
       p.1.1 "timeout" "system" "system" "审批超时" now_str).

Abbreviation read_time :=
  (fun kv : string * Db.ApprovalRequest =>
     (fun t : Z => (kv, t)) <$> strptime (Db.created_at kv.2)).

Lemma mark_timeout_other (L : list ((string * Db.ApprovalRequest) * Z))
    (db : Db.DatabaseService) (k : string) :
  (forall p, p ∈ L -> p.1.1 <> k) ->
  Db.approvals (foldl mark_timeout db L) !! k = Db.approvals db !! k.
Proof.
  induction L as [|p L IH] using rev_ind; intros Hk; [reflexivity|].
  rewrite foldl_app. cbn [foldl].
  rewrite add_history_approvals. cbn [Db.with_approvals Db.approvals].
  rewrite lookup_insert_ne.
  - apply IH. intros q Hq. apply Hk. apply elem_of_app. by left.
  - apply Hk. apply elem_of_app. right. by apply list_elem_of_singleton.
Qed.

Lemma mark_timeout_hit (L : list ((string * Db.ApprovalRequest) * Z))
    (db : Db.DatabaseService) (k : string) (r : Db.ApprovalRequest) :
  (forall p, p ∈ L -> p.1.1 = k -> p.1.2 = r) ->
  (exists p, p ∈ L /\ p.1.1 = k) ->
  Db.approvals (foldl mark_timeout db L) !! k
  = Some (Db.set_timeout r now_str).
Proof.
  induction L as [|p L IH] using rev_ind; intros Hsame [q [Hq Hqk]].
  { by apply elem_of_nil in Hq. }
  rewrite foldl_app. cbn [foldl].
  rewrite add_history_approvals. cbn [Db.with_approvals Db.approvals].
  destruct (decide (p.1.1 = k)) as [Hp | Hp].
  - rewrite Hp, lookup_insert_eq. f_equal. f_equal. apply Hsame; [|done].
    apply elem_of_app. right. by apply list_elem_of_singleton.
  - rewrite lookup_insert_ne by done. apply IH.
    + intros p' Hp'. apply Hsame. apply elem_of_app. by left.
    + apply elem_of_app in Hq as [Hq | Hq].
      * by exists q.
      * apply list_elem_of_singleton in Hq. by subst q.
Qed.

Lemma read_time_elem (pend : list (string * Db.ApprovalRequest))
    (timed : list ((string * Db.ApprovalRequest) * Z)) :
  mapM read_time pend = Some timed ->
  forall p, p ∈ timed <->
            p.1 ∈ pend /\ strptime (Db.created_at p.1.2) = Some p.2.
Proof.
  intros H. apply mapM_Some_1 in H.
  induction H as [|kv p pend timed Hkv _ IH]; intros q.
  { split; [intros Hq; by apply elem_of_nil in Hq|].
    intros [Hq _]. by apply elem_of_nil in Hq. }
  cbn beta in Hkv.
  destruct (strptime (Db.created_at kv.2)) as [t|] eqn:Ht; [|discriminate].
  cbn in Hkv. injection Hkv as <-.
  rewrite !elem_of_cons, IH. split.
  - intros [-> | [H1 H2]]; [split; [by left | done] | split; [by right | done]].
  - intros [[H1 | H1] H2].
    + left. destruct q as [q1 q2]. cbn in *. subst q1.
      rewrite Ht in H2. by injection H2 as <-.
    + right. done.
Qed.

(** X6.  [cleanup_expired_approvals] on a reachable server.  A row that
    is not pending is never touched.  When all pending rows have a
    readable creation time, a pending row that is older than its
    [timeout_seconds] gets the status ["timeout"] and the time of the
    sweep as update time, with every other column kept, and a pending
    row that is not older is kept as it is.  When one pending row has a
    creation time that cannot be read, no row is changed at all, not
    even the expired ones. *)
Theorem cleanup_expired_rows (db : Db.DatabaseService) (rid : string)
    (r : Db.ApprovalRequest) :
  Db.approvals db !! rid = Some r ->
  let db' := Db.cleanup_expired_approvals strptime db now now_str in
  (Db.status r <> Db.PENDING -> Db.approvals db' !! rid = Some r)
  /\ (forall t,
        Db.connectable db = true ->
        (forall k r', Db.approvals db !! k = Some r' ->
                      Db.status r' = Db.PENDING ->
                      is_Some (strptime (Db.created_at r'))) ->
        Db.status r = Db.PENDING ->
        strptime (Db.created_at r) = Some t ->
        Db.approvals db' !! rid
        = Some (if bool_decide (Db.timeout_seconds r * 1000000 < now - t)
                then Db.set_timeout r now_str else r))
  /\ ((exists k r', Db.approvals db !! k = Some r'
                    /\ Db.status r' = Db.PENDING
                    /\ strptime (Db.created_at r') = None) ->
      db' = db).
Proof.
  intros Hr db'. subst db'. unfold Db.cleanup_expired_approvals.
  set (pend := filter _ (map_to_list (Db.approvals db))).
  assert (Hpend : forall kv, kv ∈ pend <->
            Db.approvals db !! kv.1 = Some kv.2
            /\ Db.status kv.2 = Db.PENDING).
  { intros [k r']. subst pend. rewrite list_elem_of_filter.
    rewrite elem_of_map_to_list. cbn. tauto. }
  split; [|split].
  - intros Hs. destruct (Db.connectable db); [|done].
    destruct (mapM _ pend) as [timed|] eqn:Hm; [|done].
    rewrite mark_timeout_other; [done|].
    intros p Hp Hk. apply list_elem_of_filter in Hp as [_ Hp].
    apply (read_time_elem _ _ Hm) in Hp as [Hp _].
    apply Hpend in Hp as [Hp1 Hp2]. rewrite Hk, Hr in Hp1.
    injection Hp1 as Hp1. rewrite <- Hp1 in Hp2. done.
  - intros t Hc Hall Hs Ht. rewrite Hc.
    destruct (mapM _ pend) as [timed|] eqn:Hm.
    2:{ apply mapM_None_1 in Hm. apply Exists_exists in Hm as [kv [Hkv Hn]].
        apply Hpend in Hkv as [Hk1 Hk2].
        destruct (Hall _ _ Hk1 Hk2) as [t' Ht']. cbn beta in Hn.
        rewrite Ht' in Hn. discriminate. }
    assert (Hsame : forall p, p ∈ timed -> p.1.1 = rid ->
                              p.1.2 = r /\ p.2 = t).
    { intros p Hp Hk. apply (read_time_elem _ _ Hm) in Hp as [Hp Hp'].
      apply Hpend in Hp as [Hp1 _]. rewrite Hk, Hr in Hp1.
      injection Hp1 as Hp1. rewrite <- Hp1 in Hp'. rewrite Ht in Hp'.
      injection Hp' as Hp'. done. }
    case_bool_decide as He.
    + apply mark_timeout_hit.
      * intros p Hp Hk. apply list_elem_of_filter in Hp as [_ Hp].
        by apply Hsame.
      * exists ((rid, r), t). split; [|done].
        apply list_elem_of_filter. split; [done|].
        apply (read_time_elem _ _ Hm). split; [|done].
        apply Hpend. done.
    + rewrite mark_timeout_other; [done|].
      intros p Hp Hk. apply list_elem_of_filter in Hp as [Hq Hp].
      destruct (Hsame p Hp Hk) as [H1 H2]. rewrite H1, H2 in Hq. done.
  - intros (k & r' & Hk & Hs & Hn). destruct (Db.connectable db); [|done].
    rewrite (mapM_None_2 _ pend); [done|].
    apply Exists_exists. exists (k, r'). split; [by apply Hpend|].
    cbn. by rewrite Hn.
Qed.

End CleanupExpired.

Lemma cleanup_expired_rows_witness :
  Db.approvals
    (Db.cleanup_expired_approvals (fun _ => Some 0) Demo.store 61000000
       "2024-01-01 10:01:01") !! "a1"
  = Some (Db.set_timeout (Demo.row "a1") "2024-01-01 10:01:01").
Proof.
  refine (proj1 (proj2
    (cleanup_expired_rows (fun _ => Some 0) 61000000 "2024-01-01 10:01:01"
       Demo.store "a1" (Demo.row "a1") _)) 0 _ _ _ _).
  - reflexivity.
  - reflexivity.
  - intros k r' _ _. by eexists.
  - reflexivity.
  - reflexivity.
Defined.

(** ** Submissions in memory *)

Section SubmissionFacts.
Variable permission_service : PermissionService.

Abbreviation process := (process_approval_internal permission_service).

Lemma mark_and_unmark (P : gset string) (id : string) :
  id ∉ P -> (P ∪ {[ id ]}) ∖ {[ id ]} = P.
Proof.
  intros Hin. apply set_eq. intros x.
  rewrite elem_of_difference, elem_of_union, elem_of_singleton.
  split; [tauto|]. intros Hx. split; [by left|]. intros ->. done.
Qed.

Lemma cancel_events self id :
  _approval_events (_cancel_reminder_timer self id) = _approval_events self.
Proof. reflexivity. Qed.

Lemma cancel_processing self id :
  _processing_approvals (_cancel_reminder_timer self id)
  = _processing_approvals self.
Proof. reflexivity. Qed.

(** The [finally] clause: the marks in flight are afterwards what they
    were before the call. *)
Lemma process_mark_restored (self : APIHandler)
    (id act uid user cmt now : string) :
  _processing_approvals (process self id act uid user cmt now).1
  = _processing_approvals self.
Proof.
  unfold process_approval_internal.
  case_bool_decide as Hin; [done|].
  destruct (pending_approvals _ !! id) as [d|].
  - destruct (negb _); cbn [fst]; by apply mark_and_unmark.
  - cbn [fst]. by apply mark_and_unmark.
Qed.

(** X7.  A submission works on its own id only, and always takes its
    in-progress mark back.  Whatever the handler, the action and the
    outcome (success, refusal, unknown id), the set of submissions in
    flight is afterwards what it was before the call; the database
    service is the same; and for every other id the record, the event,
    the thread reference and the stop mark are unchanged. *)
Theorem submission_touches_only_its_id (self : APIHandler)
    (id act uid user cmt now : string) :
  let self' := (process self id act uid user cmt now).1 in
  _processing_approvals self' = _processing_approvals self
  /\ database_service self' = database_service self
  /\ (forall id', id' <> id ->
        pending_approvals self' !! id' = pending_approvals self !! id'
        /\ _approval_events self' !! id' = _approval_events self !! id'
        /\ (id' ∈ reminder_timers self' <-> id' ∈ reminder_timers self)
        /\ (id' ∈ _stopped_reminders self'
            <-> id' ∈ _stopped_reminders self)).
Proof.
  intros self'. subst self'.
  split; [apply process_mark_restored|].
  unfold process_approval_internal.
  case_bool_decide as Hin; [by repeat split|].
  set (self1 := with_processing self _).
  set (self2 := _cancel_reminder_timer self1 id).
  assert (Hsets : forall id', id' <> id ->
            (id' ∈ reminder_timers self2 <-> id' ∈ reminder_timers self)
            /\ (id' ∈ _stopped_reminders self2
                <-> id' ∈ _stopped_reminders self)).
  { intros id' Hne. subst self2 self1. cbn.
    rewrite elem_of_difference, elem_of_union, elem_of_singleton. tauto. }
  assert (Hother : forall id', id' <> id ->
            pending_approvals self2 !! id' = pending_approvals self !! id').
  { intros id' Hne. subst self2.
    by rewrite cancel_lookup_other. }
  destruct (pending_approvals self2 !! id) as [d|] eqn:Hd.
  - destruct (negb (bool_decide (status d = "pending"))).
    + cbn [fst]. split; [done|].
      intros id' Hne. split; [by apply Hother|]. split; [done|].
      by apply Hsets.
    + cbn [fst]. split; [done|].
      intros id' Hne. split.
      { cbn. rewrite lookup_insert_ne by done. by apply Hother. }
      split.
      { cbn. by rewrite lookup_insert_ne. }
      by apply Hsets.
  - cbn [fst]. split; [done|].
    intros id' Hne. split; [by apply Hother|]. split; [done|].
    by apply Hsets.
Qed.

(** X8.  An id that is not in the registry.  A submission for it is
    refused with the message that the approval does not exist or has
    expired; no record or event is created, but the id is added to the
    stop set, and a thread reference under that id is dropped.  The
    deadline enforcer leaves the handler as it is.  The two web
    endpoints turn the refusal into an HTTP 400 answer. *)
Theorem unknown_id_is_refused (self : APIHandler)
    (id act uid user cmt now now_str : string)
    (approver_arg comment_arg : option string) :
  pending_approvals self !! id = None ->
  id ∉ _processing_approvals self ->
  let out := process self id act uid user cmt now in
  out.2 = (false, "审批 " +:+ id +:+ " 不存在或已过期")
  /\ pending_approvals out.1 = pending_approvals self
  /\ _approval_events out.1 = _approval_events self
  /\ _stopped_reminders out.1 = _stopped_reminders self ∪ {[ id ]}
  /\ reminder_timers out.1 = reminder_timers self ∖ {[ id ]}
  /\ timeout_handler self id now = self
  /\ (let web := approve_request permission_service self id approver_arg
                   comment_arg now now_str in
      http_status web.2 = 400
      /\ web_message web.2
         = "❌ 审批处理失败：审批 " +:+ id +:+ " 不存在或已过期")
  /\ (let web := reject_request permission_service self id approver_arg
                   comment_arg now now_str in
      http_status web.2 = 400
      /\ web_message web.2
         = "❌ 拒绝处理失败：审批 " +:+ id +:+ " 不存在或已过期").
Proof.
  intros Hd Hin.
  assert (Hp : forall act uid user cmt now,
            process self id act uid user cmt now
            = (with_processing
                 (_cancel_reminder_timer
                    (with_processing self (_processing_approvals self ∪ {[id]}))
                    id)
                 ((_processing_approvals self ∪ {[id]}) ∖ {[id]}),
               (false, "审批 " +:+ id +:+ " 不存在或已过期"))).
  { intros. unfold process_approval_internal. cbv zeta.
    rewrite (bool_decide_eq_false_2 _ Hin).
    set (self1 := with_processing self _).
    assert (H2 : pending_approvals (_cancel_reminder_timer self1 id) !! id
                 = None).
    { unfold _cancel_reminder_timer. cbn. rewrite Hd. exact Hd. }
    rewrite H2. reflexivity. }
  intros out. subst out. rewrite Hp. cbn [fst snd].
  split; [done|]. split.
  { cbn. by rewrite Hd. }
  split; [done|]. split; [done|]. split; [done|]. split.
  { unfold timeout_handler. by rewrite Hd. }
  split.
  - unfold approve_request. rewrite Hp. done.
  - unfold reject_request. rewrite Hp. done.
Qed.

End SubmissionFacts.

Lemma unknown_id_is_refused_witness :
  (process_approval_internal Demo.users Demo.idle "a9" "approved" "web_user"
     "alice" "ok" "2024-01-01T10:00:30").2
  = (false, "审批 a9 不存在或已过期").
Proof.
  refine (proj1
    (unknown_id_is_refused Demo.users Demo.idle "a9" "approved" "web_user"
       "alice" "ok" "2024-01-01T10:00:30" "2024-01-01 10:00:30" None None
       _ _)).
  - reflexivity.
  - vm_compute. discriminate.
Defined.

(** ** The waiter and the other threads *)

Section WakeUp.
Variable permission_service : PermissionService.
Variable fromisoformat : string -> option datetime.
Variable strptime : string -> option Z.
Variable sched : nat -> list Action.

Abbreviation loop_of :=
  (wait_loop permission_service fromisoformat strptime sched).

(** A round that finds a pending record whose event is not set, and
    during whose suspension the record is resolved and the event set,
    ends after that one suspension with the event cleared. *)
Lemma woken_round (self s : APIHandler) (id : string) (d d' : ApprovalData)
    (k : nat) (waited : Z) (blocked tick : nat) :
  pending_approvals self !! id = Some d ->
  status d = "pending" ->
  _approval_events self !! id = Some false ->
  run_actions permission_service fromisoformat strptime self (sched tick) = s ->
  pending_approvals s !! id = Some d' ->
  _approval_events s !! id = Some true ->
  resolved d' = true ->
  loop_of (S (S k)) id self waited blocked tick
  = Answered (_cancel_reminder_timer (clear_event s id) id)
      (FromMemory (status d') (default "unknown" (approver d'))
         (default "管理员" (approver_role d')) (default "" (comment d'))
         (waited + 1))
      (S blocked).
Proof.
  intros Hd Hs Hev Hrun Hd' Hev' Hres'.
  change (loop_of (S (S k)) id self waited blocked tick)
    with (match pending_approvals self !! id with
          | Some d =>
              if resolved d then
                Answered (_cancel_reminder_timer self id)
                  (FromMemory (status d)
                     (default "unknown" (approver d))
                     (default "管理员" (approver_role d))
                     (default "" (comment d))
                     waited)
                  blocked
              else
                let '(self', blocked', tick') :=
                  wait_round permission_service fromisoformat strptime sched
                    id self (Some (status d)) blocked tick in
                loop_of (S k) id self' (waited + 1) blocked' tick'
          | None =>
              let '(self', blocked', tick') :=
                wait_round permission_service fromisoformat strptime sched
                  id self None blocked tick in
              loop_of (S k) id self' (waited + 1) blocked' tick'
          end).
  rewrite Hd.
  assert (Hres : resolved d = false).
  { unfold resolved. rewrite Hs. reflexivity. }
  rewrite Hres. unfold wait_round. rewrite Hev.
  unfold suspend. rewrite Hrun, Hev'.
  assert (Hc : _approval_events (clear_event s id) !! id = Some false)
    by apply lookup_insert_eq.
  rewrite Hc.
  rewrite (bool_decide_eq_false_2 (Some false = None)) by done.
  cbn [andb].
  assert (Hd'' : pending_approvals (clear_event s id) !! id = Some d')
    by exact Hd'.
  cbn [wait_loop]. rewrite Hd'', Hres'. reflexivity.
Qed.

(** X9.  A decision made while the waiter is suspended wakes it up,
    provided a round is left after the one it is in.  The record is pending and its event not set; in
    the suspension of this round a submission with one of the four
    actions that the entry points pass is made for it.  The waiter
    leaves the loop at the head of the next round, after that one
    suspension and with [waited] one interval larger, and its answer
    carries the status of the decision, the name given by the
    submitter, the role that the permission service has for that name,
    and the comment. *)
Theorem decision_wakes_waiter (self : APIHandler)
    (id act uid user cmt now : string) (d : ApprovalData)
    (k : nat) (waited : Z) (blocked tick : nat) :
  pending_approvals self !! id = Some d ->
  status d = "pending" ->
  id ∉ _processing_approvals self ->
  _approval_events self !! id = Some false ->
  act ∈ ["approve"; "reject"; "approved"; "rejected"] ->
  sched tick = [Submit id act uid user cmt now] ->
  exists self',
    loop_of (S (S k)) id self waited blocked tick
    = Answered self'
        (FromMemory (final_status act) user
           (get_user_role permission_service user) cmt (waited + 1))
        (S blocked)
    /\ (status <$> pending_approvals self' !! id) = Some (final_status act)
    /\ _approval_events self' !! id = Some false.
Proof.
  intros Hd Hs Hin Hev Hact Hsched.
  destruct (process_pending permission_service self id d act uid user cmt now
              Hd Hs Hin) as [Hp1 _].
  pose proof (process_pending_event permission_service self id d act uid user
                cmt now Hd Hs Hin) as Hp3.
  set (s := (process_approval_internal permission_service self id act uid
               user cmt now).1) in *.
  set (d' := set_reminder_stopped _) in Hp1.
  assert (Hst : status d' = final_status act) by reflexivity.
  assert (Hres : resolved d' = true).
  { unfold resolved. rewrite Hst.
    destruct (final_status_known act Hact) as [-> | ->]; reflexivity. }
  assert (Hrun : run_actions permission_service fromisoformat strptime self
                   (sched tick) = s).
  { rewrite Hsched. reflexivity. }
  eexists. split.
  { rewrite (woken_round self s id d d' k waited blocked tick Hd Hs Hev Hrun
               Hp1 Hp3 Hres). reflexivity. }
  assert (Hne : status d' <> "pending").
  { rewrite Hst.
    destruct (final_status_known act Hact) as [-> | ->]; discriminate. }
  assert (Hd'' : pending_approvals (clear_event s id) !! id = Some d')
    by exact Hp1.
  rewrite (cancel_keeps_resolved (clear_event s id) id d' Hd'' Hne).
  split.
  - cbn [clear_event with_events pending_approvals]. by rewrite Hp1.
  - rewrite cancel_events. apply lookup_insert_eq.
Qed.

(** X10.  The deadline wakes the waiter in the same way.  When the
    deadline thread fires during the suspension of a round that is not
    the last, on a pending record whose event is not set, the waiter
    leaves the loop at the head of the next round; its answer has the
    result ["timeout"], the approver and role ["system"], and is built
    from the record alone: the durable store is not read or written. *)
Theorem deadline_wakes_waiter (self : APIHandler) (id now : string)
    (d : ApprovalData) (k : nat) (waited : Z) (blocked tick : nat) :
  pending_approvals self !! id = Some d ->
  status d = "pending" ->
  _approval_events self !! id = Some false ->
  sched tick = [Deadline id now] ->
  exists self',
    loop_of (S (S k)) id self waited blocked tick
    = Answered self'
        (FromMemory "timeout" "system" "system" "审批超时" (waited + 1))
        (S blocked)
    /\ (status <$> pending_approvals self' !! id) = Some "timeout"
    /\ database_service self' = database_service self.
Proof.
  intros Hd Hs Hev Hsched.
  pose proof (timeout_pending self id d now Hd Hs) as Hp1.
  set (s := timeout_handler self id now) in *.
  set (d' := set_decider _ _ _ _ _) in Hp1.
  assert (Hev' : _approval_events s !! id = Some true).
  { subst s. unfold timeout_handler. rewrite Hd.
    rewrite (bool_decide_eq_true_2 _ Hs). cbv zeta.
    rewrite cancel_events. cbn [with_pending _approval_events].
    rewrite Hev. apply lookup_insert_eq. }
  assert (Hdb : database_service s = database_service self).
  { subst s. unfold timeout_handler. rewrite Hd.
    rewrite (bool_decide_eq_true_2 _ Hs). cbv zeta.
    cbn [with_pending _approval_events]. rewrite Hev. reflexivity. }
  assert (Hrun : run_actions permission_service fromisoformat strptime self
                   (sched tick) = s).
  { rewrite Hsched. reflexivity. }
  eexists. split.
  { rewrite (woken_round self s id d d' k waited blocked tick Hd Hs Hev Hrun
               Hp1 Hev' eq_refl). reflexivity. }
  assert (Hne : status d' <> "pending") by discriminate.
  assert (Hd'' : pending_approvals (clear_event s id) !! id = Some d')
    by exact Hp1.
  rewrite (cancel_keeps_resolved (clear_event s id) id d' Hd'' Hne).
  split.
  - cbn [clear_event with_events pending_approvals]. by rewrite Hp1.
  - exact Hdb.
Qed.

End WakeUp.

Lemma decision_wakes_waiter_witness :
  exists self',
    wait_loop Demo.users Demo.clock (fun _ => None)
      (fun _ => [Submit "a1" "approved" "web_user" "alice" "ok"
                   "2024-01-01T10:00:30"])
      2 "a1" Demo.created 0 0%nat 0%nat
    = Answered self'
        (FromMemory (final_status "approved") "alice"
           (get_user_role Demo.users "alice") "ok" (0 + 1))
        1%nat
    /\ (status <$> pending_approvals self' !! "a1")
       = Some (final_status "approved")
    /\ _approval_events self' !! "a1" = Some false.
Proof.
  refine (decision_wakes_waiter Demo.users Demo.clock (fun _ => None)
    (fun _ => [Submit "a1" "approved" "web_user" "alice" "ok"
                 "2024-01-01T10:00:30"])
    Demo.created "a1" "approved" "web_user" "alice" "ok"
    "2024-01-01T10:00:30" (Demo.fresh "a1") 0%nat 0 0%nat 0%nat
    _ _ _ _ _ _).
  - reflexivity.
  - reflexivity.
  - vm_compute. discriminate.
  - reflexivity.
  - apply elem_of_cons. right. apply elem_of_cons. right.
    apply elem_of_cons. by left.
  - reflexivity.
Defined.

Lemma deadline_wakes_waiter_witness :
  exists self',
    wait_loop Demo.users Demo.clock (fun _ => None)
      (fun _ => [Deadline "a1" "2024-01-01T10:00:30"])
      2 "a1" Demo.created 0 0%nat 0%nat
    = Answered self'
        (FromMemory "timeout" "system" "system" "审批超时" (0 + 1)) 1%nat
    /\ (status <$> pending_approvals self' !! "a1") = Some "timeout"
    /\ database_service self' = database_service Demo.created.
Proof.
  refine (deadline_wakes_waiter Demo.users Demo.clock (fun _ => None)
    (fun _ => [Deadline "a1" "2024-01-01T10:00:30"])
    Demo.created "a1" "2024-01-01T10:00:30" (Demo.fresh "a1") 0%nat 0 0%nat
    0%nat _ _ _ _).
  - reflexivity.
  - reflexivity.
  - reflexivity.
  - reflexivity.
Defined.

(** X11.  A request that cannot be stored is refused before anything is
    registered.  When the project has owners but the server is
    unreachable, or the id built from project, environment, build and
    the second of the request is already a row (a second request for
    the same build within one second), [approval_wait] answers 500
    without waiting, and the registry, the events, the thread
    references and the store are what they were. *)
Theorem unstorable_request_is_refused (ps : PermissionService)
    (fromisoformat : string -> option datetime) (strptime : string -> option Z)
    (sched : nat -> list Action) (self : APIHandler)
    (prj e b v j dsc act : string) (timeout : option Z)
    (timestamp now expires now_str : string) (db : Db.DatabaseService) :
  let id := "approval-" +:+ prj +:+ "-" +:+ e +:+ "-" +:+ b +:+ "-"
            +:+ timestamp in
  get_project_owners ps prj <> [] ->
  database_service self = Some db ->
  Db.connectable db = false \/ is_Some (Db.approvals db !! id) ->
  let out := approval_wait ps fromisoformat strptime sched self prj e b v j
               dsc act timeout timestamp now expires now_str in
  out.1.2 = ErrorResponse 500 "❌ 创建审批请求失败"
  /\ out.2 = 0%nat
  /\ pending_approvals out.1.1 = pending_approvals self
  /\ _approval_events out.1.1 = _approval_events self
  /\ reminder_timers out.1.1 = reminder_timers self
  /\ database_service out.1.1 = Some db.
Proof.
  intros id Hown Hdb Hrow out. subst out. unfold approval_wait.
  destruct (get_project_owners ps prj) as [|o owners]; [done|].
  rewrite Hdb.
  assert (Hc : forall a, Db.request_id a = id ->
                         Db.create_approval db a now_str = (db, false)).
  { intros a Ha. unfold Db.create_approval. rewrite Ha.
    destruct (Db.connectable db); [|done].
    destruct Hrow as [Hrow | [r Hrow]]; [done|]. fold id in Hrow |- *.
    by rewrite Hrow. }
  rewrite Hc by reflexivity. cbn [negb]. by repeat split.
Qed.

Lemma unstorable_request_is_refused_witness :
  (approval_wait Demo.users Demo.clock (fun _ => None) (fun _ => [])
     Demo.unreachable "shop" "prod" "7" "1.0" "deploy" "release" "deploy"
     (Some 1) "1700000000" "2024-01-01T10:00:00" "2024-01-01T10:01:00"
     "2024-01-01 10:01:00").1.2
  = ErrorResponse 500 "❌ 创建审批请求失败".
Proof.
  refine (proj1
    (unstorable_request_is_refused Demo.users Demo.clock (fun _ => None)
       (fun _ => []) Demo.unreachable "shop" "prod" "7" "1.0" "deploy"
       "release" "deploy" (Some 1) "1700000000" "2024-01-01T10:00:00"
       "2024-01-01T10:01:00" "2024-01-01 10:01:00"
       {| Db.approvals := Db.approvals Demo.store;
          Db.approval_history := [];
          Db.connectable := false |} _ _ _)).
  - discriminate.
  - reflexivity.
  - left. reflexivity.
Defined.

(** ** The pace of the reminder thread *)

Section ReminderPace.
Variable permission_service : PermissionService.
Variable id : string.

Abbreviation run_from := (reminder_run permission_service id).

Lemma first_wait_silent (fuel : nat) :
  forall (obs : nat -> APIHandler) (n i : nat),
    (fuel + i <= 600)%nat ->
    (run_from fuel obs n (FirstWait i)).2 = [].
Proof.
  induction fuel as [|fuel IH]; intros obs n i Hle; [reflexivity|].
  cbn [reminder_run reminder_step].
  destruct (stop_requested id (obs n)).
  { by rewrite run_terminal. }
  match goal with
  | |- context [if ?c then (Stopped, []) else _] => destruct c
  end.
  { by rewrite run_terminal. }
  case_bool_decide as Hi.
  - specialize (IH obs (S n) (S i) ltac:(lia)).
    destruct (run_from fuel obs (S n) (FirstWait (S i))) as [p out].
    exact IH.
  - assert (fuel = 0%nat) as -> by lia. reflexivity.
Qed.

Lemma between_wait_silent (fuel : nat) :
  forall (obs : nat -> APIHandler) (n count i : nat)
         (ar : option Db.ApprovalRequest),
    (fuel + i <= 150)%nat ->
    (run_from fuel obs n (BetweenWait count i ar)).2 = [].
Proof.
  induction fuel as [|fuel IH]; intros obs n count i ar Hle; [reflexivity|].
  cbn [reminder_run reminder_step].
  destruct (stop_requested id (obs n)).
  { by rewrite run_terminal. }
  case_bool_decide as Hi.
  - specialize (IH obs (S n) count (S i) ar ltac:(lia)).
    destruct (run_from fuel obs (S n) (BetweenWait count (S i) ar))
      as [p out].
    exact IH.
  - assert (fuel = 0%nat) as -> by lia. reflexivity.
Qed.

(** X12.  The reminder thread keeps its pace whatever happens to the
    handler.  It sends nothing during its first 600 wake-ups (of half a
    second each: the first five minutes), and after a reminder that is
    not the last it sends nothing during its next 150 wake-ups (of two
    seconds each). *)
Theorem reminders_five_minutes_apart (obs : nat -> APIHandler)
    (fuel n count : nat) (ar : option Db.ApprovalRequest) :
  ((fuel <= 600)%nat ->
   (reminder_task permission_service id fuel obs).2 = [])
  /\ ((fuel <= 150)%nat ->
      (run_from fuel obs n (BetweenWait count 0 ar)).2 = []).
Proof.
  split; intros Hle.
  - apply first_wait_silent. lia.
  - apply between_wait_silent. lia.
Qed.

End ReminderPace.

Lemma reminders_five_minutes_apart_witness :
  (reminder_task Demo.users "a1" 600 (fun _ => Demo.created)).2 = [].
Proof.
  refine (proj1
    (reminders_five_minutes_apart Demo.users "a1" (fun _ => Demo.created)
       600 0 0 None) _).
  lia.
Defined.

(** ** The sweep and the bookkeeping sets *)

(** X13.  A round of the sweep bounds the stop set and empties the set
    of submissions in flight.  Afterwards the stop set holds at most
    100 ids, all of which it held before; when it held more than 100,
    it holds exactly 50.  No submission is marked as in flight any
    more, whether it has finished or not, and the thread references
    are untouched. *)
Theorem sweep_bounds_bookkeeping (fromisoformat : string -> option datetime)
    (strptime : string -> option Z) (self : APIHandler) (now : Z)
    (now_str : string) :
  let self' := cleanup_task fromisoformat strptime self now now_str in
  (size (_stopped_reminders self') <= 100)%nat
  /\ _stopped_reminders self' ⊆ _stopped_reminders self
  /\ ((100 < size (_stopped_reminders self))%nat ->
      size (_stopped_reminders self') = 50%nat)
  /\ ((size (_stopped_reminders self) <= 100)%nat ->
      _stopped_reminders self' = _stopped_reminders self)
  /\ _processing_approvals self' = ∅
  /\ reminder_timers self' = reminder_timers self.
Proof.
  intros self'. subst self'. unfold cleanup_task.
  cbn [_stopped_reminders _processing_approvals reminder_timers].
  set (stopped := elements (_stopped_reminders self)).
  assert (Hlen : length stopped = size (_stopped_reminders self))
    by reflexivity.
  assert (Hnd : NoDup stopped) by apply NoDup_elements.
  assert (Hdrop : forall k, NoDup (drop k stopped)).
  { intros k. exact (sublist_NoDup _ _ Hnd (sublist_drop stopped k)). }
  case_bool_decide as Hbig.
  - split.
    { rewrite size_list_to_set by apply Hdrop. rewrite length_drop. lia. }
    split.
    { intros x Hx. apply elem_of_list_to_set in Hx.
      apply elem_of_elements. eapply subseteq_drop. exact Hx. }
    split.
    { intros _. rewrite size_list_to_set by apply Hdrop.
      rewrite length_drop. lia. }
    split; [lia | done].
  - split; [lia|]. split; [done|]. split; [lia | done].
Qed.

Lemma sweep_bounds_bookkeeping_witness :
  _stopped_reminders
    (cleanup_task Demo.clock (fun _ => None) Demo.created 0
       "2024-01-01 10:00:00")
  = _stopped_reminders Demo.created.
Proof.
  refine (proj1 (proj2 (proj2 (proj2
    (sweep_bounds_bookkeeping Demo.clock (fun _ => None) Demo.created 0
       "2024-01-01 10:00:00")))) _).
  vm_compute. lia.
Defined.

Lemma submission_touches_only_its_id_witness :
  pending_approvals
    (process_approval_internal Demo.users Demo.two_records "a1" "approved"
       "web_user" "alice" "ok" "2024-01-01T10:00:30").1 !! "g1"
  = pending_approvals Demo.two_records !! "g1".
Proof.
  refine (proj1 (proj2 (proj2
    (submission_touches_only_its_id Demo.users Demo.two_records "a1"
       "approved" "web_user" "alice" "ok" "2024-01-01T10:00:30")) "g1" _)).
  discriminate.
Defined.

(** ** The web endpoints, one after the other *)

Section WebOrder.
Variable permission_service : PermissionService.

Abbreviation approve_web := (approve_request permission_service).
Abbreviation reject_web := (reject_request permission_service).

Lemma web_refused (self : APIHandler) (id : string) (d : ApprovalData)
    (approver_arg comment_arg : option string) (now now_str : string) :
  pending_approvals self !! id = Some d ->
  status d <> "pending" ->
  id ∉ _processing_approvals self ->
  (http_status (approve_web self id approver_arg comment_arg now now_str).2
   = 400
   /\ web_message (approve_web self id approver_arg comment_arg now now_str).2
      = "❌ 审批处理失败：" +:+ already_processed (status d)
   /\ pending_approvals
        (approve_web self id approver_arg comment_arg now now_str).1
      = pending_approvals self)
  /\ (http_status (reject_web self id approver_arg comment_arg now now_str).2
      = 400
      /\ web_message
           (reject_web self id approver_arg comment_arg now now_str).2
         = "❌ 拒绝处理失败：" +:+ already_processed (status d)
      /\ pending_approvals
           (reject_web self id approver_arg comment_arg now now_str).1
         = pending_approvals self).
Proof.
  intros Hd Hs Hin. split.
  - unfold approve_request.
    destruct (process_resolved permission_service self id d "approved"
                "web_user"
                (web_approver_username permission_service self id
                   approver_arg)
                (default "Web界面审批" comment_arg) now Hd Hs) as [H1 H2].
    rewrite (bool_decide_eq_false_2 _ Hin) in H2.
    destruct (process_approval_internal _ _ _ _ _ _ _ _) as [s [ok msg]].
    cbn [fst snd] in H1, H2. injection H2 as -> ->. done.
  - unfold reject_request.
    destruct (process_resolved permission_service self id d "rejected"
                "web_user"
                (web_approver_username permission_service self id
                   approver_arg)
                (default "Web界面拒绝" comment_arg) now Hd Hs) as [H1 H2].
    rewrite (bool_decide_eq_false_2 _ Hin) in H2.
    destruct (process_approval_internal _ _ _ _ _ _ _ _) as [s [ok msg]].
    cbn [fst snd] in H1, H2. injection H2 as -> ->. done.
Qed.

(** X14.  At the web endpoints the first decision wins.  On a pending
    record with no submission in flight, an approval followed by a
    rejection (by anybody, with any comment) answers 200 and then 400,
    the second answer saying that the approval was already passed, and
    the record stays approved by the first caller; a rejection followed
    by an approval answers 200 and then 400, saying that it was already
    rejected, and the record stays rejected. *)
Theorem web_first_decision_wins (self : APIHandler) (id : string)
    (d : ApprovalData) (a1 c1 a2 c2 : option string)
    (t1 s1 t2 s2 : string) :
  pending_approvals self !! id = Some d ->
  status d = "pending" ->
  id ∉ _processing_approvals self ->
  (let first := approve_web self id a1 c1 t1 s1 in
   let second := reject_web first.1 id a2 c2 t2 s2 in
   http_status first.2 = 200
   /\ http_status second.2 = 400
   /\ web_message second.2
      = "❌ 拒绝处理失败：该审批已被通过，无法重复操作"
   /\ pending_approvals second.1 = pending_approvals first.1
   /\ (status <$> pending_approvals second.1 !! id) = Some "approved"
   /\ (approver <$> pending_approvals second.1 !! id)
      = Some (Some (web_approver_username permission_service self id a1)))
  /\ (let first := reject_web self id a1 c1 t1 s1 in
      let second := approve_web first.1 id a2 c2 t2 s2 in
      http_status first.2 = 200
      /\ http_status second.2 = 400
      /\ web_message second.2
         = "❌ 审批处理失败：该审批已被拒绝，无法重复操作"
      /\ pending_approvals second.1 = pending_approvals first.1
      /\ (status <$> pending_approvals second.1 !! id) = Some "rejected"
      /\ (approver <$> pending_approvals second.1 !! id)
         = Some (Some (web_approver_username permission_service self id
                         a1))).
Proof.
  intros Hd Hs Hin. split.
  - intros first second. subst second first.
    destruct (approve_pending permission_service self id d a1 c1 t1 s1
                Hd Hs Hin) as (H1 & _ & H3 & H4).
    set (first := approve_web self id a1 c1 t1 s1) in *.
    assert (Hin1 : id ∉ _processing_approvals first.1).
    { subst first. unfold approve_request.
      pose proof (process_mark_restored permission_service self id
                    "approved" "web_user"
                    (web_approver_username permission_service self id a1)
                    (default "Web界面审批" c1) t1) as Hp.
      destruct (process_approval_internal _ _ _ _ _ _ _ _) as [s [ok msg]].
      cbn [fst] in Hp. destruct ok; cbn [fst]; by rewrite Hp. }
    destruct (pending_approvals first.1 !! id) as [d1|] eqn:Hd1;
      [|discriminate].
    cbn in H3. injection H3 as H3.
    assert (Hs1 : status d1 <> "pending") by (rewrite H3; discriminate).
    destruct (web_refused first.1 id d1 a2 c2 t2 s2 Hd1 Hs1 Hin1)
      as [_ (R1 & R2 & R3)].
    split; [done|]. split; [done|]. split.
    { rewrite R2, H3. reflexivity. }
    split; [done|]. rewrite R3, Hd1. cbn. rewrite H3. split; [done|].
    exact H4.
  - intros first second. subst second first.
    destruct (reject_pending permission_service self id d a1 c1 t1 s1
                Hd Hs Hin) as (H1 & _ & H3 & H4).
    set (first := reject_web self id a1 c1 t1 s1) in *.
    assert (Hin1 : id ∉ _processing_approvals first.1).
    { subst first. unfold reject_request.
      pose proof (process_mark_restored permission_service self id
                    "rejected" "web_user"
                    (web_approver_username permission_service self id a1)
                    (default "Web界面拒绝" c1) t1) as Hp.
      destruct (process_approval_internal _ _ _ _ _ _ _ _) as [s [ok msg]].
      cbn [fst] in Hp. destruct ok; cbn [fst]; by rewrite Hp. }
    destruct (pending_approvals first.1 !! id) as [d1|] eqn:Hd1;
      [|discriminate].
    cbn in H3. injection H3 as H3.
    assert (Hs1 : status d1 <> "pending") by (rewrite H3; discriminate).
    destruct (web_refused first.1 id d1 a2 c2 t2 s2 Hd1 Hs1 Hin1)
      as [(R1 & R2 & R3) _].
    split; [done|]. split; [done|]. split.
    { rewrite R2, H3. reflexivity. }
    split; [done|]. rewrite R3, Hd1. cbn. rewrite H3. split; [done|].
    exact H4.
Qed.

End WebOrder.

Lemma web_first_decision_wins_witness :
  http_status
    (reject_request Demo.users
       (approve_request Demo.users Demo.created "a1" (Some "alice")
          (Some "ok") "2024-01-01T10:00:30" "2024-01-01 10:00:30").1
       "a1" (Some "bob") (Some "no") "2024-01-01T10:00:31"
       "2024-01-01 10:00:31").2
  = 400.
Proof.
  refine (proj1 (proj2 (proj1
    (web_first_decision_wins Demo.users Demo.created "a1" (Demo.fresh "a1")
       (Some "alice") (Some "ok") (Some "bob") (Some "no")
       "2024-01-01T10:00:30" "2024-01-01 10:00:30"
       "2024-01-01T10:00:31" "2024-01-01 10:00:31" _ _ _)))).
  - reflexivity.
  - reflexivity.
  - vm_compute. discriminate.
Defined.

(** ** The durable decision path: [_handle_approval] *)

Section HandleApprovalFacts.
Variable permission_service : PermissionService.

Abbreviation handle := (_handle_approval permission_service).

(** X15.  [_handle_approval] writes a decision to the store and to the
    record alike.  The record is pending with no submission in flight,
    and the durable row is pending and free for the user (unlocked, or
    locked by the user, or locked with an expired lock).  Then the call
    succeeds; the status is ["approved"] when the action is the string
    ["approved"] and ["rejected"] for every other action; record and
    row both carry this status, the user, the role and the comment
    ["Telegram <action>"]; the row is unlocked, the event of the id is
    set, and the mark of the submission is taken back.  A waiter that
    then runs the code after its loop answers with this decision. *)
Theorem handle_approval_writes_both (self : APIHandler)
    (id act user_name lock_now update_now now_str : string) (expired : bool)
    (waited : Z) (d : ApprovalData) (db : Db.DatabaseService)
    (r : Db.ApprovalRequest) :
  id ∉ _processing_approvals self ->
  pending_approvals self !! id = Some d ->
  status d = "pending" ->
  database_service self = Some db ->
  Db.connectable db = true ->
  Db.approvals db !! id = Some r ->
  Db.status r = Db.PENDING ->
  Db.is_locked r = false
  \/ Db.approver r = Some user_name
  \/ (is_Some (Db.lock_timestamp r) /\ expired = true) ->
  let st := if bool_decide (act = "approved") then "approved"
            else "rejected" in
  let role := handle_role permission_service user_name in
  let cmt := "Telegram " +:+ act in
  let out := handle self id act user_name lock_now update_now expired in
  (exists msg, out.2 = HandleSuccess st msg id user_name role)
  /\ pending_approvals out.1 !! id
     = Some (set_decider (set_status d st) user_name role cmt update_now)
  /\ _approval_events out.1 !! id = Some true
  /\ _processing_approvals out.1 = _processing_approvals self
  /\ (exists db' r',
        database_service out.1 = Some db'
        /\ Db.get_approval db' id = Some r'
        /\ Db.status r' = st
        /\ Db.approver r' = Some user_name
        /\ Db.approver_role r' = Some role
        /\ Db.comment r' = Some cmt
        /\ Db.is_locked r' = false)
  /\ (wait_epilogue out.1 id waited now_str).2
     = LastMoment st (Some user_name) (Some role) (Some cmt) waited.
Proof.
  intros Hin Hd Hs Hdb Hc Hr Hrs Hfree st role cmt out.
  assert (Hst : st = if bool_decide (act = "approved")
                     then Db.APPROVED else Db.REJECTED) by reflexivity.
  set (db1 := Db.with_approvals db
                (<[id := Db.set_lock r lock_now 60 user_name]>
                   (Db.approvals db))).
  assert (Hc1 : Db.connectable db1 = true) by done.
  assert (Hr1 : Db.approvals db1 !! id
                = Some (Db.set_lock r lock_now 60 user_name)).
  { subst db1. cbn [Db.with_approvals Db.approvals].
    apply lookup_insert_eq. }
  set (r2 := Db.set_decision (Db.set_lock r lock_now 60 user_name)
               st user_name role cmt update_now).
  set (db2 := Db._add_history
                (Db.with_approvals db1 (<[id := r2]> (Db.approvals db1)))
                id st user_name role cmt update_now).
  assert (Hc2 : Db.connectable db2 = true) by done.
  assert (Hr2 : Db.approvals db2 !! id = Some r2).
  { subst db2. cbn [Db._add_history Db.with_approvals Db.approvals].
    apply lookup_insert_eq. }
  set (db3 := Db.with_approvals db2
                (<[id := Db.clear_lock r2]> (Db.approvals db2))).
  assert (Hu : Db.unlock_approval db2 id = (db3, true)).
  { unfold Db.unlock_approval. by rewrite Hc2, Hr2. }
  assert (Hout : exists s,
            out = (s, HandleSuccess st
                        ("✅ 审批" +:+ (if bool_decide (st = "approved")
                                        then "已通过" else "已拒绝")
                         +:+ "！") id user_name role)
            /\ pending_approvals s !! id
               = Some (set_decider (set_status d st) user_name role cmt
                         update_now)
            /\ _approval_events s !! id = Some true
            /\ _processing_approvals s = _processing_approvals self
            /\ database_service s = Some db3).
  { subst out. unfold _handle_approval.
    rewrite (bool_decide_eq_false_2 _ Hin). cbv zeta.
    cbn [with_processing pending_approvals database_service].
    rewrite Hd, Hs.
    rewrite (bool_decide_eq_true_2 ("pending" = Db.PENDING)) by reflexivity.
    cbn [negb]. rewrite Hdb.
    rewrite (lock_free db id user_name 60 lock_now expired r Hc Hr Hfree).
    fold db1. cbn [negb].
    rewrite <- Hst. fold role cmt.
    rewrite (update_locked db1 id st user_name role cmt update_now _ Hc1 Hr1
               Hrs eq_refl eq_refl).
    fold r2 db2. cbn [Db.success].
    cbn [with_database with_processing pending_approvals]. rewrite Hd, Hu.
    eexists. split; [reflexivity|].
    cbn [fst with_processing with_database with_events with_pending
         pending_approvals _approval_events _processing_approvals
         database_service _cancel_reminder_timer].
    rewrite lookup_insert_eq.
    assert (Hne : status (set_decider (set_status d st) user_name role cmt
                            update_now) <> "pending").
    { cbn. subst st. case_bool_decide; discriminate. }
    rewrite (bool_decide_eq_false_2 _ Hne).
    split; [apply lookup_insert_eq|].
    split; [apply lookup_insert_eq|].
    split; [by apply mark_and_unmark | reflexivity]. }
  destruct Hout as (s & -> & Hp & He & Hm & Hd3).
  cbn [fst snd].
  assert (Hg : Db.get_approval db3 id = Some (Db.clear_lock r2)).
  { unfold Db.get_approval. subst db3.
    cbn [Db.with_approvals Db.connectable Db.approvals]. rewrite Hc2.
    apply lookup_insert_eq. }
  split; [by eexists|]. split; [done|]. split; [done|]. split; [done|].
  split.
  { exists db3, (Db.clear_lock r2). by repeat split. }
  rewrite (epilogue_last_moment s id waited now_str db3 (Db.clear_lock r2)
             Hd3 Hg).
  - reflexivity.
  - cbn. subst st. case_bool_decide; discriminate.
Qed.

(** X16.  [_handle_approval] trusts the record.  When the record is
    still pending but the durable row has been resolved (by the durable
    sweep, for one) and is unlocked, the call locks the row before the
    update finds out: it is refused as already processed, with a message
    that gives the status of the row and names the caller as its
    operator; the row keeps its status but now has the caller in its
    approver column and stays locked; the record is not changed. *)
Theorem handle_approval_on_stale_record (self : APIHandler)
    (id act user_name lock_now update_now : string) (expired : bool)
    (d : ApprovalData) (db : Db.DatabaseService) (r : Db.ApprovalRequest) :
  id ∉ _processing_approvals self ->
  pending_approvals self !! id = Some d ->
  status d = "pending" ->
  database_service self = Some db ->
  Db.connectable db = true ->
  Db.approvals db !! id = Some r ->
  Db.status r <> Db.PENDING ->
  Db.is_locked r = false ->
  let out := handle self id act user_name lock_now update_now expired in
  out.2 = HandleError ("❌ 审批已处理！当前状态: " +:+ Db.status r +:+
                       ", 操作人: " +:+ user_name +:+ "，请勿重复操作")
  /\ pending_approvals out.1 = pending_approvals self
  /\ _processing_approvals out.1 = _processing_approvals self
  /\ (exists db' r',
        database_service out.1 = Some db'
        /\ Db.get_approval db' id = Some r'
        /\ Db.status r' = Db.status r
        /\ Db.approver r' = Some user_name
        /\ Db.is_locked r' = true).
Proof.
  intros Hin Hd Hs Hdb Hc Hr Hrs Hl out.
  set (db1 := Db.with_approvals db
                (<[id := Db.set_lock r lock_now 60 user_name]>
                   (Db.approvals db))).
  assert (Hc1 : Db.connectable db1 = true) by done.
  assert (Hr1 : Db.approvals db1 !! id
                = Some (Db.set_lock r lock_now 60 user_name)).
  { subst db1. cbn [Db.with_approvals Db.approvals].
    apply lookup_insert_eq. }
  subst out. unfold _handle_approval.
  rewrite (bool_decide_eq_false_2 _ Hin). cbv zeta.
  cbn [with_processing pending_approvals database_service].
  rewrite Hd, Hs.
  rewrite (bool_decide_eq_true_2 ("pending" = Db.PENDING)) by reflexivity.
  cbn [negb]. rewrite Hdb.
  rewrite (lock_free db id user_name 60 lock_now expired r Hc Hr
             (or_introl Hl)).
  fold db1. cbn [negb].
  unfold Db.update_approval_status. rewrite Hc1, Hr1.
  cbn [Db.set_lock Db.status Db.approver Db.fmt default].
  rewrite (bool_decide_eq_false_2 _ Hrs).
  cbn [negb Db.success Db.message fst snd with_database with_processing
       pending_approvals _processing_approvals database_service].
  split; [reflexivity|]. split; [reflexivity|].
  split; [by apply mark_and_unmark|].
  exists db1, (Db.set_lock r lock_now 60 user_name).
  split; [reflexivity|]. split; [|by repeat split].
  unfold Db.get_approval. by rewrite Hc1.
Qed.

End HandleApprovalFacts.

Lemma handle_approval_writes_both_witness :
  exists msg,
    (_handle_approval Demo.users Demo.created "a1" "approved" "alice"
       "2024-01-01 10:00:30" "2024-01-01 10:00:31" false).2
    = HandleSuccess "approved" msg "a1" "alice"
        (handle_role Demo.users "alice").
Proof.
  refine (proj1
    (handle_approval_writes_both Demo.users Demo.created "a1" "approved"
       "alice" "2024-01-01 10:00:30" "2024-01-01 10:00:31"
       "2024-01-01 10:01:00" false 60 (Demo.fresh "a1") Demo.store
       (Demo.row "a1") _ _ _ _ _ _ _ _)).
  - vm_compute. discriminate.
  - reflexivity.
  - reflexivity.
  - reflexivity.
  - reflexivity.
  - reflexivity.
  - reflexivity.
  - left. reflexivity.
Defined.

Lemma handle_approval_on_stale_record_witness :
  (_handle_approval Demo.users
     (with_database Demo.created
        (Some (Db.cleanup_expired_approvals (fun _ => Some 0) Demo.store
                 61000000 "2024-01-01 10:01:01")))
     "a1" "approved" "bob" "2024-01-01 10:02:00" "2024-01-01 10:02:01"
     false).2
  = HandleError ("❌ 审批已处理！当前状态: timeout, 操作人: bob，请勿重复操作").
Proof.
  refine (proj1
    (handle_approval_on_stale_record Demo.users
       (with_database Demo.created
          (Some (Db.cleanup_expired_approvals (fun _ => Some 0) Demo.store
                   61000000 "2024-01-01 10:01:01")))
       "a1" "approved" "bob" "2024-01-01 10:02:00" "2024-01-01 10:02:01"
       false (Demo.fresh "a1")
       (Db.cleanup_expired_approvals (fun _ => Some 0) Demo.store
          61000000 "2024-01-01 10:01:01")
       (Db.set_timeout (Demo.row "a1") "2024-01-01 10:01:01")
       _ _ _ _ _ _ _ _)).
  - vm_compute. discriminate.
  - reflexivity.
  - reflexivity.
  - reflexivity.
  - reflexivity.
  - vm_compute. reflexivity.
  - discriminate.
  - reflexivity.
Defined.

(** ** The Telegram webhook *)

Lemma split_colon_join (a b : string) :
  split_colon a = None ->
  split_colon (a +:+ String ":"%char b) = Some (a, b).
Proof.
  induction a as [|c a IH]; intros Ha; [reflexivity|].
  simpl in *. destruct (bool_decide (c = ":"%char)); [discriminate|].
  destruct (split_colon a) as [p|] eqn:Hp; [discriminate|].
  by rewrite IH.
Qed.

(** X17.  Reading a button back.  [split_colon] answers [Some (a, b)]
    exactly for the strings made of a text [a] without a colon, one
    colon, and any text [b]: what follows the first colon is kept
    whole, further colons included. *)
Theorem split_colon_spec (s a b : string) :
  split_colon s = Some (a, b)
  <-> s = a +:+ ":" +:+ b /\ split_colon a = None.
Proof.
  split.
  - revert a. induction s as [|c s IH]; intros a H; [discriminate|].
    cbn [split_colon] in H. case_bool_decide as Hc.
    + injection H as <- <-. subst c. by split.
    + destruct (split_colon s) as [[a' b']|] eqn:Hs; [|discriminate].
      cbn in H. injection H as <- <-.
      destruct (IH a' eq_refl) as [-> Ha']. split; [reflexivity|].
      cbn [split_colon]. rewrite (bool_decide_eq_false_2 _ Hc).
      by rewrite Ha'.
  - intros [-> Ha]. exact (split_colon_join a b Ha).
Qed.

Section WebhookFacts.
Variable permission_service : PermissionService.

Abbreviation webhook := (telegram_webhook permission_service).

(** X18.  A click on a button of the approval message decides the
    approval it was made for.  For a pending record with no submission
    in flight, the webhook called with the data of the approve button
    of its id (whatever the id is, colons included) answers success and
    the record is approved; with the data of the reject button it is
    rejected.  The decider recorded is the user name of the click, or
    the first name when there is none, or ["Unknown"]; the webhook
    makes no permission check on it. *)
Theorem webhook_click_decides (self : APIHandler) (id now : string)
    (d : ApprovalData) (cq : CallbackQuery) :
  pending_approvals self !! id = Some d ->
  status d = "pending" ->
  id ∉ _processing_approvals self ->
  let user_name :=
    default (default "Unknown" (cq_first_name cq)) (cq_username cq) in
  (cq_data cq = Some (approve_button id) ->
   let out := webhook self (Some (Some cq)) now in
   out.2 = WebhookResult true "审批approved成功"
   /\ (status <$> pending_approvals out.1 !! id) = Some "approved"
   /\ (approver <$> pending_approvals out.1 !! id) = Some (Some user_name)
   /\ (comment <$> pending_approvals out.1 !! id)
      = Some (Some "Telegram回调审批"))
  /\ (cq_data cq = Some (reject_button id) ->
      let out := webhook self (Some (Some cq)) now in
      out.2 = WebhookResult true "审批rejected成功"
      /\ (status <$> pending_approvals out.1 !! id) = Some "rejected"
      /\ (approver <$> pending_approvals out.1 !! id)
         = Some (Some user_name)
      /\ (comment <$> pending_approvals out.1 !! id)
         = Some (Some "Telegram回调审批")).
Proof.
  intros Hd Hs Hin user_name. split; intros Hdata out; subst out.
  - unfold telegram_webhook. rewrite Hdata.
    change (split_colon (default "" (Some (approve_button id))))
      with (Some ("approve", id)).
    cbv beta iota.
    rewrite (bool_decide_eq_true_2 ("approve" = "approve")) by reflexivity.
    fold user_name.
    destruct (process_pending permission_service self id d "approved"
                "telegram_user" user_name "Telegram回调审批" now Hd Hs Hin)
      as [Hp1 Hp2].
    destruct (process_approval_internal _ _ _ _ _ _ _ _) as [s [ok msg]].
    cbn [fst snd] in Hp1, Hp2 |- *. injection Hp2 as -> ->.
    rewrite Hp1. by repeat split.
  - unfold telegram_webhook. rewrite Hdata.
    change (split_colon (default "" (Some (reject_button id))))
      with (Some ("reject", id)).
    cbv beta iota.
    rewrite (bool_decide_eq_false_2 ("reject" = "approve")) by discriminate.
    rewrite (bool_decide_eq_true_2 ("reject" = "reject")) by reflexivity.
    fold user_name.
    destruct (process_pending permission_service self id d "rejected"
                "telegram_user" user_name "Telegram回调审批" now Hd Hs Hin)
      as [Hp1 Hp2].
    destruct (process_approval_internal _ _ _ _ _ _ _ _) as [s [ok msg]].
    cbn [fst snd] in Hp1, Hp2 |- *. injection Hp2 as -> ->.
    rewrite Hp1. by repeat split.
Qed.

End WebhookFacts.

Lemma webhook_click_decides_witness :
  (telegram_webhook Chat.users Demo.created
     (Some (Some (Chat.click (approve_button "a1") "mallory")))
     "2024-01-01T10:00:30").2
  = WebhookResult true "审批approved成功".
Proof.
  refine (proj1 (proj1
    (webhook_click_decides Chat.users Demo.created "a1"
       "2024-01-01T10:00:30" (Demo.fresh "a1")
       (Chat.click (approve_button "a1") "mallory") _ _ _) _)).
  - reflexivity.
  - reflexivity.
  - vm_compute. discriminate.
  - reflexivity.
Defined.

(** ** The buttons and commands of the Telegram handler *)

Section TelegramFacts.
Variable permission_service : PermissionService.
Variable user_permissions : string -> list string.
Variable user_is_admin : string -> bool.
Variable post_proceed : string -> bool.

Abbreviation button :=
  (_button_handler permission_service user_permissions user_is_admin
     post_proceed).
Abbreviation may :=
  (check_permission permission_service user_permissions user_is_admin).

(** X19.  The button handler decides nothing without permission.  If a
    click changes the Telegram handler (the API handler or the manager
    behind it) or is answered with the text of a decision, then the
    user has an entry in the permission service, the data of the click
    reads as [approve:<id>] or [reject:<id>], and the user holds the
    permission of that name or is an administrator. *)
Theorem button_needs_permission (self : TelegramHandler)
    (callback_data user_name now now_str rej_now : string) (rej_ts : Z) :
  let out := button self callback_data user_name now now_str rej_now rej_ts in
  (out.1 <> self
   \/ exists a p e b v u i, out.2 = EditedDecision a p e b v u i) ->
  is_Some (get_user_info permission_service user_name)
  /\ exists act id,
       split_colon callback_data = Some (act, id)
       /\ (act = "approve" \/ act = "reject")
       /\ (act ∈ user_permissions user_name
           \/ user_is_admin user_name = true).
Proof.
  intros out H. subst out. unfold _button_handler in H.
  assert (Hno : forall text,
            ~ ((self, Edited text).1 <> self
               \/ exists a p e b v u i,
                    (self, Edited text).2 = EditedDecision a p e b v u i)).
  { intros text [Hne | (a & p & e & b & v & u & i & Heq)];
      [by apply Hne | discriminate]. }
  destruct (split_colon callback_data) as [[act id]|] eqn:Hsplit;
    [|by apply Hno in H].
  unfold check_permission in H |- *.
  destruct (get_user_info permission_service user_name) as [ui|] eqn:Hu;
    [|by apply Hno in H].
  cbn [negb] in H. split; [by eexists|].
  exists act, id. split; [reflexivity|].
  case_bool_decide as Ha.
  - subst act. split; [by left|].
    destruct (bool_decide ("approve" ∈ user_permissions user_name)) eqn:Hp.
    + left. by apply bool_decide_eq_true_1 in Hp.
    + destruct (user_is_admin user_name); [by right|].
      cbn [orb negb] in H. by apply Hno in H.
  - case_bool_decide as Hr.
    + subst act. split; [by right|].
      destruct (bool_decide ("reject" ∈ user_permissions user_name)) eqn:Hp.
      * left. by apply bool_decide_eq_true_1 in Hp.
      * destruct (user_is_admin user_name); [by right|].
        cbn [orb negb] in H. by apply Hno in H.
    + case_bool_decide; by apply Hno in H.
Qed.

(** X20.  The buttons of [send_approval_notification] of the Telegram
    handler cannot be used.  Their data is [approve_<id>] and
    [reject_<id>], with an underscore; for every id and every user the
    button handler answers a click on them with a refusal text and
    changes nothing. *)
Theorem legacy_buttons_decide_nothing (self : TelegramHandler)
    (id user_name now now_str rej_now : string) (rej_ts : Z) :
  (let out := button self (legacy_approve_button id) user_name now now_str
                rej_now rej_ts in
   out.1 = self /\ exists text, out.2 = Edited text)
  /\ (let out := button self (legacy_reject_button id) user_name now now_str
                   rej_now rej_ts in
      out.1 = self /\ exists text, out.2 = Edited text).
Proof.
  split.
  - intros out. subst out. unfold _button_handler, legacy_approve_button.
    change ("approve_" +:+ id)
      with (String "a" (String "p" (String "p" (String "r" (String "o"
              (String "v" (String "e" (String "_" id)))))))).
    cbn [split_colon]. rewrite !bool_decide_eq_false_2 by discriminate.
    destruct (split_colon id) as [[a b]|]; [|by eauto].
    cbn [fmap option_fmap option_map fst snd].
    destruct (may user_name None); cbn [negb]; [|by eauto].
    rewrite !bool_decide_eq_false_2 by discriminate. by eauto.
  - intros out. subst out. unfold _button_handler, legacy_reject_button.
    change ("reject_" +:+ id)
      with (String "r" (String "e" (String "j" (String "e" (String "c"
              (String "t" (String "_" id))))))).
    cbn [split_colon]. rewrite !bool_decide_eq_false_2 by discriminate.
    destruct (split_colon id) as [[a b]|]; [|by eauto].
    cbn [fmap option_fmap option_map fst snd].
    destruct (may user_name None); cbn [negb]; [|by eauto].
    rewrite !bool_decide_eq_false_2 by discriminate. by eauto.
Qed.

End TelegramFacts.

Lemma button_needs_permission_witness :
  is_Some (get_user_info Chat.users "alice")
  /\ exists act id,
       split_colon "approve:a1" = Some (act, id)
       /\ (act = "approve" \/ act = "reject")
       /\ (act ∈ Chat.permissions "alice" \/ Chat.no_admin "alice" = true).
Proof.
  apply (button_needs_permission Chat.users Chat.permissions Chat.no_admin
           (fun _ => false) Chat.wired "approve:a1" "alice"
           "2024-01-01T10:00:30" "2024-01-01 10:00:30" "2024-01-01 10:00:30"
           0).
  right.
  exists "approved", "shop", "prod", "7", "1.0",
    (get_user_display_name Chat.users "alice"), "a1".
  vm_compute. reflexivity.
Defined.

Section TelegramFallback.
Variable permission_service : PermissionService.
Variable user_permissions : string -> list string.
Variable user_is_admin : string -> bool.
Variable post_proceed : string -> bool.

Abbreviation button' :=
  (_button_handler permission_service user_permissions user_is_admin
     post_proceed).

(** X21.  Without the API handler a user who may only reject cannot
    reject.  The button handler lets the click on a reject button pass,
    for the user holds the permission ["reject"]; the manager it falls
    back to asks for the permission ["approve"].  The click changes
    nothing and is answered as a failure: with "权限不足" for a pending
    approval, and with the manager's refusal for an unknown or decided
    one. *)
Theorem fallback_reject_needs_approve (self : TelegramHandler)
    (id user_name now now_str rej_now : string) (rej_ts : Z) :
  api_handler self = None ->
  is_Some (get_user_info permission_service user_name) ->
  "reject" ∈ user_permissions user_name ->
  "approve" ∉ user_permissions user_name ->
  user_is_admin user_name = false ->
  let out := button' self (reject_button id) user_name now now_str rej_now
               rej_ts in
  out.1 = self
  /\ out.2
     = Edited ("❌ 操作失败" +:+ nl +:+ nl +:+
               match Mgr.get_approval (approval_manager self) id with
               | None => "审批ID不存在"
               | Some a =>
                   if bool_decide (Mgr.status a = "pending")
                   then "权限不足" else "审批已被处理"
               end).
Proof.
  intros Hapi [ui Hu] Hrej Happ Hadm out. subst out.
  unfold _button_handler, reject_button.
  change (split_colon ("reject:" +:+ id)) with (Some ("reject", id)).
  cbv beta iota. unfold check_permission. rewrite Hu. cbn [negb].
  rewrite (bool_decide_eq_false_2 ("reject" = "approve")) by discriminate.
  rewrite (bool_decide_eq_true_2 ("reject" = "reject")) by reflexivity.
  rewrite (bool_decide_eq_true_2 _ Hrej). cbn [orb negb].
  unfold _process_approval_action. rewrite Hapi.
  unfold manager_process, Mgr.process_approval, check_approver_permission,
    check_permission.
  rewrite Hu, Hadm, (bool_decide_eq_false_2 _ Happ). cbn [orb negb].
  destruct self as [api m]. cbn [api_handler approval_manager] in *.
  subst api.
  destruct (Mgr.get_approval m id) as [a|]; [|done].
  case_bool_decide; done.
Qed.

Abbreviation approve_cmd :=
  (_cmd_approve permission_service user_permissions user_is_admin
     post_proceed).
Abbreviation reject_cmd :=
  (_cmd_reject permission_service user_permissions user_is_admin
     post_proceed).

(** X22.  The commands [/approve <id>] and [/reject <id>] decide for
    anybody when the API handler is set.  For a pending record with no
    submission in flight the command succeeds whoever sends it: no
    permission is looked up.  The record is approved, respectively
    rejected, under the name given by the sender (the user name, or
    the first name), and the reply names the id and the first name.
    Without an argument the command replies with its usage and changes
    nothing. *)
Theorem commands_check_no_permission (self : TelegramHandler)
    (h : APIHandler) (id : string) (rest : list string) (user_id : Z)
    (name first_name now now_str rej_now : string) (rej_ts : Z)
    (d : ApprovalData) :
  api_handler self = Some h ->
  pending_approvals h !! id = Some d ->
  status d = "pending" ->
  id ∉ _processing_approvals h ->
  (let out := approve_cmd self (id :: rest) user_id name first_name now
                now_str rej_now rej_ts in
   out.2 = "审批成功" +:+ nl +:+ nl +:+ "审批ID: " +:+ id +:+ nl
           +:+ "处理人: " +:+ first_name +:+ nl +:+ nl +:+ "构建将继续执行"
   /\ exists h',
        api_handler out.1 = Some h'
        /\ (status <$> pending_approvals h' !! id) = Some "approved"
        /\ (approver <$> pending_approvals h' !! id) = Some (Some name))
  /\ (let out := reject_cmd self (id :: rest) user_id name first_name now
                   now_str rej_now rej_ts in
      out.2 = "审批拒绝" +:+ nl +:+ nl +:+ "审批ID: " +:+ id +:+ nl
              +:+ "处理人: " +:+ first_name +:+ nl +:+ nl +:+ "构建已停止"
      /\ exists h',
           api_handler out.1 = Some h'
           /\ (status <$> pending_approvals h' !! id) = Some "rejected"
           /\ (approver <$> pending_approvals h' !! id) = Some (Some name))
  /\ (approve_cmd self [] user_id name first_name now now_str rej_now rej_ts
      = (self, "请提供审批ID" +:+ nl +:+ nl
               +:+ "使用: /approve <approval_id>"))
  /\ (reject_cmd self [] user_id name first_name now now_str rej_now rej_ts
      = (self, "请提供审批ID" +:+ nl +:+ nl
               +:+ "使用: /reject <approval_id>")).
Proof.
  intros Hapi Hd Hs Hin. split; [|split; [|by split]].
  - intros out. subst out. unfold _cmd_approve, command. rewrite Hapi.
    destruct (process_pending permission_service h id d "approved"
                (pretty user_id) name "Telegram审批" now Hd Hs Hin)
      as [Hp1 Hp2].
    destruct (process_approval_internal _ _ _ _ _ _ _ _) as [s [ok msg]].
    cbn [fst snd] in Hp1, Hp2 |- *. injection Hp2 as -> ->.
    split; [reflexivity|]. exists s. rewrite Hp1. by repeat split.
  - intros out. subst out. unfold _cmd_reject, command. rewrite Hapi.
    destruct (process_pending permission_service h id d "rejected"
                (pretty user_id) name "Telegram审批" now Hd Hs Hin)
      as [Hp1 Hp2].
    destruct (process_approval_internal _ _ _ _ _ _ _ _) as [s [ok msg]].
    cbn [fst snd] in Hp1, Hp2 |- *. injection Hp2 as -> ->.
    split; [reflexivity|]. exists s. rewrite Hp1. by repeat split.
Qed.

End TelegramFallback.

Lemma fallback_reject_needs_approve_witness :
  (_button_handler Chat.users Chat.permissions Chat.no_admin (fun _ => false)
     Chat.unwired (reject_button "deploy-#7-prod") "carol"
     "2024-01-01T10:00:30" "2024-01-01 10:00:30" "2024-01-01 10:00:30" 0).1
  = Chat.unwired.
Proof.
  refine (proj1
    (fallback_reject_needs_approve Chat.users Chat.permissions Chat.no_admin
       (fun _ => false) Chat.unwired "deploy-#7-prod" "carol"
       "2024-01-01T10:00:30" "2024-01-01 10:00:30" "2024-01-01 10:00:30" 0
       _ _ _ _ _)).
  - reflexivity.
  - by eexists.
  - apply list_elem_of_here.
  - change (Chat.permissions "carol") with ["reject"].
    rewrite list_elem_of_singleton. discriminate.
  - reflexivity.
Defined.

Lemma commands_check_no_permission_witness :
  (_cmd_approve Chat.users Chat.permissions Chat.no_admin (fun _ => false)
     Chat.wired ["a1"] 42 "mallory" "Mal" "2024-01-01T10:00:30"
     "2024-01-01 10:00:30" "2024-01-01 10:00:30" 0).2
  = "审批成功" +:+ nl +:+ nl +:+ "审批ID: " +:+ "a1" +:+ nl
    +:+ "处理人: " +:+ "Mal" +:+ nl +:+ nl +:+ "构建将继续执行".
Proof.
  refine (proj1 (proj1
    (commands_check_no_permission Chat.users Chat.permissions Chat.no_admin
       (fun _ => false) Chat.wired Demo.created "a1" [] 42 "mallory" "Mal"
       "2024-01-01T10:00:30" "2024-01-01 10:00:30" "2024-01-01 10:00:30" 0
       (Demo.fresh "a1") _ _ _ _))).
  - reflexivity.
  - reflexivity.
  - reflexivity.
  - vm_compute. discriminate.
Defined.

(** ** The approval manager *)

Section ManagerFacts.
Variable check_approver : string -> bool.
Variable post_proceed : string -> bool.

Abbreviation mprocess := (Mgr.process_approval check_approver post_proceed).

Lemma success_keeps_status (a : Mgr.Approval) :
  Mgr.status (Mgr._handle_approval_success post_proceed a) = Mgr.status a.
Proof.
  unfold Mgr._handle_approval_success.
  by destruct (Mgr.continue_build post_proceed (Mgr.webhook_url a)).
Qed.

Lemma record_rejection_cache (m : Mgr.ApprovalManager)
    (job build envt : string) (by_whom : option string) (now_str : string)
    (ts : Z) :
  Mgr.approval_cache
    (Mgr._record_build_rejection m job build envt by_whom now_str ts)
  = Mgr.approval_cache m.
Proof. reflexivity. Qed.

(** What a successful call of the manager found and what it left. *)
Lemma manager_success_inv (m : Mgr.ApprovalManager) (id act : string)
    (user_id : Mgr.UserId) (username now_str rej_now : string) (rej_ts : Z) :
  (mprocess m id act user_id username now_str rej_now rej_ts).2.1 = true ->
  exists a a',
    Mgr.get_approval m id = Some a
    /\ Mgr.status a = "pending"
    /\ check_approver username = true
    /\ (act = "approved" \/ act = "rejected")
    /\ Mgr.get_approval
         (mprocess m id act user_id username now_str rej_now rej_ts).1 id
       = Some a'
    /\ Mgr.status a' = act
    /\ Mgr.processed_by a' = Some username.
Proof.
  unfold Mgr.process_approval.
  destruct (Mgr.get_approval m id) as [a|] eqn:Ha; [|discriminate].
  case_bool_decide as Hs; cbn [negb]; [|discriminate].
  destruct (check_approver username) eqn:Hc; cbn [negb]; [|discriminate].
  case_bool_decide as Happ.
  - intros _. subst act.
    exists a, (Mgr._handle_approval_success post_proceed
                 (Mgr.approve a user_id username now_str)).
    split; [done|]. split; [done|]. split; [done|]. split; [by left|].
    split.
    { unfold Mgr.get_approval. cbn. apply lookup_insert_eq. }
    split; [by rewrite success_keeps_status|].
    unfold Mgr._handle_approval_success.
    by destruct (Mgr.continue_build _ _).
  - case_bool_decide as Hrej; [|discriminate].
    intros _. subst act.
    exists a, (Mgr.reject a user_id username now_str).
    split; [done|]. split; [done|]. split; [done|]. split; [by right|].
    split; [|done].
    unfold Mgr.get_approval. cbn [fst]. rewrite record_rejection_cache. cbn.
    apply lookup_insert_eq.
Qed.

(** X23.  A rejection is remembered under every spelling of the build
    number.  When a user with the approver permission rejects a pending
    approval, the call succeeds, the approval is rejected in that
    user's name, and [is_build_rejected] answers true for the job and
    environment of the approval and every build number that differs
    from its build number only in leading ['#'] characters. *)
Theorem rejection_is_remembered (m : Mgr.ApprovalManager) (id : string)
    (a : Mgr.Approval) (user_id : Mgr.UserId)
    (username now_str rej_now : string) (rej_ts : Z) :
  Mgr.get_approval m id = Some a ->
  Mgr.status a = "pending" ->
  check_approver username = true ->
  let out := mprocess m id "rejected" user_id username now_str rej_now
               rej_ts in
  out.2 = (true, "处理成功")
  /\ Mgr.get_approval out.1 id
     = Some (Mgr.reject a user_id username now_str)
  /\ (forall build',
        Mgr.lstrip_hash build' = Mgr.lstrip_hash (Mgr.build_number a) ->
        Mgr.is_build_rejected out.1 (Mgr.job_name a) build'
          (Mgr.environment a) = true).
Proof.
  intros Ha Hs Hc out. subst out. unfold Mgr.process_approval.
  rewrite Ha, Hc, (bool_decide_eq_true_2 _ Hs). cbn [negb].
  rewrite (bool_decide_eq_false_2 ("rejected" = "approved")) by discriminate.
  rewrite (bool_decide_eq_true_2 ("rejected" = "rejected")) by reflexivity.
  cbn [fst snd]. split; [reflexivity|]. split.
  { unfold Mgr.get_approval. rewrite record_rejection_cache. cbn.
    apply lookup_insert_eq. }
  intros build' Hb. unfold Mgr.is_build_rejected. rewrite Hb.
  cbn [existsb]. apply orb_true_iff. left.
  apply bool_decide_eq_true_2.
  unfold Mgr._record_build_rejection, Mgr.rejection_keys.
  cbn [Mgr.rejected_builds_cache Mgr.br_job_name Mgr.br_build_number
       Mgr.br_environment foldl Mgr.reject Mgr.processed Mgr.job_name
       Mgr.build_number Mgr.environment].
  destruct (decide
    (Mgr.job_name a +:+ "-#" +:+ Mgr.lstrip_hash (Mgr.build_number a)
       +:+ "-" +:+ Mgr.environment a
     = Mgr.job_name a +:+ "-" +:+ Mgr.lstrip_hash (Mgr.build_number a)
       +:+ "-" +:+ Mgr.environment a)) as [He | Hne].
  - rewrite He, lookup_insert_eq. by eexists.
  - rewrite lookup_insert_ne by done. rewrite lookup_insert_eq. by eexists.
Qed.

(** X24.  A decision of the manager is final, until the build is
    created again.  After a call that succeeded, every later call for
    the same id is refused with "审批已被处理" and changes nothing,
    whoever makes it.  But [create_approval] for the job, build and
    environment of an approval, decided or not, puts a new pending
    approval in its place; the rejection records stay as they are. *)
Theorem manager_decision_is_final (m : Mgr.ApprovalManager)
    (id act : string) (user_id : Mgr.UserId)
    (username now_str rej_now : string) (rej_ts : Z)
    (act' : string) (user_id' : Mgr.UserId)
    (username' now_str' rej_now' : string) (rej_ts' : Z)
    (appr url : option string) (now_str'' : string) (ts : Z) :
  let out := mprocess m id act user_id username now_str rej_now rej_ts in
  out.2.1 = true ->
  mprocess out.1 id act' user_id' username' now_str' rej_now' rej_ts'
  = (out.1, (false, "审批已被处理"))
  /\ (forall a',
        Mgr.get_approval out.1 id = Some a' ->
        let again :=
          Mgr.create_approval out.1 (Mgr.job_name a') (Mgr.build_number a')
            (Mgr.environment a') appr url now_str'' ts in
        again.2 = Mgr.approval_id a'
        /\ (Mgr.status <$> Mgr.get_approval again.1 (Mgr.approval_id a'))
           = Some "pending"
        /\ Mgr.rejected_builds_cache again.1
           = Mgr.rejected_builds_cache out.1).
Proof.
  intros out Hok. subst out.
  destruct (manager_success_inv m id act user_id username now_str rej_now
              rej_ts Hok) as (a & a' & Ha & Hs & Hc & Hact & Ha' & Hs' & _).
  split.
  - unfold Mgr.process_approval at 1. rewrite Ha'.
    rewrite bool_decide_eq_false_2; [reflexivity|].
    rewrite Hs'. destruct Hact as [-> | ->]; discriminate.
  - intros a'' _ again. subst again. unfold Mgr.create_approval.
    cbn [fst snd]. split; [reflexivity|]. split; [|reflexivity].
    unfold Mgr.get_approval. cbn [Mgr.with_cache Mgr.approval_cache].
    change (Mgr.approval_id
              (Mgr.new_approval (Mgr.job_name a'') (Mgr.build_number a'')
                 (Mgr.environment a'') appr url now_str'' ts))
      with (Mgr.approval_id a'').
    by rewrite lookup_insert_eq.
Qed.

Lemma count_three (l : list (string * Mgr.Approval)) :
  Forall (fun kv : string * Mgr.Approval =>
            Mgr.status kv.2 ∈ ["pending"; "approved"; "rejected"]) l ->
  length l
  = (length (filter (fun kv : string * Mgr.Approval =>
                       Mgr.status kv.2 = "pending") l)
     + length (filter (fun kv : string * Mgr.Approval =>
                         Mgr.status kv.2 = "approved") l)
     + length (filter (fun kv : string * Mgr.Approval =>
                         Mgr.status kv.2 = "rejected") l))%nat.
Proof.
  induction 1 as [|kv l Hkv _ IH]; [reflexivity|].
  rewrite !filter_cons.
  repeat (apply elem_of_cons in Hkv as [Hkv | Hkv]);
    [| | |by apply elem_of_nil in Hkv];
    rewrite Hkv; repeat (destruct (decide _) as [?|?]; try done);
    cbn [length]; lia.
Qed.

(** X25.  The statistics add up.  Say that a manager is in order when
    every approval in its cache is pending, approved or rejected.  The
    empty manager is in order; [create_approval] and [process_approval]
    keep a manager in order; and for a manager in order the total of
    [get_approval_statistics] is the sum of its three counts. *)
Theorem statistics_add_up (m : Mgr.ApprovalManager) :
  let in_order (m : Mgr.ApprovalManager) :=
    forall id a, Mgr.approval_cache m !! id = Some a ->
                 Mgr.status a ∈ ["pending"; "approved"; "rejected"] in
  in_order {| Mgr.approval_cache := ∅; Mgr.rejected_builds_cache := ∅ |}
  /\ (in_order m ->
      (forall job build envt appr url now_str ts,
         in_order
           (Mgr.create_approval m job build envt appr url now_str ts).1)
      /\ (forall id act user_id username now_str rej_now rej_ts,
            in_order
              (mprocess m id act user_id username now_str rej_now rej_ts).1)
      /\ Mgr.total (Mgr.get_approval_statistics m)
         = (Mgr.pending (Mgr.get_approval_statistics m)
            + Mgr.approved (Mgr.get_approval_statistics m)
            + Mgr.rejected (Mgr.get_approval_statistics m))%nat).
Proof.
  intros in_order. subst in_order. cbv beta. split.
  { intros id a H. cbn [Mgr.approval_cache] in H.
    by rewrite lookup_empty in H. }
  intros Hm. split; [|split].
  - intros job build envt appr url now_str ts id a. unfold Mgr.create_approval.
    cbn [fst Mgr.with_cache Mgr.approval_cache].
    destruct (decide
      (Mgr.approval_id
         (Mgr.new_approval job build envt appr url now_str ts) = id))
      as [<- | Hne].
    + rewrite lookup_insert_eq. intros [= <-]. apply list_elem_of_here.
    + rewrite lookup_insert_ne by done. apply Hm.
  - intros id act user_id username now_str rej_now rej_ts id' a'.
    unfold Mgr.process_approval.
    destruct (Mgr.get_approval m id) as [a|] eqn:Ha; [|apply Hm].
    destruct (negb (bool_decide (Mgr.status a = "pending"))); [apply Hm|].
    destruct (negb (check_approver username)); [apply Hm|].
    case_bool_decide as Happ.
    + cbn [fst Mgr.with_cache Mgr.approval_cache].
      destruct (decide (id = id')) as [<- | Hne].
      * rewrite lookup_insert_eq. intros [= <-].
        rewrite success_keeps_status. cbn.
        apply list_elem_of_further, list_elem_of_here.
      * rewrite lookup_insert_ne by done. apply Hm.
    + case_bool_decide as Hrej; [|apply Hm].
      cbn [fst]. rewrite record_rejection_cache.
      cbn [Mgr.with_cache Mgr.approval_cache].
      destruct (decide (id = id')) as [<- | Hne].
      * rewrite lookup_insert_eq. intros [= <-]. cbn.
        do 2 apply list_elem_of_further. apply list_elem_of_here.
      * rewrite lookup_insert_ne by done. apply Hm.
  - unfold Mgr.get_approval_statistics, Mgr.count_status.
    cbn [Mgr.total Mgr.pending Mgr.approved Mgr.rejected].
    rewrite <- length_map_to_list. apply count_three.
    apply Forall_forall. intros [id a] Hin.
    apply elem_of_map_to_list in Hin. by apply (Hm id a).
Qed.

End ManagerFacts.

Lemma rejection_is_remembered_witness :
  Mgr.is_build_rejected
    (Mgr.process_approval (fun _ => true) (fun _ => false) Chat.manager
       "deploy-#7-prod" "rejected" (Mgr.IntId 42) "alice"
       "2024-01-01 10:00:30" "2024-01-01 10:00:30" 1704103230).1
    "deploy" "7" "prod"
  = true.
Proof.
  refine (proj2 (proj2
    (rejection_is_remembered (fun _ => true) (fun _ => false) Chat.manager
       "deploy-#7-prod" Chat.approval (Mgr.IntId 42) "alice"
       "2024-01-01 10:00:30" "2024-01-01 10:00:30" 1704103230 _ _ _))
    "7" _).
  - reflexivity.
  - reflexivity.
  - reflexivity.
  - reflexivity.
Defined.

Lemma manager_decision_is_final_witness :
  Mgr.process_approval (fun _ => true) (fun _ => false)
    (Mgr.process_approval (fun _ => true) (fun _ => false) Chat.manager
       "deploy-#7-prod" "approved" (Mgr.IntId 42) "alice"
       "2024-01-01 10:00:30" "2024-01-01 10:00:30" 1704103230).1
    "deploy-#7-prod" "rejected" (Mgr.IntId 43) "bob"
    "2024-01-01 10:00:40" "2024-01-01 10:00:40" 1704103240
  = ((Mgr.process_approval (fun _ => true) (fun _ => false) Chat.manager
        "deploy-#7-prod" "approved" (Mgr.IntId 42) "alice"
        "2024-01-01 10:00:30" "2024-01-01 10:00:30" 1704103230).1,
     (false, "审批已被处理")).
Proof.
  refine (proj1
    (manager_decision_is_final (fun _ => true) (fun _ => false) Chat.manager
       "deploy-#7-prod" "approved" (Mgr.IntId 42) "alice"
       "2024-01-01 10:00:30" "2024-01-01 10:00:30" 1704103230
       "rejected" (Mgr.IntId 43) "bob"
       "2024-01-01 10:00:40" "2024-01-01 10:00:40" 1704103240
       None None "2024-01-01 10:05:00" 1704103500 _)).
  vm_compute. reflexivity.
Defined.

Lemma statistics_add_up_witness :
  Mgr.total (Mgr.get_approval_statistics Chat.manager)
  = (Mgr.pending (Mgr.get_approval_statistics Chat.manager)
     + Mgr.approved (Mgr.get_approval_statistics Chat.manager)
     + Mgr.rejected (Mgr.get_approval_statistics Chat.manager))%nat.
Proof.
  refine (proj2 (proj2 (proj2
    (statistics_add_up (fun _ => true) (fun _ => false) Chat.manager) _))).
  intros id a H.
  destruct (decide (id = "deploy-#7-prod")) as [-> | Hne].
  - vm_compute in H. injection H as <-. apply list_elem_of_here.
  - unfold Chat.manager in H. cbn [Mgr.approval_cache] in H.
    rewrite lookup_singleton_ne in H by done. discriminate.
Defined.

Section BuildResultFacts.
Variable check_approver : string -> bool.
Variable post_proceed : string -> bool.

(** X26.  Build results are announced for approved builds only.  Say
    that the notify flags of a manager are earned when every approval
    that has [should_notify_build_result] set is approved, by a user
    with the approver permission, and has a webhook address on which
    Jenkins answered the request to proceed with 200.  The flags of the
    empty manager are earned, [create_approval] and [process_approval]
    keep them earned, and then [build_result] answers otherwise than
    ['skipped'] only for an approval that is approved in this way. *)
Theorem build_result_needs_approval (m : Mgr.ApprovalManager)
    (telegram_handler : bool) (project build env : option string) :
  let earned (m : Mgr.ApprovalManager) :=
    forall id a,
      Mgr.approval_cache m !! id = Some a ->
      Mgr.should_notify_build_result a = true ->
      Mgr.status a = "approved"
      /\ (exists who, Mgr.processed_by a = Some who
                      /\ check_approver who = true)
      /\ (exists url, Mgr.webhook_url a = Some url
                      /\ url <> "" /\ post_proceed url = true) in
  earned {| Mgr.approval_cache := ∅; Mgr.rejected_builds_cache := ∅ |}
  /\ (earned m ->
      (forall job b e appr url now_str ts,
         earned (Mgr.create_approval m job b e appr url now_str ts).1)
      /\ (forall id act user_id username now_str rej_now rej_ts,
            earned
              (Mgr.process_approval check_approver post_proceed m id act
                 user_id username now_str rej_now rej_ts).1)
      /\ (forall id sent,
            build_result m telegram_handler project build env
            = BuildNotified id sent ->
            exists a,
              Mgr.get_approval m id = Some a
              /\ Mgr.status a = "approved"
              /\ (exists who, Mgr.processed_by a = Some who
                              /\ check_approver who = true)
              /\ (exists url, Mgr.webhook_url a = Some url
                              /\ url <> "" /\ post_proceed url = true))).
Proof.
  intros earned. subst earned. cbv beta. split.
  { intros id a H. cbn [Mgr.approval_cache] in H.
    by rewrite lookup_empty in H. }
  intros Hm. split; [|split].
  - intros job b e appr url now_str ts id a. unfold Mgr.create_approval.
    cbn [fst Mgr.with_cache Mgr.approval_cache].
    destruct (decide
      (Mgr.approval_id (Mgr.new_approval job b e appr url now_str ts) = id))
      as [<- | Hne].
    + rewrite lookup_insert_eq. intros [= <-]. discriminate.
    + rewrite lookup_insert_ne by done. apply Hm.
  - intros id act user_id username now_str rej_now rej_ts id' a'.
    unfold Mgr.process_approval.
    destruct (Mgr.get_approval m id) as [a|] eqn:Ha; [|apply Hm].
    case_bool_decide as Hs; cbn [negb]; [|apply Hm].
    destruct (check_approver username) eqn:Hc; cbn [negb]; [|apply Hm].
    assert (Hflag : Mgr.should_notify_build_result a = false).
    { destruct (Mgr.should_notify_build_result a) eqn:Hf; [|done].
      destruct (Hm id a Ha Hf) as [Hst _]. rewrite Hs in Hst.
      discriminate. }
    case_bool_decide as Happ.
    + cbn [fst Mgr.with_cache Mgr.approval_cache].
      destruct (decide (id = id')) as [<- | Hne].
      * rewrite lookup_insert_eq. intros [= <-].
        set (a1 := Mgr.approve a user_id username now_str).
        assert (Hflag1 : Mgr.should_notify_build_result a1 = false)
          by exact Hflag.
        unfold Mgr._handle_approval_success, Mgr.continue_build.
        destruct (Mgr.webhook_url a1) as [u|] eqn:Hu;
          [|by rewrite Hflag1].
        case_bool_decide as He; [by rewrite Hflag1|].
        destruct (post_proceed u) eqn:Hp; [|by rewrite Hflag1].
        intros _. split; [reflexivity|]. split; [by exists username|].
        exists u. done.
      * rewrite lookup_insert_ne by done. apply Hm.
    + case_bool_decide as Hrej; [|apply Hm].
      cbn [fst Mgr._record_build_rejection Mgr.with_cache
           Mgr.approval_cache].
      destruct (decide (id = id')) as [<- | Hne].
      * rewrite lookup_insert_eq. intros [= <-].
        change (Mgr.should_notify_build_result
                  (Mgr.reject a user_id username now_str))
          with (Mgr.should_notify_build_result a).
        by rewrite Hflag.
      * rewrite lookup_insert_ne by done. apply Hm.
  - intros id sent. unfold build_result.
    destruct (Mgr.get_approval m _) as [a|] eqn:Ha; [|discriminate].
    destruct (Mgr.should_notify_build_result a) eqn:Hf; [|discriminate].
    intros [= <- <-]. exists a. split; [done|]. exact (Hm _ a Ha Hf).
Qed.

End BuildResultFacts.

Lemma build_result_needs_approval_witness :
  build_result Chat.proceeded true (Some "deploy") (Some "7") (Some "prod")
  = BuildNotified "deploy-7-prod" true
  /\ exists a,
       Mgr.get_approval Chat.proceeded "deploy-7-prod" = Some a
       /\ Mgr.status a = "approved"
       /\ (exists who, Mgr.processed_by a = Some who
                       /\ (fun _ : string => true) who = true)
       /\ (exists url, Mgr.webhook_url a = Some url
                       /\ url <> "" /\ (fun _ : string => true) url = true).
Proof.
  assert (Hrun : build_result Chat.proceeded true (Some "deploy") (Some "7")
                   (Some "prod") = BuildNotified "deploy-7-prod" true)
    by (vm_compute; reflexivity).
  split; [exact Hrun|].
  pose proof (build_result_needs_approval (fun _ => true) (fun _ => true))
    as T.
  pose proof (proj1 (T Chat.empty true None None None)) as E0.
  pose proof (proj1 (proj2 (T Chat.empty true None None None) E0)
                "deploy" "7" "prod" None (Some "http://jenkins/proceed")
                "2024-01-01 10:00:00" 1704103200) as E1.
  pose proof (proj1 (proj2 (proj2 (T Chat.hooked true None None None) E1))
                "deploy-7-prod" "approved" (Mgr.IntId 42) "alice"
                "2024-01-01 10:00:30" "2024-01-01 10:00:30" 1704103230)
    as E2.
  exact (proj2 (proj2 (proj2
           (T Chat.proceeded true (Some "deploy") (Some "7") (Some "prod"))
           E2))
           "deploy-7-prod" true Hrun).
Defined.
